(** * simplestore: resource handlers of the store

    A shallow embedding of [client/resources/simplestore/handlers.go]:
    the cart and order handlers run in a small state-and-error monad over
    the persisted documents (one cart file per user, one directory of
    numbered order files per user), and the properties of carts, order
    ids, totals and failure paths are proved about that embedding. *)

From Stdlib Require Import ZArith Floats.PrimFloat Floats.FloatOps Floats.SpecFloat.
From stdpp Require Import gmap strings list fin_maps.

Local Open Scope Z_scope.

(** ** Machine numbers *)

(** Go's [uint32] and [int64] arithmetic wraps around. *)
Definition uint32 (z : Z) : Z := z mod 2 ^ 32.

Definition int64_min : Z := - 2 ^ 63.
Definition int64_max : Z := 2 ^ 63 - 1.
Definition int64 (z : Z) : Z := (z + 2 ^ 63) mod 2 ^ 64 - 2 ^ 63.

Definition int64_add (a b : Z) : Z := int64 (a + b).
Definition int64_mul (a b : Z) : Z := int64 (a * b).

(** A [float64] is a binary64 number; [truncate_float] drops the
    fractional part of a finite one. *)
Definition truncate_float (f : float) : option Z :=
  match Prim2SF f with
  | S754_zero _ => Some 0
  | S754_finite s m e =>
      let mag := match e with
                 | Z0 => Zpos m
                 | Zpos p => Zpos m * 2 ^ Zpos p
                 | Zneg p => Zpos m / 2 ^ Zpos p
                 end in
      Some (if s then - mag else mag)
  | S754_infinity _ | S754_nan => None
  end.

(** The conversion [int64(f)].  Go leaves the result open when the value
    does not fit; amd64 yields the smallest [int64] there. *)
Definition int64_of_float (f : float) : Z :=
  match truncate_float f with
  | Some z => if (int64_min <=? z) && (z <=? int64_max) then z else int64_min
  | None => int64_min
  end.

(** [int64(x*100)]: a dollar amount as a whole number of cents. *)
Definition cents (x : float) : Z := int64_of_float (PrimFloat.mul x 100%float).

(** ** Data model

    The types are declared in the package's [types.go]; the fields are the
    ones the handlers use. A [clientintf.UserID] is kept as its [String()]
    form, which is the file name the handlers derive from it. *)

Abbreviation UserID := string (only parsing).
Abbreviation Time := Z (only parsing).

Record Product := {
  SKU : string;
  Title : string;
  Price : float
}.

(** [CartItem{Product *Product; Quantity uint32}]. *)
Record CartItem := {
  ci_Product : Product;
  ci_Quantity : Z
}.

Record Cart := {
  Items : list CartItem;
  Updated : Time
}.

(** [var cart Cart]: the zero value, which a missing cart file leaves
    untouched. *)
Definition zeroCart : Cart := {| Items := []; Updated := 0 |}.

Inductive PayType := PayTypeNone | PayTypeOnChain | PayTypeLN.

Inductive OrderStatus := StatusUnset | StatusPlaced.

(** Order numbers are kept as natural numbers: the integer types of
    [OrderID] and of the id that [Last] answers are declared outside the
    handlers, which only add one to the latter and convert. *)
Record Order := {
  o_User : UserID;
  o_Cart : Cart;
  o_ID : N;
  o_Status : OrderStatus;
  o_PlacedTS : Time;
  o_ShipCharge : float;
  o_ExchangeRate : float;
  o_PayType : PayType;
  o_Invoice : string
}.

Definition set_ExchangeRate (r : float) (o : Order) : Order :=
  {| o_User := o_User o; o_Cart := o_Cart o; o_ID := o_ID o;
     o_Status := o_Status o; o_PlacedTS := o_PlacedTS o;
     o_ShipCharge := o_ShipCharge o; o_ExchangeRate := r;
     o_PayType := o_PayType o; o_Invoice := o_Invoice o |}.

Definition set_Payment (pt : PayType) (inv : string) (o : Order) : Order :=
  {| o_User := o_User o; o_Cart := o_Cart o; o_ID := o_ID o;
     o_Status := o_Status o; o_PlacedTS := o_PlacedTS o;
     o_ShipCharge := o_ShipCharge o; o_ExchangeRate := o_ExchangeRate o;
     o_PayType := pt; o_Invoice := inv |}.

(** ** Persisted state

    One cart document per user under the carts directory, and for every
    user a directory of order documents named [order-<id>.json]. *)
Record FS := {
  carts : gmap string Cart;
  orders : gmap string (gmap N Order)
}.

(** The order directory of a user; a directory that does not exist holds
    no order file. *)
Definition orderDir (fs : FS) (uid : UserID) : gmap N Order :=
  default ∅ (orders fs !! uid).

(** ** Requests, replies, errors *)

Record RMFetchResource := { Path : list string }.

Inductive ResourceStatus := ResourceStatusOk | ResourceStatusNotFound.

Record RMFetchResourceReply := {
  Data : string;
  Status : ResourceStatus
}.

Inductive error :=
| ErrIO (cause : string)
    (* an error of jsonfile or os, handed back as it is *)
| ErrProductDoesNotExist
| ErrUnknownUser (id : N) (user : UserID)
| ErrExecTemplate (which : string) (cause : string).

(** What a call ends in: the returned pair [(reply, nil)] or [(nil, err)],
    or a run-time panic. *)
Inductive outcome (A : Type) :=
| Ok (a : A)
| Err (e : error)
| Panic (reason : string).
Arguments Ok {A} a.
Arguments Err {A} e.
Arguments Panic {A} reason.

(** ** What a handler does besides returning *)

(** The text sent to the buyer, one entry per [wpm] call, with the values
    that are formatted into it. *)
Inductive msgLine :=
| MsgThanks (id : N)
| MsgItemsHeader
| MsgItem (sku title : string) (quantity : Z) (price : float) (totalItemUSDCents : Z)
| MsgTotalItemAmount (totalUSDCents : Z)
| MsgShipping (shipCharge : float)
| MsgTotalAmount (totalUSDCents : Z)
| MsgExchangeRate (rate : float) (totalDCR : Z)
| MsgOnchainAddr (addr : string)
| MsgLNInvoice (invoice : string)
| MsgContactedShortly.

Inductive file :=
| CartFile (uid : UserID)
| OrderFile (uid : UserID) (id : N).

Inductive event :=
| WarnNoExchangeRateProvider
| WarnInvalidExchangeRate (nick : string) (id : N)
| WarnZeroTotalDCR
| ErrorOnchainAddr (nick : string) (cause : string)
| WarnLNNotSetup (nick : string) (id : N)
| WarnLNInvoice (nick : string) (id : N) (cause : string)
| OrderPlacedCalled (o : Order) (msg : list msgLine)
| Wrote (f : file)
| Removed (f : file).

(** ** The store and its collaborators *)

Inductive tmplFile :=
| indexTmplFile | prodTmplFile | addToCartTmplFile
| cartTmplFile | orderPlacedTmplFile | ordersTmplFile.

Inductive tmplCtx :=
| indexContext (Products : gmap string Product) (IsAdmin : bool)
| productContext (p : Product)
| addToCartContext (p : Product) (c : Cart)
| cartContext (c : Cart)
| orderContext (o : Order).

Record Config := {
  ShipCharge : float;
  cfg_PayType : PayType;
  Account : string;
  (* nil, or the rate the provider answers with *)
  ExchangeRateProvider : option float;
  (* whether the OrderPlaced callback is set *)
  OrderPlaced : bool
}.

Record Store := {
  products : gmap string Product;
  cfg : Config;
  (* s.c: the client *)
  PublicID : UserID;
  UserByID : UserID -> option string;
  OnchainRecvAddrForUser : UserID -> string -> string + string;
  (* s.lnpc: nil, or GetInvoice *)
  lnpc : option (Z -> string + string);
  (* s.tmpl.ExecuteTemplate: the rendered bytes, or the error *)
  ExecuteTemplate : tmplFile -> tmplCtx -> string + string
}.

(** What the operating system answers during one call: the clock, and for
    each file operation whether it fails. *)
Record World := {
  now : Time;
  readErr : option string;
  lastErr : option string;
  writeErr : option string;
  removeErr : option string
}.

(** ** The handler monad: persisted state, the trace of effects, and an
    outcome. State changes made before an error stay. *)
Record St := { fs : FS; trace : list event }.

Definition M (A : Type) : Type := St -> outcome A * St.

Definition throw {A} (e : error) : M A := fun st => (Err e, st).
Definition panic {A} (reason : string) : M A := fun st => (Panic reason, st).

#[global] Instance M_ret : MRet M := fun A a st => (Ok a, st).
#[global] Instance M_bind : MBind M := fun A B k m st =>
  match m st with
  | (Ok a, st') => k a st'
  | (Err e, st') => (Err e, st')
  | (Panic r, st') => (Panic r, st')
  end.

Definition emit (e : event) : M unit :=
  fun st => (Ok tt, {| fs := fs st; trace := trace st ++ [e] |}).
Definition getFS : M FS := fun st => (Ok (fs st), st).
Definition putFS (f : FS) : M unit :=
  fun st => (Ok tt, {| fs := f; trace := trace st |}).
Definition when (b : bool) (m : M unit) : M unit := if b then m else mret tt.

(** Running a handler on a persisted state, from an empty trace. *)
Definition exec {A} (m : M A) (f : FS) : outcome A * St :=
  m {| fs := f; trace := [] |}.

(** ** jsonfile

    The package [internal/jsonfile] is outside the files at hand; its four
    operations are taken from the way the handlers use them and from the
    description of the persistence layer. *)

Inductive jsonErr :=
| ErrNotFound
| ErrOther (cause : string).

(** Modelled from the spec: [jsonfile.Read] of a user's cart file. A
    missing document is reported as [ErrNotFound] and leaves the
    destination untouched; any other failure is an error of its own. *)
Definition jsonfile_Read (w : World) (uid : UserID) (dst : Cart)
  : M (Cart * option jsonErr) :=
  f ← getFS;
  match readErr w with
  | Some e => mret (dst, Some (ErrOther e))
  | None =>
      match carts f !! uid with
      | Some c => mret (c, None)
      | None => mret (dst, Some ErrNotFound)
      end
  end.

(** Modelled from the spec: [jsonfile.Write] replaces the document as a
    whole (write to a temporary file, then rename) or fails and leaves
    the directory as it was. *)
Definition jsonfile_Write_cart (w : World) (uid : UserID) (c : Cart)
  : M (option jsonErr) :=
  match writeErr w with
  | Some e => mret (Some (ErrOther e))
  | None =>
      f ← getFS;
      putFS {| carts := <[uid := c]> (carts f); orders := orders f |};;
      emit (Wrote (CartFile uid));;
      mret None
  end.

Definition jsonfile_Write_order (w : World) (uid : UserID) (id : N) (o : Order)
  : M (option jsonErr) :=
  match writeErr w with
  | Some e => mret (Some (ErrOther e))
  | None =>
      f ← getFS;
      putFS {| carts := carts f;
               orders := <[uid := <[id := o]> (orderDir f uid)]> (orders f) |};;
      emit (Wrote (OrderFile uid id));;
      mret None
  end.

(** Modelled from the spec: [jsonfile.RemoveIfExists] deletes the
    document and tolerates that it is already absent. *)
Definition jsonfile_RemoveIfExists (w : World) (uid : UserID)
  : M (option jsonErr) :=
  match removeErr w with
  | Some e => mret (Some (ErrOther e))
  | None =>
      f ← getFS;
      match carts f !! uid with
      | Some _ =>
          putFS {| carts := delete uid (carts f); orders := orders f |};;
          emit (Removed (CartFile uid));;
          mret None
      | None => mret None
      end
  end.

(** Modelled from the spec: [orderFnamePattern.Last] scans the order
    file names of a directory and answers the highest sequence number,
    zero when there is no order file. *)
Definition lastID (dir : gmap N Order) : N :=
  foldr N.max 0%N (map_to_list dir).*1.

Definition orderFnamePattern_Last (w : World) (uid : UserID)
  : M (N * option jsonErr) :=
  match lastErr w with
  | Some e => mret (0%N, Some (ErrOther e))
  | None => f ← getFS; mret (lastID (orderDir f uid), None)
  end.

(** An error of jsonfile as the handler hands it back. *)
Definition ioError (e : jsonErr) : error :=
  match e with
  | ErrNotFound => ErrIO "file not found"
  | ErrOther cause => ErrIO cause
  end.

(** [err != nil && !errors.Is(err, jsonfile.ErrNotFound)] *)
Definition fatalRead (err : option jsonErr) : option jsonErr :=
  match err with
  | Some ErrNotFound => None
  | Some e => Some e
  | None => None
  end.

(** ** Handlers *)

Definition handleNotFound (s : Store) (w : World) (uid : UserID)
    (request : RMFetchResource) : M RMFetchResourceReply :=
  mret {| Data := ""; Status := ResourceStatusNotFound |}.

(** [request.Path[1]]: indexing a slice panics out of range. *)
Definition Path_1 (request : RMFetchResource) : M string :=
  match Path request !! 1%nat with
  | Some seg => mret seg
  | None => panic "index out of range [1]"
  end.

Definition handleIndex (s : Store) (w : World) (uid : UserID)
    (request : RMFetchResource) : M RMFetchResourceReply :=
  let tmplCtx := indexContext (products s) (bool_decide (uid = PublicID s)) in
  match ExecuteTemplate s indexTmplFile tmplCtx with
  | inr err => throw (ErrExecTemplate "index" err)
  | inl data => mret {| Data := data; Status := ResourceStatusOk |}
  end.

Definition handleProduct (s : Store) (w : World) (uid : UserID)
    (request : RMFetchResource) : M RMFetchResourceReply :=
  sku ← Path_1 request;
  match products s !! sku with
  | None => handleNotFound s w uid request
  | Some prod =>
      match ExecuteTemplate s prodTmplFile (productContext prod) with
      | inr err => throw (ErrExecTemplate "product" err)
      | inl data => mret {| Data := data; Status := ResourceStatusOk |}
      end
  end.

(** The loop over [cart.Items] of [handleAddToCart]: the first item whose
    product has the SKU gets its quantity raised by one, in place, and the
    loop stops there. Answers the items and [hasItem]. *)
Fixpoint bumpQuantity (sku : string) (items : list CartItem)
  : list CartItem * bool :=
  match items with
  | [] => ([], false)
  | item :: rest =>
      if decide (SKU (ci_Product item) = sku) then
        ({| ci_Product := ci_Product item;
            ci_Quantity := uint32 (ci_Quantity item + 1) |} :: rest, true)
      else
        let '(rest', hasItem) := bumpQuantity sku rest in
        (item :: rest', hasItem)
  end.

Definition handleAddToCart (s : Store) (w : World) (uid : UserID)
    (request : RMFetchResource) : M RMFetchResourceReply :=
  sku ← Path_1 request;
  match products s !! sku with
  | None => throw ErrProductDoesNotExist
  | Some prod =>
      '(cart, err) ← jsonfile_Read w uid zeroCart;
      match fatalRead err with
      | Some e => throw (ioError e)
      | None =>
          let '(items, hasItem) := bumpQuantity (SKU prod) (Items cart) in
          let items :=
            if hasItem then items
            else items ++ [{| ci_Product := prod; ci_Quantity := 1 |}] in
          let cart := {| Items := items; Updated := now w |} in
          err ← jsonfile_Write_cart w uid cart;
          match err with
          | Some e => throw (ioError e)
          | None =>
              match ExecuteTemplate s addToCartTmplFile
                      (addToCartContext prod cart) with
              | inr err => throw (ErrExecTemplate "product" err)
              | inl data => mret {| Data := data; Status := ResourceStatusOk |}
              end
          end
      end
  end.

Definition handleCart (s : Store) (w : World) (uid : UserID)
    (request : RMFetchResource) : M RMFetchResourceReply :=
  '(cart, err) ← jsonfile_Read w uid zeroCart;
  match fatalRead err with
  | Some e => throw (ioError e)
  | None =>
      match ExecuteTemplate s cartTmplFile (cartContext cart) with
      | inr err => throw (ErrExecTemplate "product" err)
      | inl data => mret {| Data := data; Status := ResourceStatusOk |}
      end
  end.

(** Modelled from the spec: [Cart.TotalCents], declared next to the types
    and not part of these sources. The specification gives the item total
    as the sum of the per-item subtotals, in [int64] arithmetic. The
    subtotal taken here is the one [handlePlaceOrder] itself computes for
    an item line, [int64(item.Quantity) * int64(item.Product.Price*100)],
    so that the item lines and the total of one confirmation agree. The
    conversion [int64(x*100)] cuts the fraction of a cent off where the
    specification speaks of rounding to cent precision; [roundedCents]
    is the rounded amount. *)
Definition itemCents (item : CartItem) : Z :=
  int64_mul (ci_Quantity item) (cents (Price (ci_Product item))).

Definition TotalCents (c : Cart) : Z :=
  fold_left (fun totalCents item => int64_add totalCents (itemCents item))
            (Items c) 0.

Section PlaceOrder.

(** [Order.TotalDCR], declared next to the types: the amount in the
    settlement currency, in atoms, derived from the order and its
    exchange rate. *)
Variable TotalDCR : Order -> Z.

(** One line of the confirmation per item of the order. *)
Definition itemLine (item : CartItem) : msgLine :=
  let totalItemUSDCents :=
    int64_mul (ci_Quantity item) (cents (Price (ci_Product item))) in
  MsgItem (SKU (ci_Product item)) (Title (ci_Product item))
          (ci_Quantity item) (Price (ci_Product item)) totalItemUSDCents.

(** The totals block: the lines written, and [totalUSDCents] after it. *)
Definition totalsLines (s : Store) (order : Order) : list msgLine * Z :=
  let totalUSDCents := TotalCents (o_Cart order) in
  if (0 <? totalUSDCents) && PrimFloat.ltb 0%float (ShipCharge (cfg s)) then
    let totalUSDCents' :=
      int64_add totalUSDCents (cents (ShipCharge (cfg s))) in
    ([MsgTotalItemAmount totalUSDCents; MsgShipping (ShipCharge (cfg s));
      MsgTotalAmount totalUSDCents'], totalUSDCents')
  else
    ([MsgTotalAmount totalUSDCents], totalUSDCents).

(** The [switch] that settles how the order is paid: the order with its
    payment fields, and the lines added to the confirmation. *)
Definition resolvePayment (s : Store) (nick : string) (order : Order)
    (totalDCR : Z) : M (Order * list msgLine) :=
  match ExchangeRateProvider (cfg s) with
  | None => emit WarnNoExchangeRateProvider;; mret (order, [])
  | Some _ =>
      if PrimFloat.leb (o_ExchangeRate order) 0%float then
        emit (WarnInvalidExchangeRate nick (o_ID order));; mret (order, [])
      else if totalDCR =? 0 then
        emit WarnZeroTotalDCR;; mret (order, [])
      else
        match cfg_PayType (cfg s) with
        | PayTypeOnChain =>
            match OnchainRecvAddrForUser s (o_User order) (Account (cfg s)) with
            | inr err => emit (ErrorOnchainAddr nick err);; mret (order, [])
            | inl addr =>
                mret (set_Payment PayTypeOnChain addr order, [MsgOnchainAddr addr])
            end
        | PayTypeLN =>
            match lnpc s with
            | None => emit (WarnLNNotSetup nick (o_ID order));; mret (order, [])
            | Some GetInvoice =>
                match GetInvoice (int64_mul totalDCR 1000) with
                | inr err =>
                    emit (WarnLNInvoice nick (o_ID order) err);; mret (order, [])
                | inl invoice =>
                    mret (set_Payment PayTypeLN invoice order,
                          [MsgLNInvoice invoice])
                end
            end
        | PayTypeNone => mret (order, [MsgContactedShortly])
        end
  end.

Definition handlePlaceOrder (s : Store) (w : World) (uid : UserID)
    (request : RMFetchResource) : M RMFetchResourceReply :=
  '(cart, err) ← jsonfile_Read w uid zeroCart;
  match fatalRead err with
  | Some e => throw (ioError e)
  | None =>
      if (length (Items cart) =? 0)%nat then
        mret {| Data := "No items in order"; Status := ResourceStatusOk |}
      else
        (* Create the order. *)
        '(lastID, err) ← orderFnamePattern_Last w uid;
        match err with
        | Some e => throw (ioError e)
        | None =>
            let id := (lastID + 1)%N in
            let order :=
              {| o_User := uid; o_Cart := cart; o_ID := id;
                 o_Status := StatusPlaced; o_PlacedTS := now w;
                 o_ShipCharge := ShipCharge (cfg s);
                 o_ExchangeRate := 0%float;
                 o_PayType := PayTypeNone; o_Invoice := "" |} in
            match UserByID s (o_User order) with
            | None => throw (ErrUnknownUser (o_ID order) (o_User order))
            | Some nick =>
                let b := [MsgThanks (o_ID order); MsgItemsHeader]
                         ++ map itemLine (Items (o_Cart order)) in
                let b := b ++ fst (totalsLines s order) in
                let order :=
                  match ExchangeRateProvider (cfg s) with
                  | Some rate => set_ExchangeRate rate order
                  | None => order
                  end in
                let totalDCR := TotalDCR order in
                let b :=
                  if 0 <? totalDCR then
                    b ++ [MsgExchangeRate (o_ExchangeRate order) totalDCR]
                  else b in
                '(order, lines) ← resolvePayment s nick order totalDCR;
                let b := b ++ lines in
                when (OrderPlaced (cfg s)) (emit (OrderPlacedCalled order b));;
                (* Save order. *)
                err ← jsonfile_Write_order w uid id order;
                match err with
                | Some e => throw (ioError e)
                | None =>
                    (* Clear cart. *)
                    err ← jsonfile_RemoveIfExists w uid;
                    match err with
                    | Some e => throw (ioError e)
                    | None =>
                        (* Render result. *)
                        match ExecuteTemplate s orderPlacedTmplFile
                                (orderContext order) with
                        | inr err => throw (ErrExecTemplate "product" err)
                        | inl data =>
                            mret {| Data := data; Status := ResourceStatusOk |}
                        end
                    end
                end
            end
        end
  end.

End PlaceOrder.

(** ** Observations on a call *)

(** The cart of a user as a handler loads it: the zero cart when there is
    no cart file. *)
Definition cartOf (f : FS) (uid : UserID) : Cart :=
  default zeroCart (carts f !! uid).

Definition skus (items : list CartItem) : list string :=
  map (fun item => SKU (ci_Product item)) items.

(** At most one item per SKU. *)
Definition atMostOnePerSKU (c : Cart) : Prop := NoDup (skus (Items c)).

Definition bump (item : CartItem) : CartItem :=
  {| ci_Product := ci_Product item;
     ci_Quantity := uint32 (ci_Quantity item + 1) |}.

(** The sum of quantity times unit price in cents, over the integers. *)
Definition sumCents (items : list CartItem) : Z :=
  foldr (fun item acc => ci_Quantity item * cents (Price (ci_Product item)) + acc)
        0 items.

Definition in_int64 (z : Z) : Prop := int64_min <= z <= int64_max.

Definition isLog (e : event) : bool :=
  match e with
  | Wrote _ | Removed _ | OrderPlacedCalled _ _ => false
  | _ => true
  end.

(** The order files written for a user, in the order of the trace. *)
Definition orderWritten (uid : UserID) (e : event) : option N :=
  match e with
  | Wrote (OrderFile u id) => if decide (u = uid) then Some id else None
  | _ => None
  end.

Definition ordersWritten (uid : UserID) (evs : list event) : list N :=
  omap (orderWritten uid) evs.

(** The grand totals written into a confirmation. *)
Definition totalAmount (l : msgLine) : option Z :=
  match l with
  | MsgTotalAmount c => Some c
  | _ => None
  end.

(** The cart [handleAddToCart] saves when asked for a product. *)
Definition addedCart (prod : Product) (w : World) (c : Cart) : Cart :=
  let '(items, hasItem) := bumpQuantity (SKU prod) (Items c) in
  {| Items := if hasItem then items
              else items ++ [{| ci_Product := prod; ci_Quantity := 1 |}];
     Updated := now w |}.

(** ** The order a placement builds

    The values [handlePlaceOrder] computes on its way, named so that the
    properties below can speak about them. *)

Section Placement.

Variable TotalDCR : Order -> Z.
Variables (s : Store) (w : World) (uid : UserID) (f : FS).

(** [id := lastID.ID + 1] *)
Definition nextOrderID : N := (lastID (orderDir f uid) + 1)%N.

(** The order as first constructed, then with the exchange rate. *)
Definition newOrder : Order :=
  {| o_User := uid; o_Cart := cartOf f uid; o_ID := nextOrderID;
     o_Status := StatusPlaced; o_PlacedTS := now w;
     o_ShipCharge := ShipCharge (cfg s); o_ExchangeRate := 0%float;
     o_PayType := PayTypeNone; o_Invoice := "" |}.

Definition ratedOrder : Order :=
  match ExchangeRateProvider (cfg s) with
  | Some rate => set_ExchangeRate rate newOrder
  | None => newOrder
  end.

(** What the payment switch answers and logs. *)
Definition paymentOutcome (nick : string) : outcome (Order * list msgLine) * St :=
  resolvePayment s nick ratedOrder (TotalDCR ratedOrder)
    {| fs := f; trace := [] |}.

Definition paymentLog (nick : string) : list event :=
  trace (paymentOutcome nick).2.

(** The order that is saved. *)
Definition placedOrder (nick : string) : Order :=
  match (paymentOutcome nick).1 with
  | Ok (o, _) => o
  | _ => ratedOrder
  end.

(** The confirmation handed to the [OrderPlaced] callback. *)
Definition confirmation (nick : string) : list msgLine :=
  ((([MsgThanks nextOrderID; MsgItemsHeader] ++ map itemLine (Items (cartOf f uid)))
    ++ fst (totalsLines s newOrder))
   ++ (if 0 <? TotalDCR ratedOrder
       then [MsgExchangeRate (o_ExchangeRate ratedOrder) (TotalDCR ratedOrder)]
       else []))
  ++ match (paymentOutcome nick).1 with
     | Ok (_, lines) => lines
     | _ => []
     end.

(** The trace up to the point where the order is saved. *)
Definition placingTrace (nick : string) : list event :=
  paymentLog nick
  ++ (if OrderPlaced (cfg s)
      then [OrderPlacedCalled (placedOrder nick) (confirmation nick)]
      else []).

(** The disk after the order file is written, and after the cart file is
    removed as well. *)
Definition savedFS (nick : string) : FS :=
  {| carts := carts f;
     orders := <[uid := <[nextOrderID := placedOrder nick]> (orderDir f uid)]>
                 (orders f) |}.

Definition clearedFS (nick : string) : FS :=
  {| carts := delete uid (carts f); orders := orders (savedFS nick) |}.

(** The grand total of the confirmation: [totalUSDCents] after the
    shipping charge is settled. *)
Definition grandTotalCents : Z := snd (totalsLines s newOrder).

End Placement.

(** ** Sequences of calls *)

(** [handleOrders], which only lists the order files of a user, is left
    out. *)
Inductive handler :=
| HNotFound | HIndex | HProduct | HCart | HAddToCart | HPlaceOrder.

Record invocation := {
  inv_handler : handler;
  inv_uid : UserID;
  inv_request : RMFetchResource;
  inv_world : World
}.

Section Run.

Variable TotalDCR : Order -> Z.
Variable s : Store.

Definition dispatch (i : invocation) : M RMFetchResourceReply :=
  let h :=
    match inv_handler i with
    | HNotFound => handleNotFound
    | HIndex => handleIndex
    | HProduct => handleProduct
    | HCart => handleCart
    | HAddToCart => handleAddToCart
    | HPlaceOrder => handlePlaceOrder TotalDCR
    end in
  h s (inv_world i) (inv_uid i) (inv_request i).

(** The calls run one after the other under the store's lock, each on the
    disk the one before left, whatever it returned. Answers the disk at
    the end and the effects of all calls in order. *)
Fixpoint run (invs : list invocation) (f : FS) : FS * list event :=
  match invs with
  | [] => (f, [])
  | i :: rest =>
      let out := exec (dispatch i) f in
      let '(f', evs) := run rest (fs out.2) in
      (f', trace out.2 ++ evs)
  end.

(** The order number of a call that is a successful placement for [uid]:
    [handlePlaceOrder] returned a reply for a cart with items. *)
Definition placedID (uid : UserID) (i : invocation) (f : FS) : option N :=
  match inv_handler i, (exec (dispatch i) f).1, Items (cartOf f uid) with
  | HPlaceOrder, Ok _, _ :: _ =>
      if decide (inv_uid i = uid) then Some (nextOrderID uid f) else None
  | _, _, _ => None
  end.


End Run.

(** ** A small store, for concrete runs *)

#[warnings="-inexact-float"]
Definition widget : Product :=
  {| SKU := "A1"; Title := "Widget"; Price := 9.99%float |}.

Definition gadget : Product :=
  {| SKU := "B2"; Title := "Gadget"; Price := 0%float |}.

Definition shopConfig (ship : float) : Config :=
  {| ShipCharge := ship; cfg_PayType := PayTypeOnChain; Account := "default";
     ExchangeRateProvider := Some 20%float; OrderPlaced := true |}.

(** A store whose wallet cannot hand out addresses; [known] tells which
    users the client knows, [page] what the renderer answers. *)
Definition shop (ship : float) (known : UserID -> bool) (page : string + string)
  : Store :=
  {| products := {[ "A1" := widget; "B2" := gadget ]};
     cfg := shopConfig ship;
     PublicID := "admin";
     UserByID := fun u => if known u then Some "Bob" else None;
     OnchainRecvAddrForUser := fun _ _ => inr "wallet locked";
     lnpc := None;
     ExecuteTemplate := fun _ _ => page |}.

Definition quiet (t : Z) : World :=
  {| now := t; readErr := None; lastErr := None;
     writeErr := None; removeErr := None |}.

Definition emptyFS : FS := {| carts := ∅; orders := ∅ |}.

Definition addA1 : RMFetchResource := {| Path := ["addtocart"; "A1"] |}.
Definition placeorder : RMFetchResource := {| Path := ["placeorder"] |}.

Definition fiveDCR (o : Order) : Z := 5.

(** Bob's cart after adding A1 twice. *)
Definition bobCart : Cart :=
  {| Items := [{| ci_Product := widget; ci_Quantity := 2 |}]; Updated := 2 |}.

Definition bobFS : FS := {| carts := {[ "bob" := bobCart ]}; orders := ∅ |}.

(** ** The order history

    [handleOrders] lists the user's order directory and reads every entry.
    It changes nothing on disk, so it is a function of the disk; what the
    operating system answers is in a [DirWorld]: the entries of the
    directory in the order [os.ReadDir] lists them (or its error), and for
    each entry whether reading it fails. *)

Inductive readDirResult :=
| DirEntries (names : list N)
| DirNotExist
| DirErr (cause : string).

Record DirWorld := {
  readDir : readDirResult;
  orderReadErr : N -> option string
}.

(** [s.log.Warnf("Unable to read order %s: %v", fname, err)] *)
Inductive ordersWarning :=
| WarnUnableToReadOrder (uid : UserID) (id : N) (err : jsonErr).

(** Modelled from the spec: [jsonfile.Read] of one order file, with the
    same answers as for a cart file. *)
Definition jsonfile_Read_order (dw : DirWorld) (f : FS) (uid : UserID) (id : N)
  : Order + jsonErr :=
  match orderReadErr dw id with
  | Some e => inr (ErrOther e)
  | None =>
      match orderDir f uid !! id with
      | Some o => inl o
      | None => inr ErrNotFound
      end
  end.

(** The loop over [files]: an entry that cannot be read is warned about
    and skipped, the others are appended to [orders]. *)
Fixpoint readOrders (dw : DirWorld) (f : FS) (uid : UserID) (files : list N)
    (orders : list Order) (warns : list ordersWarning)
  : list Order * list ordersWarning :=
  match files with
  | [] => (orders, warns)
  | file :: rest =>
      match jsonfile_Read_order dw f uid file with
      | inr err =>
          readOrders dw f uid rest orders
                     (warns ++ [WarnUnableToReadOrder uid file err])
      | inl order => readOrders dw f uid rest (orders ++ [order]) warns
      end
  end.

Section Orders.

(** [s.tmpl.ExecuteTemplate(w, ordersTmplFile, &ordersContext{Orders})]:
    the rendered bytes, or the error. *)
Variable ExecuteOrdersTemplate : list Order -> string + string.

Definition handleOrders (dw : DirWorld) (uid : UserID)
    (request : RMFetchResource) (f : FS)
  : outcome RMFetchResourceReply * list ordersWarning :=
  match readDir dw with
  | DirErr e => (Err (ErrIO e), [])
  | listing =>
      let files :=
        match listing with
        | DirEntries names => names
        | _ => []
        end in
      let '(orders, warns) := readOrders dw f uid files [] [] in
      match ExecuteOrdersTemplate orders with
      | inr err => (Err (ErrExecTemplate "product" err), warns)
      | inl data => (Ok {| Data := data; Status := ResourceStatusOk |}, warns)
      end
  end.

End Orders.

(** ** More observations *)

(** The number of units in a cart. *)
Definition units (items : list CartItem) : Z :=
  foldr (fun item acc => ci_Quantity item + acc) 0 items.

(** The items of a cart that carry a given SKU. *)
Definition itemsOf (sku : string) (items : list CartItem) : list CartItem :=
  filter (fun item => SKU (ci_Product item) = sku) items.

(** [handleAddToCart] called once per world of [ws], one call after the
    other. *)
Fixpoint addTimes (s : Store) (ws : list World) (uid : UserID)
    (request : RMFetchResource) (f : FS) : FS :=
  match ws with
  | [] => f
  | w :: rest =>
      addTimes s rest uid request (fs (exec (handleAddToCart s w uid request) f).2)
  end.

(** A world in which reading and writing the cart do not fail. *)
Definition cartIO_ok (w : World) : Prop := readErr w = None /\ writeErr w = None.

(** Every cart on disk has at most one item per SKU. *)
Definition cartsOK (f : FS) : Prop :=
  forall u c, carts f !! u = Some c -> atMostOnePerSKU c.

(** Every order file sits under its own number in the directory of its
    own user, is in status placed, and holds a cart with items, at most
    one per SKU. *)
Definition ordersOK (f : FS) : Prop :=
  forall u k o,
    orderDir f u !! k = Some o ->
    o_ID o = k /\ o_User o = u /\ o_Status o = StatusPlaced /\
    Items (o_Cart o) <> [] /\ atMostOnePerSKU (o_Cart o).

Definition isCallback (e : event) : bool :=
  match e with
  | OrderPlacedCalled _ _ => true
  | _ => false
  end.

(** The item lines of a confirmation: SKU, title, quantity, price and
    subtotal in cents. *)
Definition itemOf (l : msgLine) : option (string * string * Z * float * Z) :=
  match l with
  | MsgItem sku title quantity price subtotal =>
      Some (sku, title, quantity, price, subtotal)
  | _ => None
  end.



(** The store with other payment providers. *)
Definition withProviders (s : Store)
    (addr : UserID -> string -> string + string)
    (ln : option (Z -> string + string)) : Store :=
  {| products := products s; cfg := cfg s; PublicID := PublicID s;
     UserByID := UserByID s; OnchainRecvAddrForUser := addr; lnpc := ln;
     ExecuteTemplate := ExecuteTemplate s |}.

(** A store that knows every user and renders every page, with a given
    pay type and given answers of the wallet and of the LN node. *)
Definition payingShop (pt : PayType) (addr : string + string)
    (ln : option (Z -> string + string)) : Store :=
  {| products := {[ "A1" := widget; "B2" := gadget ]};
     cfg := {| ShipCharge := 0%float; cfg_PayType := pt; Account := "default";
               ExchangeRateProvider := Some 20%float; OrderPlaced := true |};
     PublicID := "admin";
     UserByID := fun _ => Some "Bob";
     OnchainRecvAddrForUser := fun _ _ => addr;
     lnpc := ln;
     ExecuteTemplate := fun _ _ => inl "page" |}.

(** A renderer of the order history that shows how many orders it got. *)
Definition countOrders (orders : list Order) : string + string :=
  inl (if (length orders =? 0)%nat then "no orders" else "orders").

(** [handlePlaceOrder] gets as far as saving the order: the cart is read
    and has items, the order directory is scanned, and the client knows
    the user, under the nick [nick]. *)
Definition reachesSave (s : Store) (w : World) (uid : UserID) (f : FS)
    (nick : string) : Prop :=
  readErr w = None /\ lastErr w = None /\
  Items (cartOf f uid) <> [] /\ UserByID s uid = Some nick.

(** The entries [handleOrders] goes through, and the order an entry
    holds when it can be read. *)
Definition dirEntries (dw : DirWorld) : list N :=
  match readDir dw with
  | DirEntries names => names
  | _ => []
  end.

Definition readableOrder (dw : DirWorld) (f : FS) (uid : UserID) (id : N)
  : option Order :=
  match orderReadErr dw id with
  | Some _ => None
  | None => orderDir f uid !! id
  end.

(** A directory listing that names the files of the directory and
    nothing else, and a world in which every order file can be read. *)
Definition listsAll (dw : DirWorld) (f : FS) (uid : UserID) : Prop :=
  exists names,
    readDir dw = DirEntries names /\
    (forall k, k ∈ names <-> is_Some (orderDir f uid !! k)) /\
    (forall k, orderReadErr dw k = None).

(** More worlds and disks for concrete runs. *)
Definition openShop : Store := shop 0%float (fun _ => true) (inl "page").

Definition stuckCartWorld : World :=
  {| now := 3; readErr := None; lastErr := None; writeErr := None;
     removeErr := Some "permission denied" |}.

(** The disk after Bob has placed his order in [openShop]. *)
Definition bobPlacedFS : FS :=
  fs (exec (handlePlaceOrder fiveDCR openShop (quiet 3) "bob" placeorder) bobFS).2.

Definition listing (names : list N) : DirWorld :=
  {| readDir := DirEntries names; orderReadErr := fun _ => None |}.

Definition noDirectory : DirWorld :=
  {| readDir := DirNotExist; orderReadErr := fun _ => None |}.

(** ** The price in cents, as the specification words it

    The specification has the unit price rounded to cent precision.
    [roundedCents] follows these words: the exact value of the binary64
    number, times 100, rounded to the nearest whole number of cents (a
    half away from zero). It is not taken from the code, which converts
    with [int64(x*100)]; the two are compared below. *)
Definition roundedCents (x : float) : option Z :=
  match Prim2SF x with
  | S754_zero _ => Some 0
  | S754_finite s m e =>
      let n := 100 * Zpos m in
      let mag := match e with
                 | Z0 => n
                 | Zpos p => n * 2 ^ Zpos p
                 | Zneg p => (2 * n + 2 ^ Zpos p) / (2 * 2 ^ Zpos p)
                 end in
      Some (if s then - mag else mag)
  | S754_infinity _ | S754_nan => None
  end.

(** The confirmations handed to the [OrderPlaced] callback along a
    trace. *)
Definition callbackMessages (evs : list event) : list (list msgLine) :=
  omap (fun e => match e with
                 | OrderPlacedCalled _ msg => Some msg
                 | _ => None
                 end) evs.

(** A store that sells a gizmo at 19.99 and charges no shipping. *)
#[warnings="-inexact-float"]
Definition gizmo : Product :=
  {| SKU := "C3"; Title := "Gizmo"; Price := 19.99%float |}.

Definition gizmoShop : Store :=
  {| products := {[ "A1" := widget; "C3" := gizmo ]};
     cfg := shopConfig 0%float;
     PublicID := "admin";
     UserByID := fun _ => Some "Alice";
     OnchainRecvAddrForUser := fun _ _ => inr "wallet locked";
     lnpc := None;
     ExecuteTemplate := fun _ _ => inl "page" |}.

Definition addC3 : RMFetchResource := {| Path := ["addtocart"; "C3"] |}.




(** A world in which the cart file cannot be read. *)
Definition unreadableWorld : World :=
  {| now := 1; readErr := Some "EIO"; lastErr := None; writeErr := None;
     removeErr := None |}.

(** Worlds in which the order directory cannot be scanned, and in which
    the order file cannot be written. *)
Definition unscannableWorld : World :=
  {| now := 3; readErr := None; lastErr := Some "EACCES"; writeErr := None;
     removeErr := None |}.

Definition fullDiskWorld : World :=
  {| now := 3; readErr := None; lastErr := None; writeErr := Some "ENOSPC";
     removeErr := None |}.

(** * Properties *)

(** ** Machine numbers *)

Lemma int64_in_range z : in_int64 z -> int64 z = z.
Proof.
  unfold in_int64, int64_min, int64_max, int64. intros Hz.
  rewrite Z.mod_small; lia.
Qed.

Lemma int64_add_idemp_l a b : int64 (int64 a + b) = int64 (a + b).
Proof.
  unfold int64.
  replace ((a + 2 ^ 63) mod 2 ^ 64 - 2 ^ 63 + b + 2 ^ 63)
    with ((a + 2 ^ 63) mod 2 ^ 64 + b) by lia.
  rewrite Zplus_mod_idemp_l. f_equal. f_equal. lia.
Qed.

Lemma int64_add_idemp_r a b : int64 (a + int64 b) = int64 (a + b).
Proof. rewrite (Z.add_comm a), int64_add_idemp_l. f_equal. lia. Qed.

Lemma uint32_succ q : 0 <= q < 2 ^ 32 - 1 -> uint32 (q + 1) = q + 1.
Proof. intros Hq. unfold uint32. rewrite Z.mod_small; lia. Qed.

(** ** The highest order number of a directory *)

Lemma foldr_max_ge (l : list N) (k : N) :
  k ∈ l -> (k <= foldr N.max 0 l)%N.
Proof.
  induction l as [|x l IH]; intros Hk.
  - by apply elem_of_nil in Hk.
  - apply elem_of_cons in Hk as [->|Hk]; cbn; [lia|].
    specialize (IH Hk). lia.
Qed.

Lemma foldr_max_in (l : list N) :
  foldr N.max 0%N l = 0%N \/ foldr N.max 0%N l ∈ l.
Proof.
  induction l as [|x l IH]; cbn; [by left|].
  destruct (N.max_spec x (foldr N.max 0%N l)) as [[_ ->]|[_ ->]].
  - destruct IH as [->|IH]; [by left|]. right. by apply elem_of_cons; right.
  - right. by apply elem_of_cons; left.
Qed.

Lemma elem_of_order_ids (dir : gmap N Order) (k : N) :
  k ∈ (map_to_list dir).*1 <-> is_Some (dir !! k).
Proof.
  rewrite list_elem_of_fmap. split.
  - intros [[k' o] [-> Hin]]. apply elem_of_map_to_list in Hin. by exists o.
  - intros [o Ho]. exists (k, o). split; [done|]. by apply elem_of_map_to_list.
Qed.

Lemma lastID_ge (dir : gmap N Order) (k : N) :
  is_Some (dir !! k) -> (k <= lastID dir)%N.
Proof. intros Hk. apply foldr_max_ge. by apply elem_of_order_ids. Qed.

Lemma lastID_in (dir : gmap N Order) :
  lastID dir = 0%N \/ is_Some (dir !! lastID dir).
Proof.
  destruct (foldr_max_in (map_to_list dir).*1) as [H|H]; [by left|].
  right. by apply elem_of_order_ids.
Qed.

Lemma lastID_empty : lastID ∅ = 0%N.
Proof. unfold lastID. by rewrite map_to_list_empty. Qed.

Lemma lastID_fresh (dir : gmap N Order) : dir !! (lastID dir + 1)%N = None.
Proof.
  destruct (dir !! (lastID dir + 1)%N) as [o|] eqn:E; [|done].
  assert (lastID dir + 1 <= lastID dir)%N by (apply lastID_ge; eauto). lia.
Qed.

Lemma lastID_insert_next (dir : gmap N Order) (o : Order) :
  lastID (<[(lastID dir + 1)%N := o]> dir) = (lastID dir + 1)%N.
Proof.
  set (L := lastID dir). set (dir' := <[(L + 1)%N := o]> dir).
  assert (L + 1 <= lastID dir')%N as Hge.
  { apply lastID_ge. unfold dir'. rewrite lookup_insert_eq. eauto. }
  destruct (lastID_in dir') as [H0|[o' Hin]]; [lia|].
  unfold dir' in Hin. rewrite lookup_insert in Hin.
  case_decide as Hk; [done|].
  assert (lastID dir' <= L)%N by (apply lastID_ge; eauto).
  fold dir' in H. lia.
Qed.

(** ** The add-to-cart loop *)

Lemma bumpQuantity_skus sku items :
  skus (bumpQuantity sku items).1 = skus items.
Proof.
  induction items as [|item rest IH]; cbn; [done|].
  case_decide; cbn; [done|].
  destruct (bumpQuantity sku rest) as [rest' has]. cbn in *. by rewrite IH.
Qed.

Lemma bumpQuantity_absent sku items :
  sku ∉ skus items -> bumpQuantity sku items = (items, false).
Proof.
  induction items as [|item rest IH]; cbn; [done|].
  intros Hnin. apply not_elem_of_cons in Hnin as [Hne Hnin].
  case_decide; [congruence|]. by rewrite IH.
Qed.

Lemma bumpQuantity_present sku items :
  sku ∈ skus items ->
  exists l1 item l2,
    items = l1 ++ item :: l2 /\ SKU (ci_Product item) = sku /\
    (sku ∉ skus l1) /\
    bumpQuantity sku items = (l1 ++ bump item :: l2, true).
Proof.
  induction items as [|item rest IH]; cbn; intros Hin.
  - by apply elem_of_nil in Hin.
  - case_decide as Hsku.
    + exists [], item, rest. cbn. repeat split; try done. apply not_elem_of_nil.
    + apply elem_of_cons in Hin as [Heq|Hin]; [congruence|].
      destruct (IH Hin) as (l1 & it & l2 & -> & Hit & Hnin & ->).
      exists (item :: l1), it, l2. cbn. repeat split; try done.
      apply not_elem_of_cons. split; [congruence|done].
Qed.

(** ** Stepping through a handler *)

Ltac unfold_M :=
  unfold mbind, M_bind, mret, M_ret, throw, panic, emit, getFS, putFS, when in *.

Ltac step_handler :=
  unfold exec, jsonfile_Read, jsonfile_Write_cart, jsonfile_Write_order,
    jsonfile_RemoveIfExists, orderFnamePattern_Last, Path_1 in *;
  unfold_M; cbn in *.

Lemma length_eqb_0 {A} (l : list A) : (length l =? 0)%nat = false <-> l <> [].
Proof. destruct l; cbn; split; congruence. Qed.

(** ** Path indexing *)

(** C9: [handleAddToCart] and [handleProduct] read [request.Path[1]]
    before anything else. With at least two path segments neither of them
    panics; with fewer, both panic on the index and touch nothing. *)
Theorem Path_1_total_iff_two_segments
    (s : Store) (w : World) (uid : UserID) (request : RMFetchResource) (f : FS) :
  ((2 <= length (Path request))%nat ->
     (forall r, (exec (handleAddToCart s w uid request) f).1 <> Panic r) /\
     (forall r, (exec (handleProduct s w uid request) f).1 <> Panic r)) /\
  ((length (Path request) < 2)%nat ->
     exec (handleAddToCart s w uid request) f
       = (Panic "index out of range [1]", {| fs := f; trace := [] |}) /\
     exec (handleProduct s w uid request) f
       = (Panic "index out of range [1]", {| fs := f; trace := [] |})).
Proof.
  split; intros Hlen.
  - destruct (lookup_lt_is_Some_2 (Path request) 1%nat) as [seg Hseg]; [lia|].
    unfold handleAddToCart, handleProduct, handleNotFound. step_handler.
    rewrite Hseg. cbn. split; intros r.
    + destruct (products s !! seg); cbn; [|done].
      destruct (readErr w); cbn; [done|].
      destruct (carts f !! uid); cbn.
      * destruct (bumpQuantity _ _) as [items [|]]; destruct (writeErr w); cbn;
          try done; by destruct (ExecuteTemplate _ _ _).
      * destruct (writeErr w); cbn; [done|]. by destruct (ExecuteTemplate _ _ _).
    + destruct (products s !! seg); cbn; [|done].
      by destruct (ExecuteTemplate _ _ _).
  - assert (Path request !! 1%nat = None) as Hnone
      by (apply lookup_ge_None; lia).
    unfold handleAddToCart, handleProduct. step_handler. by rewrite Hnone.
Qed.

(** ** Placing an order *)

Section PlaceOrderProperties.

Variable TotalDCR : Order -> Z.

(** C3: for a user whose cart file is absent or holds no item, and whose
    cart can be read, [handlePlaceOrder] answers the reply with status Ok
    and the bytes "No items in order", returns no error, and leaves the
    carts and the orders on disk exactly as they were. *)
Theorem handlePlaceOrder_empty_cart
    (s : Store) (w : World) (uid : UserID) (request : RMFetchResource) (f : FS) :
  readErr w = None ->
  carts f !! uid = None \/ (exists c, carts f !! uid = Some c /\ Items c = []) ->
  exec (handlePlaceOrder TotalDCR s w uid request) f
    = (Ok {| Data := "No items in order"; Status := ResourceStatusOk |},
       {| fs := f; trace := [] |}).
Proof.
  intros Hread Hcart. unfold handlePlaceOrder. step_handler. rewrite Hread.
  destruct Hcart as [->|(c & -> & Hc)]; cbn; [done|]. by rewrite Hc.
Qed.

(** C10: when [UserByID] does not know the requesting user,
    [handlePlaceOrder] on a non-empty cart returns an error and no reply,
    with no order file written and the cart file as it was; when the cart
    and the order directory were read without failure the error is the
    one naming the unknown user. *)
Theorem handlePlaceOrder_unknown_user
    (s : Store) (w : World) (uid : UserID) (request : RMFetchResource) (f : FS) :
  Items (cartOf f uid) <> [] ->
  UserByID s uid = None ->
  (exists e, exec (handlePlaceOrder TotalDCR s w uid request) f
             = (Err e, {| fs := f; trace := [] |})) /\
  (readErr w = None -> lastErr w = None ->
   exec (handlePlaceOrder TotalDCR s w uid request) f
     = (Err (ErrUnknownUser (lastID (orderDir f uid) + 1) uid),
        {| fs := f; trace := [] |})).
Proof.
  intros Hcart Huser. unfold cartOf in Hcart.
  unfold handlePlaceOrder. step_handler.
  destruct (carts f !! uid) as [c|] eqn:Hc; cbn in Hcart; [|done].
  apply length_eqb_0 in Hcart.
  split.
  - destruct (readErr w); cbn; [eauto|]. rewrite Hcart.
    destruct (lastErr w); cbn; [eauto|]. rewrite Huser. eauto.
  - intros -> ->. cbn. rewrite Hcart. cbn. by rewrite Huser.
Qed.

Lemma resolvePayment_run (s : Store) (nick : string) (o : Order) (st : St) :
  exists o' lines logs,
    resolvePayment s nick o (TotalDCR o) st
      = (Ok (o', lines), {| fs := fs st; trace := trace st ++ logs |}) /\
    forallb isLog logs = true.
Proof.
  unfold resolvePayment. unfold_M.
  destruct st as [f tr]. cbn.
  assert (tr = tr ++ []) as Hnil by (by rewrite app_nil_r).
  repeat case_match; cbn;
    try (eexists _, _, []; split; [by rewrite <- Hnil|done]);
    (eexists _, _, [_]; split; [reflexivity|done]).
Qed.

Lemma resolvePayment_frame (s : Store) (nick : string) (o : Order) (st : St) :
  resolvePayment s nick o (TotalDCR o) st
    = ((resolvePayment s nick o (TotalDCR o) {| fs := fs st; trace := [] |}).1,
       {| fs := fs st;
          trace := trace st
                   ++ trace (resolvePayment s nick o (TotalDCR o)
                               {| fs := fs st; trace := [] |}).2 |}).
Proof.
  unfold resolvePayment. unfold_M. destruct st as [f tr]. cbn.
  assert (tr = tr ++ []) as Hnil by (by rewrite app_nil_r).
  repeat case_match; cbn; by rewrite <- ?Hnil.
Qed.

(** Once the cart is loaded, the order number found and the user known,
    what [handlePlaceOrder] does is settled by the write of the order
    file, the removal of the cart file and the renderer. *)
Lemma handlePlaceOrder_placing
    (s : Store) (w : World) (uid : UserID) (request : RMFetchResource) (f : FS)
    (nick : string) :
  readErr w = None -> lastErr w = None ->
  Items (cartOf f uid) <> [] ->
  UserByID s uid = Some nick ->
  exec (handlePlaceOrder TotalDCR s w uid request) f =
    match writeErr w with
    | Some e =>
        (Err (ErrIO e),
         {| fs := f; trace := placingTrace TotalDCR s w uid f nick |})
    | None =>
        match removeErr w with
        | Some e =>
            (Err (ErrIO e),
             {| fs := savedFS TotalDCR s w uid f nick;
                trace := placingTrace TotalDCR s w uid f nick
                         ++ [Wrote (OrderFile uid (nextOrderID uid f))] |})
        | None =>
            (match ExecuteTemplate s orderPlacedTmplFile
                     (orderContext (placedOrder TotalDCR s w uid f nick)) with
             | inr err => Err (ErrExecTemplate "product" err)
             | inl data => Ok {| Data := data; Status := ResourceStatusOk |}
             end,
             {| fs := clearedFS TotalDCR s w uid f nick;
                trace := placingTrace TotalDCR s w uid f nick
                         ++ [Wrote (OrderFile uid (nextOrderID uid f));
                             Removed (CartFile uid)] |})
        end
    end.
Proof.
  intros Hread Hlast Hcart Huser.
  unfold clearedFS, savedFS, placingTrace, confirmation, paymentLog,
    placedOrder, paymentOutcome, ratedOrder, newOrder, nextOrderID, cartOf in *.
  destruct (carts f !! uid) as [c|] eqn:Hc; cbn in Hcart; [|done].
  apply length_eqb_0 in Hcart. cbn.
  unfold handlePlaceOrder. step_handler.
  rewrite Hread. cbn. rewrite Hc. cbn. rewrite Hcart, Hlast. cbn. rewrite Huser.
  set (o := match ExchangeRateProvider (cfg s) with
            | Some rate => set_ExchangeRate rate _
            | None => _
            end).
  rewrite (resolvePayment_frame s nick o). cbn.
  destruct (resolvePayment s nick o (TotalDCR o) {| fs := f; trace := [] |})
    as [[[o' lines']| |] st'] eqn:Hres; cbn.
  2,3: destruct (resolvePayment_run s nick o {| fs := f; trace := [] |})
         as (? & ? & ? & Heq & _); congruence.
  destruct (0 <? TotalDCR o);
    destruct (OrderPlaced (cfg s)); cbn;
    destruct (writeErr w); cbn; rewrite <- ?app_assoc; cbn; try done;
    destruct (removeErr w); cbn; rewrite <- ?app_assoc; cbn; try done;
    rewrite ?Hc; cbn;
    destruct (ExecuteTemplate s orderPlacedTmplFile (orderContext o')); cbn;
    rewrite <- ?app_assoc; cbn; try done.
  all: by rewrite ?app_nil_r.
Qed.

Lemma handlePlaceOrder_read_fails
    (s : Store) (w : World) (uid : UserID) (request : RMFetchResource) (f : FS)
    (e : string) :
  readErr w = Some e ->
  exec (handlePlaceOrder TotalDCR s w uid request) f
    = (Err (ErrIO e), {| fs := f; trace := [] |}).
Proof. intros Hread. unfold handlePlaceOrder. step_handler. by rewrite Hread. Qed.

Lemma handlePlaceOrder_last_fails
    (s : Store) (w : World) (uid : UserID) (request : RMFetchResource) (f : FS)
    (e : string) :
  readErr w = None -> Items (cartOf f uid) <> [] -> lastErr w = Some e ->
  exec (handlePlaceOrder TotalDCR s w uid request) f
    = (Err (ErrIO e), {| fs := f; trace := [] |}).
Proof.
  intros Hread Hcart Hlast. unfold cartOf in Hcart.
  unfold handlePlaceOrder. step_handler. rewrite Hread.
  destruct (carts f !! uid) as [c|]; cbn in *; [|done].
  apply length_eqb_0 in Hcart. by rewrite Hcart, Hlast.
Qed.

Lemma handlePlaceOrder_no_user
    (s : Store) (w : World) (uid : UserID) (request : RMFetchResource) (f : FS) :
  readErr w = None -> lastErr w = None -> Items (cartOf f uid) <> [] ->
  UserByID s uid = None ->
  exec (handlePlaceOrder TotalDCR s w uid request) f
    = (Err (ErrUnknownUser (nextOrderID uid f) uid), {| fs := f; trace := [] |}).
Proof.
  intros Hread Hlast Hcart Huser. unfold cartOf in Hcart.
  unfold handlePlaceOrder, nextOrderID. step_handler. rewrite Hread.
  destruct (carts f !! uid) as [c|]; cbn in *; [|done].
  apply length_eqb_0 in Hcart. rewrite Hcart, Hlast. cbn. by rewrite Huser.
Qed.

(** A reply for a non-empty cart means that nothing failed on the way. *)
Lemma handlePlaceOrder_Ok_inv
    (s : Store) (w : World) (uid : UserID) (request : RMFetchResource) (f : FS)
    (reply : RMFetchResourceReply) :
  Items (cartOf f uid) <> [] ->
  (exec (handlePlaceOrder TotalDCR s w uid request) f).1 = Ok reply ->
  exists nick,
    readErr w = None /\ lastErr w = None /\ UserByID s uid = Some nick /\
    writeErr w = None /\ removeErr w = None /\
    ExecuteTemplate s orderPlacedTmplFile
      (orderContext (placedOrder TotalDCR s w uid f nick)) = inl (Data reply) /\
    Status reply = ResourceStatusOk.
Proof.
  intros Hcart Hok.
  destruct (readErr w) as [e|] eqn:Hread.
  { by rewrite (handlePlaceOrder_read_fails _ _ _ _ _ _ Hread) in Hok. }
  destruct (lastErr w) as [e|] eqn:Hlast.
  { by rewrite (handlePlaceOrder_last_fails _ _ _ _ _ _ Hread Hcart Hlast) in Hok. }
  destruct (UserByID s uid) as [nick|] eqn:Huser.
  2: { by rewrite (handlePlaceOrder_no_user _ _ _ _ _ Hread Hlast Hcart Huser) in Hok. }
  rewrite (handlePlaceOrder_placing _ _ _ _ _ _ Hread Hlast Hcart Huser) in Hok.
  exists nick.
  destruct (writeErr w); [done|]. destruct (removeErr w); [done|]. cbn in Hok.
  destruct (ExecuteTemplate _ _ _) as [data|err]; [|done].
  injection Hok as <-. done.
Qed.

Lemma resolvePayment_fields (s : Store) (nick : string) (o : Order) (t : Z)
    (st st' : St) (o' : Order) (lines : list msgLine) :
  resolvePayment s nick o t st = (Ok (o', lines), st') ->
  o_ID o' = o_ID o /\ o_User o' = o_User o /\ o_Cart o' = o_Cart o /\
  o_Status o' = o_Status o /\ o_PlacedTS o' = o_PlacedTS o /\
  o_ShipCharge o' = o_ShipCharge o.
Proof.
  unfold resolvePayment. unfold_M.
  repeat case_match; intros Heq; cbn in Heq; simplify_eq; cbn; done.
Qed.

Lemma placedOrder_fields (s : Store) (w : World) (uid : UserID) (f : FS)
    (nick : string) :
  let o := placedOrder TotalDCR s w uid f nick in
  o_ID o = nextOrderID uid f /\ o_User o = uid /\ o_Cart o = cartOf f uid /\
  o_Status o = StatusPlaced /\ o_PlacedTS o = now w /\
  o_ShipCharge o = ShipCharge (cfg s).
Proof.
  cbv zeta. unfold placedOrder, paymentOutcome.
  destruct (resolvePayment _ _ _ _ _) as [[[o' lines]| |] st'] eqn:Hres; cbn.
  1: apply resolvePayment_fields in Hres as (-> & -> & -> & -> & -> & ->).
  all: unfold ratedOrder; by destruct (ExchangeRateProvider (cfg s)).
Qed.

Lemma nonempty_cart_file (f : FS) (uid : UserID) :
  Items (cartOf f uid) <> [] -> carts f !! uid = Some (cartOf f uid).
Proof. unfold cartOf. by destruct (carts f !! uid). Qed.

(** C5: when [handlePlaceOrder] returns a reply for a non-empty cart, the
    user's cart file existed and is gone, the user's order directory has
    gained exactly one file, under the next sequence number (one past the
    highest number present, a name no file had), holding the order of this
    user with this cart, and every other cart and order document is as it
    was. *)
Theorem handlePlaceOrder_success_effects
    (s : Store) (w : World) (uid : UserID) (request : RMFetchResource) (f : FS)
    (reply : RMFetchResourceReply) :
  Items (cartOf f uid) <> [] ->
  (exec (handlePlaceOrder TotalDCR s w uid request) f).1 = Ok reply ->
  let f' := fs (exec (handlePlaceOrder TotalDCR s w uid request) f).2 in
  let id := (lastID (orderDir f uid) + 1)%N in
  is_Some (carts f !! uid) /\
  carts f' = delete uid (carts f) /\
  orderDir f uid !! id = None /\
  (exists o,
     o_ID o = id /\ o_User o = uid /\ o_Cart o = cartOf f uid /\
     o_Status o = StatusPlaced /\
     orderDir f' uid = <[id := o]> (orderDir f uid)) /\
  (forall u, u <> uid ->
     carts f' !! u = carts f !! u /\ orderDir f' u = orderDir f u) /\
  ordersWritten uid (trace (exec (handlePlaceOrder TotalDCR s w uid request) f).2)
    = [id].
Proof.
  intros Hcart Hok f' id.
  destruct (handlePlaceOrder_Ok_inv _ _ _ _ _ _ Hcart Hok)
    as (nick & Hread & Hlast & Huser & Hwrite & Hremove & Htmpl & _).
  subst f'.
  rewrite (handlePlaceOrder_placing _ _ _ _ _ _ Hread Hlast Hcart Huser).
  rewrite Hwrite, Hremove. cbn.
  destruct (placedOrder_fields s w uid f nick) as (Hid & Hu & Hc & Hst & _).
  split; [rewrite (nonempty_cart_file _ _ Hcart); eauto|].
  split; [done|].
  split; [apply lastID_fresh|].
  split.
  - exists (placedOrder TotalDCR s w uid f nick). repeat split; try done.
    unfold orderDir at 1. cbn. by rewrite lookup_insert_eq.
  - split.
    + intros u Hu'. split; [by rewrite lookup_delete_ne|].
      unfold orderDir at 1. cbn. by rewrite lookup_insert_ne.
    + unfold ordersWritten, placingTrace, paymentLog, paymentOutcome.
      destruct (resolvePayment_run s nick (ratedOrder s w uid f)
                  {| fs := f; trace := [] |}) as (o' & lines & logs & -> & Hlogs).
      cbn. rewrite !omap_app. cbn.
      assert (omap (orderWritten uid) logs = []) as ->.
      { clear -Hlogs. induction logs as [|e logs IH]; [done|].
        cbn in Hlogs. apply andb_prop in Hlogs as [He Hlogs].
        cbn. destruct e; try done; by apply IH. }
      destruct (OrderPlaced (cfg s)); cbn; by rewrite decide_True.
Qed.

(** C8: when everything up to the removal of the cart file succeeds and
    the renderer fails on the order, [handlePlaceOrder] returns the
    template error and no reply, while the order file is on disk under
    its number and the cart file, which existed, is gone. *)
Theorem handlePlaceOrder_render_failure
    (s : Store) (w : World) (uid : UserID) (request : RMFetchResource) (f : FS)
    (nick cause : string) :
  Items (cartOf f uid) <> [] ->
  UserByID s uid = Some nick ->
  readErr w = None -> lastErr w = None ->
  writeErr w = None -> removeErr w = None ->
  ExecuteTemplate s orderPlacedTmplFile
    (orderContext (placedOrder TotalDCR s w uid f nick)) = inr cause ->
  let out := exec (handlePlaceOrder TotalDCR s w uid request) f in
  out.1 = Err (ErrExecTemplate "product" cause) /\
  orderDir (fs out.2) uid !! nextOrderID uid f
    = Some (placedOrder TotalDCR s w uid f nick) /\
  orderDir f uid !! nextOrderID uid f = None /\
  is_Some (carts f !! uid) /\
  carts (fs out.2) !! uid = None.
Proof.
  intros Hcart Huser Hread Hlast Hwrite Hremove Htmpl out. subst out.
  rewrite (handlePlaceOrder_placing _ _ _ _ _ _ Hread Hlast Hcart Huser).
  rewrite Hwrite, Hremove, Htmpl. cbn.
  split; [done|]. split.
  { unfold orderDir at 1. cbn. rewrite lookup_insert_eq. cbn.
    by rewrite lookup_insert_eq. }
  split; [apply lastID_fresh|].
  split; [rewrite (nonempty_cart_file _ _ Hcart); eauto|].
  by rewrite lookup_delete_eq.
Qed.

(** C6: with the pay type OnChain, when the switch reaches the on-chain
    provider (a rate provider is set, its rate is positive, the total in
    DCR is not zero) and the provider fails, the failure is logged and
    nothing more: the order that is saved has pay type None and no
    invoice, and what [handlePlaceOrder] returns depends only on the
    removal of the cart file and on the renderer. *)
Theorem handlePlaceOrder_onchain_provider_failure
    (s : Store) (w : World) (uid : UserID) (request : RMFetchResource) (f : FS)
    (nick cause : string) (rate : float) :
  Items (cartOf f uid) <> [] ->
  UserByID s uid = Some nick ->
  readErr w = None -> lastErr w = None -> writeErr w = None ->
  ExchangeRateProvider (cfg s) = Some rate ->
  PrimFloat.leb rate 0%float = false ->
  TotalDCR (ratedOrder s w uid f) <> 0 ->
  cfg_PayType (cfg s) = PayTypeOnChain ->
  OnchainRecvAddrForUser s uid (Account (cfg s)) = inr cause ->
  let out := exec (handlePlaceOrder TotalDCR s w uid request) f in
  (exists o,
     orderDir (fs out.2) uid !! nextOrderID uid f = Some o /\
     o_PayType o = PayTypeNone /\ o_Invoice o = "" /\
     o_ID o = nextOrderID uid f /\ o_User o = uid /\
     o_Cart o = cartOf f uid /\ o_Status o = StatusPlaced /\
     out.1 = match removeErr w with
             | Some e => Err (ErrIO e)
             | None =>
                 match ExecuteTemplate s orderPlacedTmplFile (orderContext o) with
                 | inr err => Err (ErrExecTemplate "product" err)
                 | inl data => Ok {| Data := data; Status := ResourceStatusOk |}
                 end
             end) /\
  trace out.2
    = [ErrorOnchainAddr nick cause]
      ++ (if OrderPlaced (cfg s)
          then [OrderPlacedCalled (placedOrder TotalDCR s w uid f nick)
                  (confirmation TotalDCR s w uid f nick)]
          else [])
      ++ Wrote (OrderFile uid (nextOrderID uid f))
         :: match removeErr w with
            | Some _ => []
            | None => [Removed (CartFile uid)]
            end.
Proof.
  intros Hcart Huser Hread Hlast Hwrite Hrate Hpos Hdcr Hpt Haddr out. subst out.
  rewrite (handlePlaceOrder_placing _ _ _ _ _ _ Hread Hlast Hcart Huser).
  rewrite Hwrite.
  assert (paymentOutcome TotalDCR s w uid f nick
          = (Ok (ratedOrder s w uid f, []),
             {| fs := f; trace := [ErrorOnchainAddr nick cause] |})) as Hpay.
  { unfold paymentOutcome, resolvePayment. unfold_M.
    apply Z.eqb_neq in Hdcr. rewrite Hdcr. clear Hdcr.
    unfold ratedOrder. rewrite Hrate, Hpt. cbn. rewrite Hpos, Haddr. done. }
  assert (placedOrder TotalDCR s w uid f nick = ratedOrder s w uid f) as Hplaced
    by (unfold placedOrder; by rewrite Hpay).
  assert (placingTrace TotalDCR s w uid f nick
          = [ErrorOnchainAddr nick cause]
            ++ (if OrderPlaced (cfg s)
                then [OrderPlacedCalled (placedOrder TotalDCR s w uid f nick)
                        (confirmation TotalDCR s w uid f nick)]
                else [])) as Htrace
    by (unfold placingTrace, paymentLog; by rewrite Hpay).
  split.
  - exists (placedOrder TotalDCR s w uid f nick).
    destruct (placedOrder_fields s w uid f nick) as (Hid & Hu & Hc & Hst & _).
    assert (o_PayType (placedOrder TotalDCR s w uid f nick) = PayTypeNone /\
            o_Invoice (placedOrder TotalDCR s w uid f nick) = "") as [HpT Hinv].
    { rewrite Hplaced. unfold ratedOrder. by rewrite Hrate. }
    destruct (removeErr w); cbn; repeat split; try done;
      unfold orderDir at 1; cbn; rewrite lookup_insert_eq; cbn;
      by rewrite lookup_insert_eq.
  - rewrite Htrace. destruct (removeErr w); cbn;
      by rewrite <- ?app_assoc.
Qed.

Lemma fold_left_int64_add (items : list CartItem) (a : Z) :
  fold_left (fun totalCents item => int64_add totalCents (itemCents item))
            items (int64 a)
  = int64 (a + sumCents items).
Proof.
  revert a. induction items as [|item rest IH]; intros a; cbn [fold_left sumCents foldr].
  - by rewrite Z.add_0_r.
  - unfold int64_add at 2, itemCents, int64_mul.
    rewrite int64_add_idemp_l, int64_add_idemp_r, IH.
    by rewrite Z.add_assoc.
Qed.

Lemma TotalCents_sum (c : Cart) : TotalCents c = int64 (sumCents (Items c)).
Proof.
  unfold TotalCents. change 0 with (int64 0) at 1.
  by rewrite fold_left_int64_add.
Qed.

Lemma omap_totalAmount_itemLines (items : list CartItem) :
  omap totalAmount (map itemLine items) = [].
Proof. induction items as [|item rest IH]; [done|]. exact IH. Qed.

Lemma omap_totalAmount_payment (s : Store) (nick : string) (o : Order) (t : Z)
    (st st' : St) (o' : Order) (lines : list msgLine) :
  resolvePayment s nick o t st = (Ok (o', lines), st') ->
  omap totalAmount lines = [].
Proof.
  unfold resolvePayment. unfold_M.
  repeat case_match; intros Heq; cbn in Heq; simplify_eq; done.
Qed.

(** The shape of the grand total, with every amount converted the way
    the handler converts it, by [cents]: the [int64] sum over the items of
    quantity times [cents] of the price, plus [cents] of the shipping
    charge exactly when the item total and the configured [ShipCharge]
    are both greater than zero. It is the one total amount written into
    the confirmation that the [OrderPlaced] callback receives. *)
Lemma grandTotalCents_closed_form
    (s : Store) (w : World) (uid : UserID) (request : RMFetchResource) (f : FS)
    (nick : string) :
  Items (cartOf f uid) <> [] ->
  let items := Items (cartOf f uid) in
  let itemTotal := TotalCents (cartOf f uid) in
  let shipping :=
    if (0 <? itemTotal) && PrimFloat.ltb 0%float (ShipCharge (cfg s))
    then cents (ShipCharge (cfg s)) else 0 in
  itemTotal = int64 (sumCents items) /\
  grandTotalCents s w uid f = int64 (sumCents items + shipping) /\
  (in_int64 (sumCents items) -> itemTotal = sumCents items) /\
  (in_int64 (sumCents items + shipping) ->
   grandTotalCents s w uid f = sumCents items + shipping) /\
  omap totalAmount (confirmation TotalDCR s w uid f nick)
    = [grandTotalCents s w uid f] /\
  (readErr w = None -> lastErr w = None -> UserByID s uid = Some nick ->
   OrderPlaced (cfg s) = true ->
   OrderPlacedCalled (placedOrder TotalDCR s w uid f nick)
                     (confirmation TotalDCR s w uid f nick)
     ∈ trace (exec (handlePlaceOrder TotalDCR s w uid request) f).2).
Proof.
  intros Hcart items itemTotal shipping.
  assert (itemTotal = int64 (sumCents items)) as Hitem
    by apply TotalCents_sum.
  assert (grandTotalCents s w uid f = int64 (sumCents items + shipping)) as Hgrand.
  { unfold grandTotalCents, totalsLines, shipping. cbn.
    fold itemTotal. destruct (_ && _); cbn.
    - unfold int64_add. rewrite Hitem. apply int64_add_idemp_l.
    - rewrite Hitem. f_equal. lia. }
  split; [done|]. split; [done|].
  split; [intros Hfit; by rewrite Hitem, int64_in_range|].
  split; [intros Hfit; by rewrite Hgrand, int64_in_range|].
  split.
  - unfold confirmation. rewrite !omap_app. cbn.
    rewrite omap_totalAmount_itemLines.
    assert (omap totalAmount
              match (paymentOutcome TotalDCR s w uid f nick).1 with
              | Ok (_, lines) => lines
              | _ => []
              end = []) as ->.
    { unfold paymentOutcome.
      destruct (resolvePayment _ _ _ _ _) as [[[o' lines]| |] st'] eqn:Hres;
        cbn; [|done..].
      by apply omap_totalAmount_payment in Hres. }
    assert (omap totalAmount
              (if 0 <? TotalDCR (ratedOrder s w uid f)
               then [MsgExchangeRate (o_ExchangeRate (ratedOrder s w uid f))
                       (TotalDCR (ratedOrder s w uid f))]
               else []) = []) as -> by (case_match; reflexivity).
    unfold grandTotalCents, totalsLines. cbn. by destruct (_ && _).
  - intros Hread Hlast Huser Hcb.
    rewrite (handlePlaceOrder_placing _ _ _ _ _ _ Hread Hlast Hcart Huser).
    assert (OrderPlacedCalled (placedOrder TotalDCR s w uid f nick)
                              (confirmation TotalDCR s w uid f nick)
              ∈ placingTrace TotalDCR s w uid f nick) as Hin.
    { unfold placingTrace. rewrite Hcb. apply elem_of_app. right.
      by apply list_elem_of_singleton. }
    destruct (writeErr w); cbn [snd trace]; [done|].
    destruct (removeErr w); cbn [snd trace]; apply elem_of_app; by left.
Qed.

(** ** Order numbers along a run *)

Lemma ordersWritten_logs (uid : UserID) (logs : list event) :
  forallb isLog logs = true -> ordersWritten uid logs = [].
Proof.
  induction logs as [|e logs IH]; [done|].
  cbn. intros [He Hlogs]%andb_prop.
  unfold ordersWritten in *. cbn. rewrite (IH Hlogs). by destruct e.
Qed.

Lemma ordersWritten_placingTrace (s : Store) (w : World) (u : UserID) (f : FS)
    (nick : string) (uid : UserID) :
  ordersWritten uid (placingTrace TotalDCR s w u f nick) = [].
Proof.
  unfold placingTrace, paymentLog, paymentOutcome.
  destruct (resolvePayment_run s nick (ratedOrder s w u f)
              {| fs := f; trace := [] |}) as (o' & lines & logs & -> & Hlogs).
  cbn. unfold ordersWritten. rewrite omap_app.
  fold (ordersWritten uid logs). rewrite (ordersWritten_logs _ _ Hlogs).
  by destruct (OrderPlaced (cfg s)).
Qed.

Lemma handlePlaceOrder_no_items
    (s : Store) (w : World) (uid : UserID) (request : RMFetchResource) (f : FS) :
  readErr w = None -> Items (cartOf f uid) = [] ->
  exec (handlePlaceOrder TotalDCR s w uid request) f
    = (Ok {| Data := "No items in order"; Status := ResourceStatusOk |},
       {| fs := f; trace := [] |}).
Proof.
  intros Hread Hcart. unfold cartOf in Hcart.
  unfold handlePlaceOrder. step_handler. rewrite Hread.
  destruct (carts f !! uid); cbn in *; [|done]. by rewrite Hcart.
Qed.

Lemma handleAddToCart_orders
    (s : Store) (w : World) (u : UserID) (request : RMFetchResource) (f : FS)
    (uid : UserID) :
  let out := exec (handleAddToCart s w u request) f in
  orders (fs out.2) = orders f /\ ordersWritten uid (trace out.2) = [].
Proof.
  cbv zeta. unfold handleAddToCart. step_handler.
  repeat (case_match; cbn; simplify_eq; try done).
Qed.

(** One call either writes no order file for [uid], or exactly one, under
    the number one past the highest present. *)
Lemma dispatch_step (s : Store) (uid : UserID) (i : invocation) (f : FS) :
  let out := exec (dispatch TotalDCR s i) f in
  let id := nextOrderID uid f in
  (ordersWritten uid (trace out.2) = [] /\
   orderDir (fs out.2) uid = orderDir f uid /\
   placedID TotalDCR s uid i f = None)
  \/
  (exists o,
     ordersWritten uid (trace out.2) = [id] /\
     orderDir (fs out.2) uid = <[id := o]> (orderDir f uid) /\
     (placedID TotalDCR s uid i f = Some id \/
      (placedID TotalDCR s uid i f = None /\
       (is_Some (removeErr (inv_world i)) \/
        exists ctx cause,
          ExecuteTemplate s orderPlacedTmplFile ctx = inr cause)))).
Proof.
  destruct i as [h u request w]. cbv zeta.
  unfold placedID, dispatch. cbn [inv_handler inv_uid inv_request inv_world].
  destruct h.
  1-4: left; unfold handleNotFound, handleIndex, handleProduct, handleCart;
       step_handler; repeat (case_match; cbn; simplify_eq); done.
  - left. destruct (handleAddToCart_orders s w u request f uid) as [Ho Hw].
    unfold orderDir. by rewrite Ho.
  - destruct (readErr w) as [e|] eqn:Hread.
    { left. by rewrite (handlePlaceOrder_read_fails _ _ _ _ _ _ Hread). }
    destruct (decide (Items (cartOf f u) = [])) as [Hempty|Hcart].
    { left. rewrite (handlePlaceOrder_no_items _ _ _ _ _ Hread Hempty). cbn.
      repeat split; try done. repeat case_match; try done. congruence. }
    destruct (lastErr w) as [e|] eqn:Hlast.
    { left. by rewrite (handlePlaceOrder_last_fails _ _ _ _ _ _ Hread Hcart Hlast). }
    destruct (UserByID s u) as [nick|] eqn:Huser.
    2: { left.
         by rewrite (handlePlaceOrder_no_user _ _ _ _ _ Hread Hlast Hcart Huser). }
    rewrite (handlePlaceOrder_placing _ _ _ _ _ _ Hread Hlast Hcart Huser).
    destruct (writeErr w) as [e|] eqn:Hwrite.
    { left. cbn [fst snd fs trace]. by rewrite ordersWritten_placingTrace. }
    destruct (decide (u = uid)) as [->|Hne].
    + right. exists (placedOrder TotalDCR s w uid f nick).
      destruct (Items (cartOf f uid)) as [|item rest] eqn:Hitems; [done|].
      destruct (removeErr w) as [e|] eqn:Hremove; cbn [fst snd fs trace].
      * unfold ordersWritten. rewrite omap_app.
        fold (ordersWritten uid (placingTrace TotalDCR s w uid f nick)).
        rewrite ordersWritten_placingTrace. cbn. rewrite decide_True by done.
        split; [done|]. split.
        { unfold orderDir at 1. cbn. by rewrite lookup_insert_eq. }
        right. split; [done|]. left. eauto.
      * unfold ordersWritten. rewrite omap_app.
        fold (ordersWritten uid (placingTrace TotalDCR s w uid f nick)).
        rewrite ordersWritten_placingTrace. cbn. rewrite decide_True by done.
        split; [done|]. split.
        { unfold orderDir at 1. cbn. by rewrite lookup_insert_eq. }
        destruct (ExecuteTemplate _ _ _) as [data|cause] eqn:Htmpl.
        { left. done. }
        right. split; [done|]. right. eauto.
    + left.
      assert (forall tl, ordersWritten uid
                (placingTrace TotalDCR s w u f nick
                 ++ Wrote (OrderFile u (nextOrderID u f)) :: tl)
              = ordersWritten uid tl) as Htr.
      { intros tl. unfold ordersWritten. rewrite omap_app.
        fold (ordersWritten uid (placingTrace TotalDCR s w u f nick)).
        rewrite ordersWritten_placingTrace. cbn. by rewrite decide_False. }
      destruct (removeErr w); cbn [fst snd fs trace]; rewrite Htr; cbn;
        (split; [done|]);
        (split; [unfold orderDir at 1; cbn; by rewrite lookup_insert_ne|]);
        repeat case_match; try done; congruence.
Qed.







End PlaceOrderProperties.

(** ** Adding to the cart *)

Lemma handleAddToCart_saves
    (s : Store) (w : World) (uid : UserID) (request : RMFetchResource) (f : FS)
    (sku : string) (prod : Product) :
  Path request !! 1%nat = Some sku -> products s !! sku = Some prod ->
  readErr w = None -> writeErr w = None ->
  fs (exec (handleAddToCart s w uid request) f).2
  = {| carts := <[uid := addedCart prod w (cartOf f uid)]> (carts f);
       orders := orders f |}.
Proof.
  intros Hpath Hprod Hread Hwrite.
  unfold handleAddToCart, addedCart, cartOf. step_handler.
  rewrite Hpath. cbn. rewrite Hprod, Hread. cbn.
  destruct (carts f !! uid) as [c|]; cbn.
  - destruct (bumpQuantity (SKU prod) (Items c)) as [items hasItem]. cbn.
    rewrite Hwrite. cbn. by destruct (ExecuteTemplate _ _ _).
  - rewrite Hwrite. cbn. by destruct (ExecuteTemplate _ _ _).
Qed.

Lemma handleAddToCart_fs_cases
    (s : Store) (w : World) (uid : UserID) (request : RMFetchResource) (f : FS) :
  fs (exec (handleAddToCart s w uid request) f).2 = f \/
  exists prod,
    fs (exec (handleAddToCart s w uid request) f).2
    = {| carts := <[uid := addedCart prod w (cartOf f uid)]> (carts f);
         orders := orders f |}.
Proof.
  destruct (Path request !! 1%nat) as [sku|] eqn:Hpath.
  2: { left. unfold handleAddToCart. step_handler. by rewrite Hpath. }
  destruct (products s !! sku) as [prod|] eqn:Hprod.
  2: { left. unfold handleAddToCart. step_handler. rewrite Hpath. cbn.
       by rewrite Hprod. }
  destruct (readErr w) as [e|] eqn:Hread.
  { left. unfold handleAddToCart. step_handler. rewrite Hpath. cbn.
    by rewrite Hprod, Hread. }
  destruct (writeErr w) as [e|] eqn:Hwrite.
  { left. unfold handleAddToCart. step_handler. rewrite Hpath. cbn.
    rewrite Hprod, Hread. cbn.
    destruct (carts f !! uid) as [c|]; cbn.
    - destruct (bumpQuantity (SKU prod) (Items c)) as [items hasItem]. cbn.
      by rewrite Hwrite.
    - by rewrite Hwrite. }
  right. exists prod. by apply (handleAddToCart_saves _ _ _ _ _ sku).
Qed.

Lemma skus_app (l1 l2 : list CartItem) : skus (l1 ++ l2) = skus l1 ++ skus l2.
Proof. apply List.map_app. Qed.

Lemma addedCart_one_per_sku (prod : Product) (w : World) (c : Cart) :
  atMostOnePerSKU c -> atMostOnePerSKU (addedCart prod w c).
Proof.
  unfold atMostOnePerSKU, addedCart. intros Hnodup.
  destruct (decide (SKU prod ∈ skus (Items c))) as [Hin|Hnin].
  - pose proof (bumpQuantity_skus (SKU prod) (Items c)) as Hskus.
    destruct (bumpQuantity_present _ _ Hin) as (l1 & item & l2 & _ & _ & _ & Hb).
    rewrite Hb in *. cbn in *. by rewrite Hskus.
  - rewrite (bumpQuantity_absent _ _ Hnin). cbn. rewrite skus_app. cbn.
    apply NoDup_app. split; [done|]. split; [|apply NoDup_singleton].
    intros x Hx ->%list_elem_of_singleton. done.
Qed.

(** C1: [handleAddToCart] keeps at most one item per SKU in every cart,
    whatever it returns. When the product exists and the cart is read and
    written without failure, the saved cart is the old one where the first
    item of the product's SKU has its quantity raised by one (a [uint32]
    increment) and every other item is as it was, or, when no item has the
    SKU, the old one with a new item of quantity 1 at the end. Adding a
    catalog product twice to a cart without items leaves exactly one
    item, for that product, with quantity 2. *)
Theorem handleAddToCart_one_item_per_sku :
  (forall s w uid request f u,
     atMostOnePerSKU (cartOf f u) ->
     atMostOnePerSKU (cartOf (fs (exec (handleAddToCart s w uid request) f).2) u))
  /\
  (forall s w uid request f sku prod,
     Path request !! 1%nat = Some sku -> products s !! sku = Some prod ->
     readErr w = None -> writeErr w = None ->
     let c := cartOf f uid in
     exists c',
       carts (fs (exec (handleAddToCart s w uid request) f).2) !! uid = Some c' /\
       Updated c' = now w /\
       ((exists l1 item l2,
           Items c = l1 ++ item :: l2 /\
           SKU (ci_Product item) = SKU prod /\
           (SKU prod ∉ skus l1) /\
           Items c' = l1 ++ {| ci_Product := ci_Product item;
                               ci_Quantity := uint32 (ci_Quantity item + 1) |}
                            :: l2 /\
           (0 <= ci_Quantity item < 2 ^ 32 - 1 ->
            uint32 (ci_Quantity item + 1) = ci_Quantity item + 1))
        \/
        ((SKU prod ∉ skus (Items c)) /\
         Items c' = Items c ++ [{| ci_Product := prod; ci_Quantity := 1 |}])))
  /\
  (forall s w1 w2 uid request f sku prod,
     Path request !! 1%nat = Some sku -> products s !! sku = Some prod ->
     readErr w1 = None -> writeErr w1 = None ->
     readErr w2 = None -> writeErr w2 = None ->
     Items (cartOf f uid) = [] ->
     let f1 := fs (exec (handleAddToCart s w1 uid request) f).2 in
     let f2 := fs (exec (handleAddToCart s w2 uid request) f1).2 in
     carts f2 !! uid
     = Some {| Items := [{| ci_Product := prod; ci_Quantity := 2 |}];
               Updated := now w2 |}).
Proof.
  split; [|split].
  - intros s w uid request f u Hinv.
    destruct (handleAddToCart_fs_cases s w uid request f) as [->|[prod ->]];
      [done|].
    unfold cartOf at 1. cbn. rewrite lookup_insert.
    case_decide as Hu; cbn.
    + subst u. by apply addedCart_one_per_sku.
    + exact Hinv.
  - intros s w uid request f sku prod Hpath Hprod Hread Hwrite c.
    rewrite (handleAddToCart_saves _ _ _ _ _ _ _ Hpath Hprod Hread Hwrite).
    cbn. rewrite lookup_insert_eq. eexists. split; [done|].
    unfold addedCart. fold c.
    destruct (decide (SKU prod ∈ skus (Items c))) as [Hin|Hnin].
    + destruct (bumpQuantity_present _ _ Hin)
        as (l1 & item & l2 & Hc & Hsku & Hnin & ->).
      cbn. split; [done|]. left. exists l1, item, l2.
      repeat split; try done. apply uint32_succ.
    + rewrite (bumpQuantity_absent _ _ Hnin). cbn. split; [done|]. by right.
  - intros s w1 w2 uid request f sku prod Hpath Hprod Hr1 Hw1 Hr2 Hw2 Hempty f1 f2.
    subst f2 f1.
    rewrite (handleAddToCart_saves _ _ _ _ _ _ _ Hpath Hprod Hr2 Hw2). cbn.
    rewrite lookup_insert_eq. f_equal.
    rewrite (handleAddToCart_saves _ _ _ _ _ _ _ Hpath Hprod Hr1 Hw1).
    unfold cartOf at 1. cbn. rewrite lookup_insert_eq. cbn.
    unfold addedCart. rewrite Hempty. cbn.
    by rewrite decide_True.
Qed.

(** ** Concrete runs

    The store of the running example: product A1 at 9.99, which is 999
    cents; Bob adds it twice and places the order. *)

Example cents_of_widget : cents (Price widget) = 999.
Proof. vm_compute. reflexivity. Qed.

(** [int64(x*100)] cuts the fraction off: 0.29 times 100 is just below 29
    in binary64. *)
#[warnings="-inexact-float"]
Example cents_truncates : cents 0.29%float = 28.
Proof. vm_compute. reflexivity. Qed.

Example bob_adds_twice :
  let s := shop 0%float (fun _ => true) (inl "page") in
  let f1 := fs (exec (handleAddToCart s (quiet 1) "bob" addA1) emptyFS).2 in
  fs (exec (handleAddToCart s (quiet 2) "bob" addA1) f1).2 = bobFS.
Proof. vm_compute. reflexivity. Qed.

Example bob_places_the_order :
  let s := shop 0%float (fun _ => true) (inl "page") in
  let out := exec (handlePlaceOrder fiveDCR s (quiet 3) "bob" placeorder) bobFS in
  out.1 = Ok {| Data := "page"; Status := ResourceStatusOk |} /\
  carts (fs out.2) !! "bob" = None /\
  o_ID <$> (orderDir (fs out.2) "bob" !! 1%N) = Some 1%N /\
  grandTotalCents s (quiet 3) "bob" bobFS = 1998 /\
  ordersWritten "bob" (trace out.2) = [1%N].
Proof. vm_compute. repeat split; reflexivity. Qed.

Example shipping_is_added :
  grandTotalCents (shop 5%float (fun _ => true) (inl "page")) (quiet 3) "bob" bobFS
  = 2498.
Proof. vm_compute. reflexivity. Qed.

Example two_orders_in_a_row :
  let s := shop 0%float (fun _ => true) (inl "page") in
  let add := {| inv_handler := HAddToCart; inv_uid := "bob";
                inv_request := addA1; inv_world := quiet 1 |} in
  let place := {| inv_handler := HPlaceOrder; inv_uid := "bob";
                  inv_request := placeorder; inv_world := quiet 2 |} in
  ordersWritten "bob" (run fiveDCR s [add; place; place; add; place] emptyFS).2
  = [1%N; 2%N].
Proof. vm_compute. reflexivity. Qed.

Lemma handleAddToCart_one_item_per_sku_witness :
  let s := shop 0%float (fun _ => true) (inl "page") in
  let f1 := fs (exec (handleAddToCart s (quiet 1) "bob" addA1) emptyFS).2 in
  let f2 := fs (exec (handleAddToCart s (quiet 2) "bob" addA1) f1).2 in
  carts f2 !! "bob"
  = Some {| Items := [{| ci_Product := widget; ci_Quantity := 2 |}];
            Updated := 2 |}.
Proof.
  exact (proj2 (proj2 handleAddToCart_one_item_per_sku)
           (shop 0%float (fun _ => true) (inl "page")) (quiet 1) (quiet 2)
           "bob" addA1 emptyFS "A1" widget
           eq_refl eq_refl eq_refl eq_refl eq_refl eq_refl eq_refl).
Defined.

Lemma Path_1_total_iff_two_segments_witness :
  (forall r,
     (exec (handleAddToCart (shop 0%float (fun _ => true) (inl "page"))
              (quiet 1) "bob" addA1) emptyFS).1 <> Panic r) /\
  exec (handleProduct (shop 0%float (fun _ => true) (inl "page"))
          (quiet 1) "bob" placeorder) emptyFS
  = (Panic "index out of range [1]", {| fs := emptyFS; trace := [] |}).
Proof.
  split.
  - apply (Path_1_total_iff_two_segments
             (shop 0%float (fun _ => true) (inl "page")) (quiet 1) "bob" addA1
             emptyFS).
    cbn. lia.
  - apply (Path_1_total_iff_two_segments
             (shop 0%float (fun _ => true) (inl "page")) (quiet 1) "bob"
             placeorder emptyFS).
    cbn. lia.
Defined.

(** The price 19.99 is the binary64 number just below it, and its
    hundredfold is just below 1999: rounded to cent precision the price
    is 1999 cents, converted by [int64(x*100)] it is 1998. Other prices
    keep their cents. *)
#[warnings="-inexact-float"]
Example rounded_and_cut_cents :
  (roundedCents 19.99%float, cents 19.99%float) = (Some 1999, 1998) /\
  (roundedCents 0.29%float, cents 0.29%float) = (Some 29, 28) /\
  (roundedCents 1.15%float, cents 1.15%float) = (Some 115, 114) /\
  (roundedCents 9.99%float, cents 9.99%float) = (Some 999, 999) /\
  (roundedCents 0.5%float, cents 0.5%float) = (Some 50, 50).
Proof. vm_compute. repeat split; reflexivity. Qed.

(** C4: Alice adds one gizmo, priced 19.99, to her cart in a store that
    charges no shipping and places the order; every call succeeds. The
    unit price in cents is 1999, so by the claim the subtotal of the one
    item is 1999 cents. The confirmation the [OrderPlaced] callback
    receives has one item line, with the price 19.99 per item and, for
    the one unit, the subtotal 1998:
    [int64(item.Quantity) * int64(item.Product.Price*100)] has cut off
    the cent that the floating-point product falls short of. *)
Theorem handlePlaceOrder_total_loses_a_cent :
  let f1 := fs (exec (handleAddToCart gizmoShop (quiet 1) "alice" addC3)
                  emptyFS).2 in
  let out := exec (handlePlaceOrder fiveDCR gizmoShop (quiet 2) "alice"
                     placeorder) f1 in
  carts f1 !! "alice"
    = Some {| Items := [{| ci_Product := gizmo; ci_Quantity := 1 |}];
              Updated := 1 |} /\
  out.1 = Ok {| Data := "page"; Status := ResourceStatusOk |} /\
  roundedCents (Price gizmo) = Some 1999 /\
  map (omap itemOf) (callbackMessages (trace out.2))
    = [[("C3", "Gizmo", 1, Price gizmo, 1998)]].
Proof. vm_compute. repeat split; reflexivity. Qed.



Lemma handlePlaceOrder_empty_cart_witness :
  exec (handlePlaceOrder fiveDCR (shop 0%float (fun _ => true) (inl "page"))
          (quiet 1) "bob" placeorder) emptyFS
  = (Ok {| Data := "No items in order"; Status := ResourceStatusOk |},
     {| fs := emptyFS; trace := [] |}).
Proof.
  apply handlePlaceOrder_empty_cart; [reflexivity|].
  left. reflexivity.
Defined.

Lemma handlePlaceOrder_success_effects_witness :
  let s := shop 0%float (fun _ => true) (inl "page") in
  let out := exec (handlePlaceOrder fiveDCR s (quiet 3) "bob" placeorder) bobFS in
  carts (fs out.2) = delete "bob" (carts bobFS).
Proof.
  intros s out.
  apply (handlePlaceOrder_success_effects fiveDCR s (quiet 3) "bob" placeorder
           bobFS {| Data := "page"; Status := ResourceStatusOk |}).
  - discriminate.
  - reflexivity.
Defined.

Lemma handlePlaceOrder_onchain_provider_failure_witness :
  let s := shop 0%float (fun _ => true) (inl "page") in
  let out := exec (handlePlaceOrder fiveDCR s (quiet 3) "bob" placeorder) bobFS in
  trace out.2
  = [ErrorOnchainAddr "Bob" "wallet locked"]
    ++ [OrderPlacedCalled (placedOrder fiveDCR s (quiet 3) "bob" bobFS "Bob")
          (confirmation fiveDCR s (quiet 3) "bob" bobFS "Bob")]
    ++ [Wrote (OrderFile "bob" 1); Removed (CartFile "bob")].
Proof.
  intros s out.
  apply (handlePlaceOrder_onchain_provider_failure fiveDCR s (quiet 3) "bob"
           placeorder bobFS "Bob" "wallet locked" 20%float);
    first [reflexivity | discriminate].
Defined.

Lemma handlePlaceOrder_render_failure_witness :
  let s := shop 0%float (fun _ => true) (inr "no such template") in
  let out := exec (handlePlaceOrder fiveDCR s (quiet 3) "bob" placeorder) bobFS in
  out.1 = Err (ErrExecTemplate "product" "no such template").
Proof.
  intros s out.
  apply (handlePlaceOrder_render_failure fiveDCR s (quiet 3) "bob" placeorder
           bobFS "Bob" "no such template");
    first [reflexivity | discriminate].
Defined.

Lemma handlePlaceOrder_unknown_user_witness :
  exec (handlePlaceOrder fiveDCR (shop 0%float (fun _ => false) (inl "page"))
          (quiet 3) "bob" placeorder) bobFS
  = (Err (ErrUnknownUser 1 "bob"), {| fs := bobFS; trace := [] |}).
Proof.
  apply (handlePlaceOrder_unknown_user fiveDCR
           (shop 0%float (fun _ => false) (inl "page")) (quiet 3) "bob"
           placeorder bobFS);
    first [reflexivity | discriminate].
Defined.

(** * Further properties of the handlers *)

(** ** Handlers that only read *)

(** X1: [handleNotFound], [handleIndex], [handleProduct] and [handleCart]
    leave the carts and orders on disk as they are and perform no effect,
    whatever they return. *)
Theorem reading_handlers_change_nothing
    (s : Store) (w : World) (uid : UserID) (request : RMFetchResource) (f : FS) :
  (exec (handleNotFound s w uid request) f).2 = {| fs := f; trace := [] |} /\
  (exec (handleIndex s w uid request) f).2 = {| fs := f; trace := [] |} /\
  (exec (handleProduct s w uid request) f).2 = {| fs := f; trace := [] |} /\
  (exec (handleCart s w uid request) f).2 = {| fs := f; trace := [] |}.
Proof.
  unfold handleNotFound, handleIndex, handleProduct, handleCart, handleNotFound.
  step_handler.
  repeat split; repeat (case_match; cbn; simplify_eq); done.
Qed.

(** X2: for a request with a second path segment, [handleProduct] answers
    a SKU that is not in the catalog with a reply of status NotFound and
    no data, not with an error; a SKU of the catalog is answered with the
    rendered product under status Ok or with the template error. So the
    status is NotFound exactly when the SKU is unknown. *)
Theorem handleProduct_not_found_iff_unknown_sku
    (s : Store) (w : World) (uid : UserID) (request : RMFetchResource) (f : FS)
    (sku : string) :
  Path request !! 1%nat = Some sku ->
  let out := exec (handleProduct s w uid request) f in
  (products s !! sku = None ->
   out.1 = Ok {| Data := ""; Status := ResourceStatusNotFound |}) /\
  (forall prod, products s !! sku = Some prod ->
   out.1 = match ExecuteTemplate s prodTmplFile (productContext prod) with
           | inr err => Err (ErrExecTemplate "product" err)
           | inl data => Ok {| Data := data; Status := ResourceStatusOk |}
           end) /\
  ((exists reply, out.1 = Ok reply /\ Status reply = ResourceStatusNotFound)
   <-> products s !! sku = None).
Proof.
  intros Hpath out. subst out.
  unfold handleProduct, handleNotFound. step_handler. rewrite Hpath. cbn.
  destruct (products s !! sku) as [prod|] eqn:Hprod; cbn.
  - split; [done|]. split.
    + intros prod' [= <-]. by destruct (ExecuteTemplate _ _ _).
    + split; [|done]. intros (reply & Hok & Hst).
      destruct (ExecuteTemplate _ _ _); cbn in Hok; by simplify_eq.
  - split; [done|]. split; [done|]. split; [done|]. intros _. eauto.
Qed.

(** ** Adding to the cart: every way a call can end *)

Lemma handleAddToCart_panics
    (s : Store) (w : World) (uid : UserID) (request : RMFetchResource) (f : FS) :
  Path request !! 1%nat = None ->
  exec (handleAddToCart s w uid request) f
  = (Panic "index out of range [1]", {| fs := f; trace := [] |}).
Proof. intros Hpath. unfold handleAddToCart. step_handler. by rewrite Hpath. Qed.

Lemma handleAddToCart_no_product
    (s : Store) (w : World) (uid : UserID) (request : RMFetchResource) (f : FS)
    (sku : string) :
  Path request !! 1%nat = Some sku -> products s !! sku = None ->
  exec (handleAddToCart s w uid request) f
  = (Err ErrProductDoesNotExist, {| fs := f; trace := [] |}).
Proof.
  intros Hpath Hprod. unfold handleAddToCart. step_handler.
  rewrite Hpath. cbn. by rewrite Hprod.
Qed.

Lemma handleAddToCart_read_fails
    (s : Store) (w : World) (uid : UserID) (request : RMFetchResource) (f : FS)
    (sku : string) (prod : Product) (e : string) :
  Path request !! 1%nat = Some sku -> products s !! sku = Some prod ->
  readErr w = Some e ->
  exec (handleAddToCart s w uid request) f
  = (Err (ErrIO e), {| fs := f; trace := [] |}).
Proof.
  intros Hpath Hprod Hread. unfold handleAddToCart. step_handler.
  rewrite Hpath. cbn. by rewrite Hprod, Hread.
Qed.

Lemma handleAddToCart_write_fails
    (s : Store) (w : World) (uid : UserID) (request : RMFetchResource) (f : FS)
    (sku : string) (prod : Product) (e : string) :
  Path request !! 1%nat = Some sku -> products s !! sku = Some prod ->
  readErr w = None -> writeErr w = Some e ->
  exec (handleAddToCart s w uid request) f
  = (Err (ErrIO e), {| fs := f; trace := [] |}).
Proof.
  intros Hpath Hprod Hread Hwrite. unfold handleAddToCart. step_handler.
  rewrite Hpath. cbn. rewrite Hprod, Hread. cbn.
  destruct (carts f !! uid) as [c|]; cbn.
  - destruct (bumpQuantity (SKU prod) (Items c)) as [items hasItem]. cbn.
    by rewrite Hwrite.
  - by rewrite Hwrite.
Qed.

Lemma handleAddToCart_exec
    (s : Store) (w : World) (uid : UserID) (request : RMFetchResource) (f : FS)
    (sku : string) (prod : Product) :
  Path request !! 1%nat = Some sku -> products s !! sku = Some prod ->
  readErr w = None -> writeErr w = None ->
  exec (handleAddToCart s w uid request) f
  = (match ExecuteTemplate s addToCartTmplFile
             (addToCartContext prod (addedCart prod w (cartOf f uid))) with
     | inr err => Err (ErrExecTemplate "product" err)
     | inl data => Ok {| Data := data; Status := ResourceStatusOk |}
     end,
     {| fs := {| carts := <[uid := addedCart prod w (cartOf f uid)]> (carts f);
                 orders := orders f |};
        trace := [Wrote (CartFile uid)] |}).
Proof.
  intros Hpath Hprod Hread Hwrite.
  unfold handleAddToCart, addedCart, cartOf. step_handler.
  rewrite Hpath. cbn. rewrite Hprod, Hread. cbn.
  destruct (carts f !! uid) as [c|]; cbn.
  - destruct (bumpQuantity (SKU prod) (Items c)) as [items hasItem]. cbn.
    rewrite Hwrite. cbn. by destruct (ExecuteTemplate _ _ _).
  - rewrite Hwrite. cbn. by destruct (ExecuteTemplate _ _ _).
Qed.

(** The ways a call of [handleAddToCart] can go. *)
Lemma handleAddToCart_cases
    (s : Store) (w : World) (uid : UserID) (request : RMFetchResource) (f : FS) :
  (exists e, exec (handleAddToCart s w uid request) f
             = (e, {| fs := f; trace := [] |}) /\
             forall reply, e <> Ok reply) \/
  (exists sku prod,
     Path request !! 1%nat = Some sku /\ products s !! sku = Some prod /\
     readErr w = None /\ writeErr w = None).
Proof.
  destruct (Path request !! 1%nat) as [sku|] eqn:Hpath.
  2: { left. eexists. by rewrite (handleAddToCart_panics _ _ _ _ _ Hpath). }
  destruct (products s !! sku) as [prod|] eqn:Hprod.
  2: { left. eexists.
       by rewrite (handleAddToCart_no_product _ _ _ _ _ _ Hpath Hprod). }
  destruct (readErr w) as [e|] eqn:Hread.
  { left. eexists.
    by rewrite (handleAddToCart_read_fails _ _ _ _ _ _ _ _ Hpath Hprod Hread). }
  destruct (writeErr w) as [e|] eqn:Hwrite.
  { left. eexists.
    by rewrite (handleAddToCart_write_fails _ _ _ _ _ _ _ _ Hpath Hprod Hread Hwrite). }
  right. eauto 10.
Qed.

(** X3: [handleAddToCart] fails without touching the disk when the SKU
    is not in the catalog (the error "product does not exist"), when the
    cart cannot be read, and when the cart cannot be written (the error of
    the failing operation): no cart file is created or changed and no
    effect is performed. *)
Theorem handleAddToCart_fails_before_saving
    (s : Store) (w : World) (uid : UserID) (request : RMFetchResource) (f : FS)
    (sku : string) :
  Path request !! 1%nat = Some sku ->
  let out := exec (handleAddToCart s w uid request) f in
  (products s !! sku = None ->
   out = (Err ErrProductDoesNotExist, {| fs := f; trace := [] |})) /\
  (forall e, is_Some (products s !! sku) -> readErr w = Some e ->
   out = (Err (ErrIO e), {| fs := f; trace := [] |})) /\
  (forall e, is_Some (products s !! sku) -> readErr w = None ->
   writeErr w = Some e ->
   out = (Err (ErrIO e), {| fs := f; trace := [] |})).
Proof.
  intros Hpath out. subst out. split; [|split].
  - intros Hprod. by apply (handleAddToCart_no_product _ _ _ _ _ sku).
  - intros e [prod Hprod] Hread.
    by apply (handleAddToCart_read_fails _ _ _ _ _ sku prod).
  - intros e [prod Hprod] Hread Hwrite.
    by apply (handleAddToCart_write_fails _ _ _ _ _ sku prod).
Qed.

(** X4: when the template fails after the cart is written,
    [handleAddToCart] returns the template error and no reply, but the
    cart with the product added is on disk. *)
Theorem handleAddToCart_render_failure_keeps_cart
    (s : Store) (w : World) (uid : UserID) (request : RMFetchResource) (f : FS)
    (sku : string) (prod : Product) (cause : string) :
  Path request !! 1%nat = Some sku -> products s !! sku = Some prod ->
  readErr w = None -> writeErr w = None ->
  ExecuteTemplate s addToCartTmplFile
    (addToCartContext prod (addedCart prod w (cartOf f uid))) = inr cause ->
  let out := exec (handleAddToCart s w uid request) f in
  out.1 = Err (ErrExecTemplate "product" cause) /\
  carts (fs out.2) !! uid = Some (addedCart prod w (cartOf f uid)) /\
  SKU prod ∈ skus (Items (addedCart prod w (cartOf f uid))) /\
  trace out.2 = [Wrote (CartFile uid)].
Proof.
  intros Hpath Hprod Hread Hwrite Htmpl out. subst out.
  rewrite (handleAddToCart_exec _ _ _ _ _ _ _ Hpath Hprod Hread Hwrite).
  rewrite Htmpl. cbn. rewrite lookup_insert_eq.
  repeat split; try done.
  unfold addedCart.
  destruct (decide (SKU prod ∈ skus (Items (cartOf f uid)))) as [Hin|Hnin].
  - pose proof (bumpQuantity_skus (SKU prod) (Items (cartOf f uid))) as Hskus.
    destruct (bumpQuantity_present _ _ Hin) as (l1 & item & l2 & _ & _ & _ & Hb).
    rewrite Hb in *. cbn in *. by rewrite Hskus.
  - rewrite (bumpQuantity_absent _ _ Hnin). cbn. rewrite skus_app.
    apply elem_of_app. right. cbn. by apply list_elem_of_singleton.
Qed.

(** X5: whatever it returns, [handleAddToCart] changes no order file and
    no cart of another user; it either performs no effect and leaves the
    disk as it is, or writes the cart file of the requesting user and
    nothing else. *)
Theorem handleAddToCart_touches_only_the_users_cart
    (s : Store) (w : World) (uid : UserID) (request : RMFetchResource) (f : FS) :
  let out := exec (handleAddToCart s w uid request) f in
  orders (fs out.2) = orders f /\
  (forall u, u <> uid -> carts (fs out.2) !! u = carts f !! u) /\
  ((out.2 = {| fs := f; trace := [] |} /\ forall reply, out.1 <> Ok reply) \/
   (trace out.2 = [Wrote (CartFile uid)] /\ is_Some (carts (fs out.2) !! uid))).
Proof.
  cbv zeta.
  destruct (handleAddToCart_cases s w uid request f)
    as [(e & -> & Hne)|(sku & prod & Hpath & Hprod & Hread & Hwrite)].
  - cbn. repeat split; try done. by left.
  - rewrite (handleAddToCart_exec _ _ _ _ _ _ _ Hpath Hprod Hread Hwrite). cbn.
    split; [done|]. split.
    + intros u Hu. by rewrite lookup_insert_ne.
    + right. split; [done|]. rewrite lookup_insert_eq. eauto.
Qed.

(** X6: a reply of [handleAddToCart] is the rendering, under status Ok,
    of the catalog's product together with the very cart that is now on
    disk for the user, and that cart holds an item of the product's
    SKU. *)
Theorem handleAddToCart_reply_shows_saved_cart
    (s : Store) (w : World) (uid : UserID) (request : RMFetchResource) (f : FS)
    (reply : RMFetchResourceReply) :
  (exec (handleAddToCart s w uid request) f).1 = Ok reply ->
  exists sku prod c',
    Path request !! 1%nat = Some sku /\ products s !! sku = Some prod /\
    carts (fs (exec (handleAddToCart s w uid request) f).2) !! uid = Some c' /\
    c' = addedCart prod w (cartOf f uid) /\
    SKU prod ∈ skus (Items c') /\
    ExecuteTemplate s addToCartTmplFile (addToCartContext prod c')
      = inl (Data reply) /\
    Status reply = ResourceStatusOk.
Proof.
  intros Hok.
  destruct (handleAddToCart_cases s w uid request f)
    as [(e & Heq & Hne)|(sku & prod & Hpath & Hprod & Hread & Hwrite)].
  { rewrite Heq in Hok. cbn in Hok. by apply Hne in Hok. }
  rewrite (handleAddToCart_exec _ _ _ _ _ _ _ Hpath Hprod Hread Hwrite) in *.
  cbn in *. exists sku, prod, (addedCart prod w (cartOf f uid)).
  rewrite lookup_insert_eq.
  destruct (ExecuteTemplate _ _ _) as [data|err] eqn:Htmpl; [|done].
  injection Hok as <-. cbn. repeat split; try done.
  unfold addedCart.
  destruct (decide (SKU prod ∈ skus (Items (cartOf f uid)))) as [Hin|Hnin].
  - pose proof (bumpQuantity_skus (SKU prod) (Items (cartOf f uid))) as Hskus.
    destruct (bumpQuantity_present _ _ Hin) as (l1 & item & l2 & _ & _ & _ & Hb).
    rewrite Hb in *. cbn in *. by rewrite Hskus.
  - rewrite (bumpQuantity_absent _ _ Hnin). cbn. rewrite skus_app.
    apply elem_of_app. right. cbn. by apply list_elem_of_singleton.
Qed.

(** ** What adding does to the items *)

Lemma bumpQuantity_products sku items :
  map ci_Product (bumpQuantity sku items).1 = map ci_Product items.
Proof.
  induction items as [|item rest IH]; cbn; [done|].
  case_decide; cbn; [done|].
  destruct (bumpQuantity sku rest) as [rest' has]. cbn in *. by rewrite IH.
Qed.

Lemma bumpQuantity_itemsOf sku sku' items :
  sku' <> sku ->
  itemsOf sku' (bumpQuantity sku items).1 = itemsOf sku' items.
Proof.
  intros Hne. unfold itemsOf.
  induction items as [|item rest IH]; cbn [bumpQuantity fst]; [done|].
  case_decide as Hsku; cbn [fst].
  - rewrite !filter_cons. cbn [ci_Product].
    rewrite !decide_False by congruence. done.
  - destruct (bumpQuantity sku rest) as [rest' has]. cbn [fst] in *.
    rewrite !filter_cons. by rewrite IH.
Qed.

Lemma bumpQuantity_hasItem sku items :
  (bumpQuantity sku items).2 = true <-> sku ∈ skus items.
Proof.
  destruct (decide (sku ∈ skus items)) as [Hin|Hnin].
  - destruct (bumpQuantity_present _ _ Hin) as (? & ? & ? & _ & _ & _ & ->).
    done.
  - rewrite (bumpQuantity_absent _ _ Hnin). cbn. split; [done|]. done.
Qed.

(** X7: the cart [handleAddToCart] saves lists the products of the old
    cart in the old order, followed by the added product when no item had
    its SKU; the items of every other SKU are exactly as they were. No
    item is dropped, reordered or given another product. *)
Theorem handleAddToCart_keeps_other_items
    (s : Store) (w : World) (uid : UserID) (request : RMFetchResource) (f : FS)
    (sku : string) (prod : Product) :
  Path request !! 1%nat = Some sku -> products s !! sku = Some prod ->
  readErr w = None -> writeErr w = None ->
  let old := Items (cartOf f uid) in
  exists c',
    carts (fs (exec (handleAddToCart s w uid request) f).2) !! uid = Some c' /\
    map ci_Product (Items c')
      = map ci_Product old
        ++ (if decide (SKU prod ∈ skus old) then [] else [prod]) /\
    (forall sku', sku' <> SKU prod ->
       itemsOf sku' (Items c') = itemsOf sku' old).
Proof.
  intros Hpath Hprod Hread Hwrite old.
  rewrite (handleAddToCart_exec _ _ _ _ _ _ _ Hpath Hprod Hread Hwrite). cbn.
  rewrite lookup_insert_eq. eexists. split; [done|].
  unfold addedCart. fold old.
  pose proof (bumpQuantity_products (SKU prod) old) as Hprods.
  pose proof (bumpQuantity_hasItem (SKU prod) old) as Hhas.
  pose proof (fun sku' => bumpQuantity_itemsOf (SKU prod) sku' old) as Hothers.
  destruct (bumpQuantity (SKU prod) old) as [items [|]]; cbn in *.
  - rewrite decide_True by (by apply Hhas). rewrite app_nil_r. done.
  - rewrite decide_False by (intros Hin; apply Hhas in Hin; done).
    split; [by rewrite List.map_app, Hprods|].
    intros sku' Hne. unfold itemsOf in *. rewrite filter_app, Hothers by done.
    rewrite filter_cons. cbn. rewrite decide_False by congruence.
    by rewrite app_nil_r.
Qed.

Lemma units_app (l1 l2 : list CartItem) : units (l1 ++ l2) = units l1 + units l2.
Proof.
  unfold units. induction l1 as [|item rest IH]; cbn; [done|]. rewrite IH. lia.
Qed.

(** X8: when every quantity of the cart is at least 1 and below the
    largest [uint32], a call of [handleAddToCart] that saves the cart
    raises the number of units in it by exactly one, and every quantity
    is again at least 1 and a [uint32]. *)
Theorem handleAddToCart_adds_one_unit
    (s : Store) (w : World) (uid : UserID) (request : RMFetchResource) (f : FS)
    (sku : string) (prod : Product) :
  Path request !! 1%nat = Some sku -> products s !! sku = Some prod ->
  readErr w = None -> writeErr w = None ->
  Forall (fun item => 1 <= ci_Quantity item < 2 ^ 32 - 1) (Items (cartOf f uid)) ->
  exists c',
    carts (fs (exec (handleAddToCart s w uid request) f).2) !! uid = Some c' /\
    units (Items c') = units (Items (cartOf f uid)) + 1 /\
    Forall (fun item => 1 <= ci_Quantity item < 2 ^ 32) (Items c').
Proof.
  intros Hpath Hprod Hread Hwrite Hrange.
  rewrite (handleAddToCart_exec _ _ _ _ _ _ _ Hpath Hprod Hread Hwrite). cbn.
  rewrite lookup_insert_eq. eexists. split; [done|].
  unfold addedCart.
  assert (Forall (fun item => 1 <= ci_Quantity item < 2 ^ 32)
                 (Items (cartOf f uid))) as Hweak.
  { eapply Forall_impl; [exact Hrange|]. cbn. intros item Hq. lia. }
  destruct (decide (SKU prod ∈ skus (Items (cartOf f uid)))) as [Hin|Hnin].
  - destruct (bumpQuantity_present _ _ Hin)
      as (l1 & item & l2 & Hc & _ & _ & ->).
    cbn. rewrite Hc in *. clear Hc.
    apply Forall_app in Hrange as [_ [Hitem _]%Forall_cons].
    apply Forall_app in Hweak as [Hl1 [_ Hl2]%Forall_cons].
    rewrite !units_app. cbn. rewrite uint32_succ by lia. split; [lia|].
    apply Forall_app. split; [done|]. apply Forall_cons. split; [|done].
    cbn. rewrite uint32_succ by lia. lia.
  - rewrite (bumpQuantity_absent _ _ Hnin). cbn.
    rewrite units_app. cbn. split; [lia|].
    apply Forall_app. split; [done|]. apply Forall_cons. split; [|done].
    cbn. lia.
Qed.

Lemma uint32_idemp_succ q : uint32 (uint32 q + 1) = uint32 (q + 1).
Proof. unfold uint32. by rewrite Zplus_mod_idemp_l. Qed.

Lemma addTimes_bumps
    (s : Store) (uid : UserID) (request : RMFetchResource)
    (sku : string) (prod : Product) (ws : list World) :
  Path request !! 1%nat = Some sku -> products s !! sku = Some prod ->
  Forall cartIO_ok ws ->
  forall (f : FS) (q : Z) (now0 : Z),
    carts f !! uid
      = Some {| Items := [{| ci_Product := prod; ci_Quantity := uint32 q |}];
                Updated := now0 |} ->
    carts (addTimes s ws uid request f) !! uid
    = Some {| Items := [{| ci_Product := prod;
                           ci_Quantity := uint32 (q + Z.of_nat (length ws)) |}];
              Updated := default now0 (now <$> last ws) |}.
Proof.
  intros Hpath Hprod Hws. induction Hws as [|w rest [Hread Hwrite] Hrest IH];
    intros f q now0 Hcart.
  - cbn. rewrite Hcart. do 3 f_equal. by rewrite Z.add_0_r.
  - cbn [addTimes].
    rewrite (handleAddToCart_exec _ _ _ _ _ _ _ Hpath Hprod Hread Hwrite).
    cbn [snd fs].
    rewrite (IH _ (q + 1) (now w)).
    + replace (q + 1 + Z.of_nat (length rest))
        with (q + Z.of_nat (length (w :: rest))) by (cbn [length]; lia).
      replace (default (now w) (now <$> last rest))
        with (default now0 (now <$> last (w :: rest)))
        by (rewrite last_cons; by destruct (last rest)).
      done.
    + cbn. rewrite lookup_insert_eq. f_equal.
      unfold addedCart, cartOf. rewrite Hcart. cbn.
      rewrite decide_True by done. cbn. by rewrite uint32_idemp_succ.
Qed.

(** X9: adding a catalog product [n] times in a row (n at least 1) to a
    cart without items, with no read or write failing, leaves a cart with
    exactly one item, for that product, whose quantity is [n] as a
    [uint32], stamped with the time of the last call. *)
Theorem handleAddToCart_n_times
    (s : Store) (uid : UserID) (request : RMFetchResource) (f : FS)
    (sku : string) (prod : Product) (ws : list World) (wl : World) :
  Path request !! 1%nat = Some sku -> products s !! sku = Some prod ->
  Forall cartIO_ok (ws ++ [wl]) ->
  Items (cartOf f uid) = [] ->
  carts (addTimes s (ws ++ [wl]) uid request f) !! uid
  = Some {| Items := [{| ci_Product := prod;
                         ci_Quantity := uint32 (Z.of_nat (length ws) + 1) |}];
            Updated := now wl |}.
Proof.
  intros Hpath Hprod Hws Hempty.
  destruct ws as [|w rest].
  - cbn in *. apply Forall_cons in Hws as [[Hread Hwrite] _].
    rewrite (handleAddToCart_exec _ _ _ _ _ _ _ Hpath Hprod Hread Hwrite). cbn.
    rewrite lookup_insert_eq. f_equal. unfold addedCart. by rewrite Hempty.
  - cbn [app addTimes] in *. apply Forall_cons in Hws as [[Hread Hwrite] Hws].
    rewrite (handleAddToCart_exec _ _ _ _ _ _ _ Hpath Hprod Hread Hwrite).
    cbn [snd fs].
    rewrite (addTimes_bumps s uid request sku prod (rest ++ [wl]) Hpath Hprod Hws
               _ 1 (now w)).
    + rewrite last_snoc. cbn [fmap option_fmap option_map default].
      replace (1 + Z.of_nat (length (rest ++ [wl])))
        with (Z.of_nat (length (w :: rest)) + 1)
        by (rewrite length_app; cbn [length]; lia).
      done.
    + cbn. rewrite lookup_insert_eq. f_equal. unfold addedCart.
      by rewrite Hempty.
Qed.

(** ** Placing an order: every way a call can end *)

Section PlaceOrderFurther.

Variable TotalDCR : Order -> Z.

(** Either nothing is placed and the disk stays as it is, or the call
    gets as far as saving the order. *)
Lemma handlePlaceOrder_cases
    (s : Store) (w : World) (uid : UserID) (request : RMFetchResource) (f : FS) :
  (exists r, exec (handlePlaceOrder TotalDCR s w uid request) f
             = (r, {| fs := f; trace := [] |}) /\
             (forall reason, r <> Panic reason) /\
             (forall reply, r = Ok reply -> Items (cartOf f uid) = [])) \/
  (exists nick, reachesSave s w uid f nick).
Proof.
  destruct (readErr w) as [e|] eqn:Hread.
  { left. eexists. rewrite (handlePlaceOrder_read_fails _ _ _ _ _ _ _ Hread).
    repeat split; done. }
  destruct (decide (Items (cartOf f uid) = [])) as [Hempty|Hcart].
  { left. eexists. rewrite (handlePlaceOrder_no_items _ _ _ _ _ _ Hread Hempty).
    repeat split; done. }
  destruct (lastErr w) as [e|] eqn:Hlast.
  { left. eexists.
    rewrite (handlePlaceOrder_last_fails _ _ _ _ _ _ _ Hread Hcart Hlast).
    repeat split; done. }
  destruct (UserByID s uid) as [nick|] eqn:Huser.
  2: { left. eexists.
       rewrite (handlePlaceOrder_no_user _ _ _ _ _ _ Hread Hlast Hcart Huser).
       repeat split; done. }
  right. exists nick. by repeat split.
Qed.

Lemma handlePlaceOrder_reaching
    (s : Store) (w : World) (uid : UserID) (request : RMFetchResource) (f : FS)
    (nick : string) :
  reachesSave s w uid f nick ->
  exec (handlePlaceOrder TotalDCR s w uid request) f =
    match writeErr w with
    | Some e =>
        (Err (ErrIO e),
         {| fs := f; trace := placingTrace TotalDCR s w uid f nick |})
    | None =>
        match removeErr w with
        | Some e =>
            (Err (ErrIO e),
             {| fs := savedFS TotalDCR s w uid f nick;
                trace := placingTrace TotalDCR s w uid f nick
                         ++ [Wrote (OrderFile uid (nextOrderID uid f))] |})
        | None =>
            (match ExecuteTemplate s orderPlacedTmplFile
                     (orderContext (placedOrder TotalDCR s w uid f nick)) with
             | inr err => Err (ErrExecTemplate "product" err)
             | inl data => Ok {| Data := data; Status := ResourceStatusOk |}
             end,
             {| fs := clearedFS TotalDCR s w uid f nick;
                trace := placingTrace TotalDCR s w uid f nick
                         ++ [Wrote (OrderFile uid (nextOrderID uid f));
                             Removed (CartFile uid)] |})
        end
    end.
Proof.
  intros (Hread & Hlast & Hcart & Huser). by apply handlePlaceOrder_placing.
Qed.

(** C7: each of the four file operations of [handlePlaceOrder], when it
    is reached and fails, makes the call return that error and no reply,
    for every store, user and disk. Reading the cart is always reached,
    whether the user has a cart or is known at all; the scan of the order
    directory is reached once the cart is read and has items, known user
    or not; the write of the order file and the removal of the cart file
    are reached when the scan succeeded as well and the client knows the
    user. When the read, the scan or the write fails the disk is as it
    was; when the removal fails the carts are as they were and the one
    new order file holds the whole order. And however the call ends,
    the order files on disk are the ones from before, alone or with the
    complete new order: there is no partly written order file. *)
Theorem handlePlaceOrder_io_failure
    (s : Store) (w : World) (uid : UserID) (request : RMFetchResource) (f : FS)
    (e : string) :
  let out := exec (handlePlaceOrder TotalDCR s w uid request) f in
  (readErr w = Some e ->
   out = (Err (ErrIO e), {| fs := f; trace := [] |})) /\
  (readErr w = None -> Items (cartOf f uid) <> [] -> lastErr w = Some e ->
   out = (Err (ErrIO e), {| fs := f; trace := [] |})) /\
  (forall nick, reachesSave s w uid f nick -> writeErr w = Some e ->
   out.1 = Err (ErrIO e) /\ fs out.2 = f /\
   ordersWritten uid (trace out.2) = []) /\
  (forall nick, reachesSave s w uid f nick ->
   writeErr w = None -> removeErr w = Some e ->
   let o := placedOrder TotalDCR s w uid f nick in
   out.1 = Err (ErrIO e) /\ carts (fs out.2) = carts f /\
   orders (fs out.2)
     = <[uid := <[nextOrderID uid f := o]> (orderDir f uid)]> (orders f) /\
   o_ID o = nextOrderID uid f /\ o_User o = uid /\ o_Cart o = cartOf f uid /\
   o_Status o = StatusPlaced /\ o_PlacedTS o = now w) /\
  (orders (fs out.2) = orders f \/
   exists nick,
     reachesSave s w uid f nick /\ writeErr w = None /\
     orders (fs out.2)
       = <[uid := <[nextOrderID uid f := placedOrder TotalDCR s w uid f nick]>
                    (orderDir f uid)]> (orders f)).
Proof.
  intros out. subst out.
  split; [apply handlePlaceOrder_read_fails|].
  split; [apply handlePlaceOrder_last_fails|].
  split.
  { intros nick Hreach Hwrite.
    rewrite (handlePlaceOrder_reaching _ _ _ _ _ _ Hreach), Hwrite.
    cbn [fst snd fs trace]. split; [done|]. split; [done|].
    apply ordersWritten_placingTrace. }
  split.
  { intros nick Hreach Hwrite Hremove.
    rewrite (handlePlaceOrder_reaching _ _ _ _ _ _ Hreach), Hwrite, Hremove.
    cbn [fst snd fs trace savedFS carts orders].
    destruct (placedOrder_fields TotalDCR s w uid f nick)
      as (Hid & Hu & Hc & Hst & Hts & _).
    by repeat split. }
  destruct (handlePlaceOrder_cases s w uid request f)
    as [(r & -> & _)|[nick Hreach]]; [by left|].
  rewrite (handlePlaceOrder_reaching _ _ _ _ _ _ Hreach).
  destruct (writeErr w) as [e'|]; [by left|].
  right. exists nick. split; [done|]. split; [done|].
  by destruct (removeErr w).
Qed.

Lemma orderDir_savedFS (s : Store) (w : World) (uid : UserID) (f : FS)
    (nick : string) :
  orderDir (savedFS TotalDCR s w uid f nick) uid
  = <[nextOrderID uid f := placedOrder TotalDCR s w uid f nick]> (orderDir f uid).
Proof. unfold orderDir at 1. cbn. by rewrite lookup_insert_eq. Qed.

Lemma orderDir_savedFS_ne (s : Store) (w : World) (uid : UserID) (f : FS)
    (nick : string) (u : UserID) :
  u <> uid -> orderDir (savedFS TotalDCR s w uid f nick) u = orderDir f u.
Proof. intros Hne. unfold orderDir at 1. cbn. by rewrite lookup_insert_ne. Qed.

Lemma orderDir_clearedFS (s : Store) (w : World) (uid : UserID) (f : FS)
    (nick : string) (u : UserID) :
  orderDir (clearedFS TotalDCR s w uid f nick) u
  = orderDir (savedFS TotalDCR s w uid f nick) u.
Proof. done. Qed.

(** X10: whatever it returns, [handlePlaceOrder] never panics, changes no
    cart and no order file of another user, never overwrites or removes
    an order file of the user, and leaves the user's cart file as it was
    or removes it. *)
Theorem handlePlaceOrder_touches_only_the_users_files
    (s : Store) (w : World) (uid : UserID) (request : RMFetchResource) (f : FS) :
  let out := exec (handlePlaceOrder TotalDCR s w uid request) f in
  (forall reason, out.1 <> Panic reason) /\
  (forall u, u <> uid ->
     carts (fs out.2) !! u = carts f !! u /\
     orderDir (fs out.2) u = orderDir f u) /\
  (forall k o, orderDir f uid !! k = Some o ->
     orderDir (fs out.2) uid !! k = Some o) /\
  (carts (fs out.2) !! uid = carts f !! uid \/ carts (fs out.2) !! uid = None).
Proof.
  cbv zeta.
  destruct (handlePlaceOrder_cases s w uid request f)
    as [(r & -> & Hnp & _)|[nick Hreach]].
  { cbn. repeat split; try done. by left. }
  rewrite (handlePlaceOrder_reaching _ _ _ _ _ _ Hreach).
  assert (forall k o, orderDir f uid !! k = Some o ->
            orderDir (savedFS TotalDCR s w uid f nick) uid !! k = Some o) as Hkeep.
  { intros k o Hk. rewrite orderDir_savedFS, lookup_insert_ne; [done|].
    intros <-. unfold nextOrderID in Hk. by rewrite lastID_fresh in Hk. }
  destruct (writeErr w); [cbn; repeat split; try done; by left|].
  destruct (removeErr w); cbn [fst snd fs].
  - repeat split; try done.
    + by apply orderDir_savedFS_ne.
    + by left.
  - repeat split.
    + by destruct (ExecuteTemplate _ _ _).
    + cbn. by rewrite lookup_delete_ne.
    + rewrite orderDir_clearedFS. by apply orderDir_savedFS_ne.
    + intros k o Hk. rewrite orderDir_clearedFS. by apply Hkeep.
    + right. cbn. by rewrite lookup_delete_eq.
Qed.

(** ** Settling the payment *)

Lemma ratedOrder_fields (s : Store) (w : World) (uid : UserID) (f : FS) :
  let o := ratedOrder s w uid f in
  o_PayType o = PayTypeNone /\ o_Invoice o = "" /\ o_User o = uid /\
  o_ID o = nextOrderID uid f /\
  o_ExchangeRate o = match ExchangeRateProvider (cfg s) with
                     | Some rate => rate
                     | None => 0%float
                     end.
Proof. cbv zeta. unfold ratedOrder. by destruct (ExchangeRateProvider (cfg s)). Qed.

(** When the save is reached and the order file is written, the file
    holds [placedOrder], and what is returned is settled by the removal
    of the cart file and the renderer. *)
Lemma handlePlaceOrder_saves
    (s : Store) (w : World) (uid : UserID) (request : RMFetchResource) (f : FS)
    (nick : string) :
  reachesSave s w uid f nick -> writeErr w = None ->
  let out := exec (handlePlaceOrder TotalDCR s w uid request) f in
  orderDir (fs out.2) uid !! nextOrderID uid f
    = Some (placedOrder TotalDCR s w uid f nick) /\
  out.1 = match removeErr w with
          | Some e => Err (ErrIO e)
          | None =>
              match ExecuteTemplate s orderPlacedTmplFile
                      (orderContext (placedOrder TotalDCR s w uid f nick)) with
              | inr err => Err (ErrExecTemplate "product" err)
              | inl data => Ok {| Data := data; Status := ResourceStatusOk |}
              end
          end /\
  trace out.2
    = placingTrace TotalDCR s w uid f nick
      ++ Wrote (OrderFile uid (nextOrderID uid f))
         :: match removeErr w with
            | Some _ => []
            | None => [Removed (CartFile uid)]
            end.
Proof.
  intros Hreach Hwrite. cbv zeta.
  rewrite (handlePlaceOrder_reaching _ _ _ _ _ _ Hreach), Hwrite.
  destruct (removeErr w); cbn [fst snd fs trace];
    rewrite ?orderDir_clearedFS, orderDir_savedFS, lookup_insert_eq; done.
Qed.

Lemma paymentOutcome_no_rate (s : Store) (w : World) (uid : UserID) (f : FS)
    (nick : string) :
  ExchangeRateProvider (cfg s) = None ->
  paymentOutcome TotalDCR s w uid f nick
  = (Ok (ratedOrder s w uid f, []),
     {| fs := f; trace := [WarnNoExchangeRateProvider] |}).
Proof.
  intros Hrate. unfold paymentOutcome, resolvePayment. unfold_M.
  by rewrite Hrate.
Qed.

Lemma paymentOutcome_bad_rate (s : Store) (w : World) (uid : UserID) (f : FS)
    (nick : string) (rate : float) :
  ExchangeRateProvider (cfg s) = Some rate ->
  PrimFloat.leb rate 0%float = true ->
  paymentOutcome TotalDCR s w uid f nick
  = (Ok (ratedOrder s w uid f, []),
     {| fs := f; trace := [WarnInvalidExchangeRate nick (nextOrderID uid f)] |}).
Proof.
  intros Hrate Hbad. unfold paymentOutcome, resolvePayment. unfold_M.
  destruct (ratedOrder_fields s w uid f) as (_ & _ & _ & -> & ->).
  by rewrite Hrate, Hbad.
Qed.

Lemma paymentOutcome_zero_total (s : Store) (w : World) (uid : UserID) (f : FS)
    (nick : string) (rate : float) :
  ExchangeRateProvider (cfg s) = Some rate ->
  PrimFloat.leb rate 0%float = false ->
  TotalDCR (ratedOrder s w uid f) = 0 ->
  paymentOutcome TotalDCR s w uid f nick
  = (Ok (ratedOrder s w uid f, []), {| fs := f; trace := [WarnZeroTotalDCR] |}).
Proof.
  intros Hrate Hpos Hzero. unfold paymentOutcome, resolvePayment. unfold_M.
  destruct (ratedOrder_fields s w uid f) as (_ & _ & _ & _ & ->).
  by rewrite Hrate, Hpos, Hzero.
Qed.

(** The payment switch once the rate and the total are valid. *)
Lemma paymentOutcome_valid (s : Store) (w : World) (uid : UserID) (f : FS)
    (nick : string) (rate : float) :
  ExchangeRateProvider (cfg s) = Some rate ->
  PrimFloat.leb rate 0%float = false ->
  TotalDCR (ratedOrder s w uid f) <> 0 ->
  paymentOutcome TotalDCR s w uid f nick
  = let order := ratedOrder s w uid f in
    match cfg_PayType (cfg s) with
    | PayTypeOnChain =>
        match OnchainRecvAddrForUser s uid (Account (cfg s)) with
        | inr err =>
            (Ok (order, []),
             {| fs := f; trace := [ErrorOnchainAddr nick err] |})
        | inl addr =>
            (Ok (set_Payment PayTypeOnChain addr order, [MsgOnchainAddr addr]),
             {| fs := f; trace := [] |})
        end
    | PayTypeLN =>
        match lnpc s with
        | None =>
            (Ok (order, []),
             {| fs := f; trace := [WarnLNNotSetup nick (nextOrderID uid f)] |})
        | Some GetInvoice =>
            match GetInvoice (int64_mul (TotalDCR order) 1000) with
            | inr err =>
                (Ok (order, []),
                 {| fs := f;
                    trace := [WarnLNInvoice nick (nextOrderID uid f) err] |})
            | inl invoice =>
                (Ok (set_Payment PayTypeLN invoice order, [MsgLNInvoice invoice]),
                 {| fs := f; trace := [] |})
            end
        end
    | PayTypeNone => (Ok (order, [MsgContactedShortly]), {| fs := f; trace := [] |})
    end.
Proof.
  intros Hrate Hpos Hdcr. unfold paymentOutcome, resolvePayment. unfold_M.
  apply Z.eqb_neq in Hdcr.
  destruct (ratedOrder_fields s w uid f) as (_ & _ & Hu & Hid & Hr).
  rewrite Hr, Hu, Hid, Hrate, Hpos, Hdcr. cbv zeta.
  destruct (cfg_PayType (cfg s)); [done| |].
  - by destruct (OnchainRecvAddrForUser _ _ _).
  - destruct (lnpc s) as [g|]; [|done]. by destruct (g _).
Qed.


Lemma confirmation_last (s : Store) (w : World) (uid : UserID) (f : FS)
    (nick : string) (o : Order) (l : msgLine) (st : St) :
  paymentOutcome TotalDCR s w uid f nick = (Ok (o, [l]), st) ->
  last (confirmation TotalDCR s w uid f nick) = Some l.
Proof.
  intros Hpay. unfold confirmation. rewrite Hpay. cbn [fst].
  by rewrite last_snoc.
Qed.

Lemma callback_in_trace
    (s : Store) (w : World) (uid : UserID) (request : RMFetchResource) (f : FS)
    (nick : string) :
  reachesSave s w uid f nick -> OrderPlaced (cfg s) = true ->
  OrderPlacedCalled (placedOrder TotalDCR s w uid f nick)
                    (confirmation TotalDCR s w uid f nick)
    ∈ trace (exec (handlePlaceOrder TotalDCR s w uid request) f).2.
Proof.
  intros Hreach Hcb. rewrite (handlePlaceOrder_reaching _ _ _ _ _ _ Hreach).
  assert (OrderPlacedCalled (placedOrder TotalDCR s w uid f nick)
                            (confirmation TotalDCR s w uid f nick)
            ∈ placingTrace TotalDCR s w uid f nick) as Hin.
  { unfold placingTrace. rewrite Hcb. apply elem_of_app. right.
    by apply list_elem_of_singleton. }
  destruct (writeErr w); cbn [snd trace]; [done|].
  destruct (removeErr w); cbn [snd trace]; apply elem_of_app; by left.
Qed.

(** X12: with pay type OnChain, a positive rate and a non-zero total in
    DCR, when the wallet hands out an address the saved order has pay
    type OnChain and that address as its invoice, the confirmation ends
    with the payment address, and nothing is logged. *)
Theorem handlePlaceOrder_onchain_address
    (s : Store) (w : World) (uid : UserID) (request : RMFetchResource) (f : FS)
    (nick addr : string) (rate : float) :
  reachesSave s w uid f nick -> writeErr w = None ->
  ExchangeRateProvider (cfg s) = Some rate ->
  PrimFloat.leb rate 0%float = false ->
  TotalDCR (ratedOrder s w uid f) <> 0 ->
  cfg_PayType (cfg s) = PayTypeOnChain ->
  OnchainRecvAddrForUser s uid (Account (cfg s)) = inl addr ->
  let out := exec (handlePlaceOrder TotalDCR s w uid request) f in
  (exists o,
     orderDir (fs out.2) uid !! nextOrderID uid f = Some o /\
     o_PayType o = PayTypeOnChain /\ o_Invoice o = addr /\
     o_ExchangeRate o = rate) /\
  last (confirmation TotalDCR s w uid f nick) = Some (MsgOnchainAddr addr) /\
  (OrderPlaced (cfg s) = true ->
   exists o, OrderPlacedCalled o (confirmation TotalDCR s w uid f nick)
               ∈ trace out.2) /\
  filter (fun e => isLog e = true) (trace out.2) = [].
Proof.
  intros Hreach Hwrite Hrate Hpos Hdcr Hpt Haddr out. subst out.
  pose proof (paymentOutcome_valid s w uid f nick rate Hrate Hpos Hdcr) as Hpay.
  cbv zeta in Hpay. rewrite Hpt, Haddr in Hpay.
  destruct (handlePlaceOrder_saves s w uid request f nick Hreach Hwrite)
    as (Hfile & _ & Htrace).
  destruct (ratedOrder_fields s w uid f) as (_ & _ & _ & _ & Hr).
  rewrite Hrate in Hr.
  split; [|split; [|split]].
  - exists (placedOrder TotalDCR s w uid f nick). split; [exact Hfile|].
    unfold placedOrder. rewrite Hpay. by cbn.
  - by apply (confirmation_last _ _ _ _ _ _ _ _ Hpay).
  - intros Hcb. eexists. by apply callback_in_trace.
  - rewrite Htrace. unfold placingTrace, paymentLog. rewrite Hpay. cbn [snd trace].
    destruct (OrderPlaced (cfg s)); by destruct (removeErr w).
Qed.

(** X13: with pay type LN, a positive rate and a non-zero total in DCR,
    the LN node is asked for an invoice over the total times 1000 (in
    [int64]); when it answers one, the saved order has pay type LN and
    that invoice, the confirmation ends with the invoice, and nothing is
    logged. *)
Theorem handlePlaceOrder_ln_invoice
    (s : Store) (w : World) (uid : UserID) (request : RMFetchResource) (f : FS)
    (nick invoice : string) (rate : float) (GetInvoice : Z -> string + string) :
  reachesSave s w uid f nick -> writeErr w = None ->
  ExchangeRateProvider (cfg s) = Some rate ->
  PrimFloat.leb rate 0%float = false ->
  TotalDCR (ratedOrder s w uid f) <> 0 ->
  cfg_PayType (cfg s) = PayTypeLN ->
  lnpc s = Some GetInvoice ->
  GetInvoice (int64 (TotalDCR (ratedOrder s w uid f) * 1000)) = inl invoice ->
  let out := exec (handlePlaceOrder TotalDCR s w uid request) f in
  (exists o,
     orderDir (fs out.2) uid !! nextOrderID uid f = Some o /\
     o_PayType o = PayTypeLN /\ o_Invoice o = invoice /\
     o_ExchangeRate o = rate) /\
  last (confirmation TotalDCR s w uid f nick) = Some (MsgLNInvoice invoice) /\
  filter (fun e => isLog e = true) (trace out.2) = [].
Proof.
  intros Hreach Hwrite Hrate Hpos Hdcr Hpt Hln Hinv out. subst out.
  pose proof (paymentOutcome_valid s w uid f nick rate Hrate Hpos Hdcr) as Hpay.
  cbv zeta in Hpay. unfold int64_mul in Hpay. rewrite Hpt, Hln, Hinv in Hpay.
  destruct (handlePlaceOrder_saves s w uid request f nick Hreach Hwrite)
    as (Hfile & _ & Htrace).
  destruct (ratedOrder_fields s w uid f) as (_ & _ & _ & _ & Hr).
  rewrite Hrate in Hr.
  split; [|split].
  - exists (placedOrder TotalDCR s w uid f nick). split; [exact Hfile|].
    unfold placedOrder. rewrite Hpay. by cbn.
  - by apply (confirmation_last _ _ _ _ _ _ _ _ Hpay).
  - rewrite Htrace. unfold placingTrace, paymentLog. rewrite Hpay. cbn [snd trace].
    destruct (OrderPlaced (cfg s)); by destruct (removeErr w).
Qed.

(** X14: with pay type LN, a positive rate and a non-zero total in DCR,
    when no LN node is set up or the node fails to make the invoice, the
    order is saved all the same, with pay type None and no invoice; one
    warning is logged, and what [handlePlaceOrder] returns is settled by
    the removal of the cart file and the renderer, not by the failure. *)
Theorem handlePlaceOrder_ln_failure
    (s : Store) (w : World) (uid : UserID) (request : RMFetchResource) (f : FS)
    (nick : string) (rate : float) :
  reachesSave s w uid f nick -> writeErr w = None ->
  ExchangeRateProvider (cfg s) = Some rate ->
  PrimFloat.leb rate 0%float = false ->
  TotalDCR (ratedOrder s w uid f) <> 0 ->
  cfg_PayType (cfg s) = PayTypeLN ->
  lnpc s = None \/
  (exists GetInvoice cause,
     lnpc s = Some GetInvoice /\
     GetInvoice (int64 (TotalDCR (ratedOrder s w uid f) * 1000)) = inr cause) ->
  let out := exec (handlePlaceOrder TotalDCR s w uid request) f in
  exists o warning,
    orderDir (fs out.2) uid !! nextOrderID uid f = Some o /\
    o_PayType o = PayTypeNone /\ o_Invoice o = "" /\
    filter (fun e => isLog e = true) (trace out.2) = [warning] /\
    (lnpc s = None -> warning = WarnLNNotSetup nick (nextOrderID uid f)) /\
    (forall GetInvoice cause,
       lnpc s = Some GetInvoice ->
       GetInvoice (int64 (TotalDCR (ratedOrder s w uid f) * 1000)) = inr cause ->
       warning = WarnLNInvoice nick (nextOrderID uid f) cause) /\
    out.1 = match removeErr w with
            | Some e => Err (ErrIO e)
            | None =>
                match ExecuteTemplate s orderPlacedTmplFile (orderContext o) with
                | inr err => Err (ErrExecTemplate "product" err)
                | inl data => Ok {| Data := data; Status := ResourceStatusOk |}
                end
            end.
Proof.
  intros Hreach Hwrite Hrate Hpos Hdcr Hpt Hfail out. subst out.
  pose proof (paymentOutcome_valid s w uid f nick rate Hrate Hpos Hdcr) as Hpay.
  cbv zeta in Hpay. unfold int64_mul in Hpay. rewrite Hpt in Hpay.
  destruct (handlePlaceOrder_saves s w uid request f nick Hreach Hwrite)
    as (Hfile & Hres & Htrace).
  destruct (ratedOrder_fields s w uid f) as (HpT & Hinv & _).
  exists (placedOrder TotalDCR s w uid f nick).
  destruct Hfail as [Hln|(g & cause & Hln & Hg)].
  - rewrite Hln in Hpay.
    exists (WarnLNNotSetup nick (nextOrderID uid f)).
    assert (placedOrder TotalDCR s w uid f nick = ratedOrder s w uid f) as Hpl
      by (unfold placedOrder; by rewrite Hpay).
    split; [exact Hfile|].
    split; [by rewrite Hpl|]. split; [by rewrite Hpl|]. split.
    { rewrite Htrace. unfold placingTrace, paymentLog. rewrite Hpay.
      cbn [snd trace]. destruct (OrderPlaced (cfg s)); by destruct (removeErr w). }
    split; [done|]. split; [|exact Hres].
    intros g cause Hg. congruence.
  - rewrite Hln, Hg in Hpay.
    exists (WarnLNInvoice nick (nextOrderID uid f) cause).
    assert (placedOrder TotalDCR s w uid f nick = ratedOrder s w uid f) as Hpl
      by (unfold placedOrder; by rewrite Hpay).
    split; [exact Hfile|].
    split; [by rewrite Hpl|]. split; [by rewrite Hpl|]. split.
    { rewrite Htrace. unfold placingTrace, paymentLog. rewrite Hpay.
      cbn [snd trace]. destruct (OrderPlaced (cfg s)); by destruct (removeErr w). }
    split; [congruence|]. split; [|exact Hres].
    intros g' cause' Hg' Hc'. congruence.
Qed.

(** What a placement does depends on the payment providers only through
    the payment switch. *)
Lemma handlePlaceOrder_withProviders
    (s : Store) (w : World) (uid : UserID) (request : RMFetchResource) (f : FS)
    (addr : UserID -> string -> string + string)
    (ln : option (Z -> string + string)) :
  (forall nick,
     paymentOutcome TotalDCR (withProviders s addr ln) w uid f nick
     = paymentOutcome TotalDCR s w uid f nick) ->
  exec (handlePlaceOrder TotalDCR (withProviders s addr ln) w uid request) f
  = exec (handlePlaceOrder TotalDCR s w uid request) f.
Proof.
  intros Hpay.
  destruct (readErr w) as [e|] eqn:Hread.
  { by rewrite !(handlePlaceOrder_read_fails _ _ _ _ _ _ _ Hread). }
  destruct (decide (Items (cartOf f uid) = [])) as [Hempty|Hcart].
  { by rewrite !(handlePlaceOrder_no_items _ _ _ _ _ _ Hread Hempty). }
  destruct (lastErr w) as [e|] eqn:Hlast.
  { by rewrite !(handlePlaceOrder_last_fails _ _ _ _ _ _ _ Hread Hcart Hlast). }
  destruct (UserByID s uid) as [nick|] eqn:Huser.
  2: { rewrite (handlePlaceOrder_no_user TotalDCR s _ _ _ _ Hread Hlast Hcart Huser).
       by rewrite (handlePlaceOrder_no_user TotalDCR (withProviders s addr ln)
                     _ _ _ _ Hread Hlast Hcart Huser). }
  rewrite (handlePlaceOrder_placing TotalDCR s _ _ _ _ _ Hread Hlast Hcart Huser).
  rewrite (handlePlaceOrder_placing TotalDCR (withProviders s addr ln)
             _ _ _ _ _ Hread Hlast Hcart Huser).
  unfold clearedFS, savedFS, placingTrace, paymentLog, placedOrder, confirmation.
  rewrite Hpay. reflexivity.
Qed.

(** X15: the wallet and the LN node are asked only when it is their turn.
    Without an exchange-rate provider, with a rate that is not positive,
    with a zero total in DCR, or with a pay type that is neither OnChain
    nor LN, [handlePlaceOrder] does the same whatever the two providers
    are; with pay type OnChain it does the same whatever the LN node is,
    and with pay type LN whatever the wallet is. *)
Theorem handlePlaceOrder_asks_providers_only_when_due
    (s : Store) (w : World) (uid : UserID) (request : RMFetchResource) (f : FS)
    (addr : UserID -> string -> string + string)
    (ln : option (Z -> string + string)) :
  (ExchangeRateProvider (cfg s) = None \/
   (exists rate, ExchangeRateProvider (cfg s) = Some rate /\
                 PrimFloat.leb rate 0%float = true) \/
   TotalDCR (ratedOrder s w uid f) = 0 \/
   cfg_PayType (cfg s) = PayTypeNone ->
   exec (handlePlaceOrder TotalDCR (withProviders s addr ln) w uid request) f
   = exec (handlePlaceOrder TotalDCR s w uid request) f) /\
  (cfg_PayType (cfg s) = PayTypeOnChain ->
   exec (handlePlaceOrder TotalDCR
           (withProviders s (OnchainRecvAddrForUser s) ln) w uid request) f
   = exec (handlePlaceOrder TotalDCR s w uid request) f) /\
  (cfg_PayType (cfg s) = PayTypeLN ->
   exec (handlePlaceOrder TotalDCR (withProviders s addr (lnpc s)) w uid request) f
   = exec (handlePlaceOrder TotalDCR s w uid request) f).
Proof.
  assert (forall addr' ln' nick,
            (ExchangeRateProvider (cfg s) = None \/
             (exists rate, ExchangeRateProvider (cfg s) = Some rate /\
                           PrimFloat.leb rate 0%float = true) \/
             TotalDCR (ratedOrder s w uid f) = 0) ->
            paymentOutcome TotalDCR (withProviders s addr' ln') w uid f nick
            = paymentOutcome TotalDCR s w uid f nick) as Hinvalid.
  { intros addr' ln' nick Hcase.
    destruct (ExchangeRateProvider (cfg s)) as [rate|] eqn:Hrate.
    2: { rewrite (paymentOutcome_no_rate s _ _ _ _ Hrate).
         by rewrite (paymentOutcome_no_rate (withProviders s addr' ln') _ _ _ _ Hrate). }
    destruct (PrimFloat.leb rate 0%float) eqn:Hpos.
    { rewrite (paymentOutcome_bad_rate s _ _ _ _ _ Hrate Hpos).
      by rewrite (paymentOutcome_bad_rate (withProviders s addr' ln')
                    _ _ _ _ _ Hrate Hpos). }
    destruct Hcase as [?|[(r & [= <-] & Hbad)|Hzero]]; [done|congruence|].
    rewrite (paymentOutcome_zero_total s _ _ _ _ _ Hrate Hpos Hzero).
    by rewrite (paymentOutcome_zero_total (withProviders s addr' ln')
                  _ _ _ _ _ Hrate Hpos Hzero). }
  assert (forall addr' ln' nick,
            (cfg_PayType (cfg s) = PayTypeNone \/
             (cfg_PayType (cfg s) = PayTypeOnChain /\
              addr' = OnchainRecvAddrForUser s) \/
             (cfg_PayType (cfg s) = PayTypeLN /\ ln' = lnpc s)) ->
            paymentOutcome TotalDCR (withProviders s addr' ln') w uid f nick
            = paymentOutcome TotalDCR s w uid f nick) as Hturn.
  { intros addr' ln' nick Hcase.
    destruct (ExchangeRateProvider (cfg s)) as [rate|] eqn:Hrate;
      [|apply Hinvalid; by left].
    destruct (PrimFloat.leb rate 0%float) eqn:Hpos;
      [apply Hinvalid; right; left; eauto|].
    destruct (decide (TotalDCR (ratedOrder s w uid f) = 0)) as [Hzero|Hdcr];
      [apply Hinvalid; by right; right|].
    rewrite (paymentOutcome_valid s _ _ _ _ _ Hrate Hpos Hdcr).
    rewrite (paymentOutcome_valid (withProviders s addr' ln') _ _ _ _ _ Hrate Hpos Hdcr).
    cbv zeta. cbn [cfg withProviders OnchainRecvAddrForUser lnpc].
    destruct Hcase as [->|[[-> ->]|[-> ->]]]; done. }
  split; [|split].
  - intros Hcase. apply handlePlaceOrder_withProviders. intros nick.
    destruct Hcase as [H|[H|[H|H]]]; [apply Hinvalid..|apply Hturn]; auto.
  - intros Hpt. apply handlePlaceOrder_withProviders. intros nick.
    apply Hturn. right. left. done.
  - intros Hpt. apply handlePlaceOrder_withProviders. intros nick.
    apply Hturn. right. right. done.
Qed.




Lemma no_callback_in_logs (logs : list event) :
  forallb isLog logs = true ->
  filter (fun e => isCallback e = true) logs = [].
Proof.
  induction logs as [|e logs IH]; [done|].
  intros Hlogs. cbn [forallb] in Hlogs. apply andb_prop in Hlogs as [He Hlogs].
  rewrite filter_cons, (IH Hlogs). by destruct e.
Qed.

Lemma callbacks_of_placingTrace (s : Store) (w : World) (uid : UserID) (f : FS)
    (nick : string) :
  filter (fun e => isCallback e = true) (placingTrace TotalDCR s w uid f nick)
  = if OrderPlaced (cfg s)
    then [OrderPlacedCalled (placedOrder TotalDCR s w uid f nick)
            (confirmation TotalDCR s w uid f nick)]
    else [].
Proof.
  unfold placingTrace, paymentLog, paymentOutcome. rewrite filter_app.
  destruct (resolvePayment_run TotalDCR s nick (ratedOrder s w uid f)
              {| fs := f; trace := [] |}) as (o' & lines & logs & Heq & Hlogs).
  rewrite Heq. cbn [snd trace app]. rewrite (no_callback_in_logs _ Hlogs).
  by destruct (OrderPlaced (cfg s)).
Qed.

(** X17: [handlePlaceOrder] calls the [OrderPlaced] callback at most once:
    exactly once, with the order as it will be saved and the confirmation,
    when the callback is set and the call gets as far as saving, and not
    at all otherwise. The call comes before the order file is written: it
    is made also when that write then fails and no order is on disk. *)
Theorem handlePlaceOrder_callback_once
    (s : Store) (w : World) (uid : UserID) (request : RMFetchResource) (f : FS) :
  let out := exec (handlePlaceOrder TotalDCR s w uid request) f in
  let calls := filter (fun e => isCallback e = true) (trace out.2) in
  (forall nick, reachesSave s w uid f nick -> OrderPlaced (cfg s) = true ->
     calls = [OrderPlacedCalled (placedOrder TotalDCR s w uid f nick)
                (confirmation TotalDCR s w uid f nick)] /\
     (is_Some (writeErr w) -> fs out.2 = f)) /\
  (OrderPlaced (cfg s) = false -> calls = []) /\
  ((forall nick, ~ reachesSave s w uid f nick) -> calls = []).
Proof.
  cbv zeta.
  assert (forall nick, reachesSave s w uid f nick ->
            filter (fun e => isCallback e = true)
              (trace (exec (handlePlaceOrder TotalDCR s w uid request) f).2)
            = (if OrderPlaced (cfg s)
               then [OrderPlacedCalled (placedOrder TotalDCR s w uid f nick)
                       (confirmation TotalDCR s w uid f nick)]
               else []) /\
            (is_Some (writeErr w) ->
             fs (exec (handlePlaceOrder TotalDCR s w uid request) f).2 = f))
    as Hreached.
  { intros nick Hreach.
    rewrite (handlePlaceOrder_reaching _ _ _ _ _ _ Hreach).
    pose proof (callbacks_of_placingTrace s w uid f nick) as Hcalls.
    destruct (writeErr w) as [e|]; cbn [snd trace fs]; [done|].
    destruct (removeErr w); cbn [snd trace fs]; rewrite filter_app, Hcalls;
      (split; [by rewrite app_nil_r|by intros [? ?]]). }
  split; [|split].
  - intros nick Hreach Hcb. destruct (Hreached nick Hreach) as [-> Hfs].
    by rewrite Hcb.
  - intros Hcb.
    destruct (handlePlaceOrder_cases s w uid request f)
      as [(r & -> & _)|[nick Hreach]]; [done|].
    destruct (Hreached nick Hreach) as [-> _]. by rewrite Hcb.
  - intros Hnever.
    destruct (handlePlaceOrder_cases s w uid request f)
      as [(r & -> & _)|[nick Hreach]]; [done|].
    by apply Hnever in Hreach.
Qed.

(** X18: a reply of [handlePlaceOrder] for a cart with items is the
    rendering, under status Ok, of the very order that is now on disk
    under the new number, and that order holds the cart as it was. *)
Theorem handlePlaceOrder_reply_shows_saved_order
    (s : Store) (w : World) (uid : UserID) (request : RMFetchResource) (f : FS)
    (reply : RMFetchResourceReply) :
  Items (cartOf f uid) <> [] ->
  (exec (handlePlaceOrder TotalDCR s w uid request) f).1 = Ok reply ->
  exists o,
    orderDir (fs (exec (handlePlaceOrder TotalDCR s w uid request) f).2) uid
      !! nextOrderID uid f = Some o /\
    o_Cart o = cartOf f uid /\
    ExecuteTemplate s orderPlacedTmplFile (orderContext o) = inl (Data reply) /\
    Status reply = ResourceStatusOk.
Proof.
  intros Hcart Hok.
  destruct (handlePlaceOrder_Ok_inv _ _ _ _ _ _ _ Hcart Hok)
    as (nick & Hread & Hlast & Huser & Hwrite & Hremove & Htmpl & Hst).
  assert (reachesSave s w uid f nick) as Hreach by done.
  destruct (handlePlaceOrder_saves s w uid request f nick Hreach Hwrite)
    as (Hfile & _ & _).
  exists (placedOrder TotalDCR s w uid f nick).
  destruct (placedOrder_fields TotalDCR s w uid f nick) as (_ & _ & Hc & _).
  done.
Qed.

(** ** Placements one after the other *)

(** X19: after a placement that returned a reply for a cart with items,
    the cart is gone: the next placement of the same user, if it can read
    the cart, answers "No items in order" and changes nothing, so the
    order is not placed twice. *)
Theorem handlePlaceOrder_twice
    (s : Store) (w1 w2 : World) (uid : UserID) (request1 request2 : RMFetchResource)
    (f : FS) (reply : RMFetchResourceReply) :
  Items (cartOf f uid) <> [] ->
  (exec (handlePlaceOrder TotalDCR s w1 uid request1) f).1 = Ok reply ->
  readErr w2 = None ->
  let f1 := fs (exec (handlePlaceOrder TotalDCR s w1 uid request1) f).2 in
  exec (handlePlaceOrder TotalDCR s w2 uid request2) f1
  = (Ok {| Data := "No items in order"; Status := ResourceStatusOk |},
     {| fs := f1; trace := [] |}).
Proof.
  intros Hcart Hok Hread2 f1.
  destruct (handlePlaceOrder_Ok_inv _ _ _ _ _ _ _ Hcart Hok)
    as (nick & Hread & Hlast & Huser & Hwrite & Hremove & _).
  apply handlePlaceOrder_no_items; [done|].
  subst f1.
  rewrite (handlePlaceOrder_placing _ _ _ _ _ _ _ Hread Hlast Hcart Huser).
  rewrite Hwrite, Hremove. unfold cartOf. cbn. by rewrite lookup_delete_eq.
Qed.

(** X20: when the removal of the cart file fails, the order is on disk
    but the cart is still there; a second placement that succeeds saves
    the same cart again under the next number. The user then has two
    orders with the same cart. *)
Theorem handlePlaceOrder_retry_after_failed_removal
    (s : Store) (w1 w2 : World) (uid : UserID) (request1 request2 : RMFetchResource)
    (f : FS) (nick e : string) :
  reachesSave s w1 uid f nick -> writeErr w1 = None -> removeErr w1 = Some e ->
  readErr w2 = None -> lastErr w2 = None ->
  writeErr w2 = None -> removeErr w2 = None ->
  let out1 := exec (handlePlaceOrder TotalDCR s w1 uid request1) f in
  let out2 := exec (handlePlaceOrder TotalDCR s w2 uid request2) (fs out1.2) in
  let id := nextOrderID uid f in
  out1.1 = Err (ErrIO e) /\
  exists o1 o2,
    orderDir (fs out2.2) uid !! id = Some o1 /\
    orderDir (fs out2.2) uid !! (id + 1)%N = Some o2 /\
    o_ID o1 = id /\ o_ID o2 = (id + 1)%N /\
    o_Cart o1 = cartOf f uid /\ o_Cart o2 = cartOf f uid /\
    carts (fs out2.2) !! uid = None.
Proof.
  intros Hreach Hwrite1 Hremove1 Hread2 Hlast2 Hwrite2 Hremove2 out1 out2 id.
  subst out2 out1 id.
  rewrite (handlePlaceOrder_reaching _ _ _ _ _ _ Hreach), Hwrite1, Hremove1.
  cbn [fst snd fs]. split; [done|].
  set (f1 := savedFS TotalDCR s w1 uid f nick).
  assert (cartOf f1 uid = cartOf f uid) as Hcart1 by done.
  assert (nextOrderID uid f1 = (nextOrderID uid f + 1)%N) as Hnext.
  { unfold nextOrderID at 1. unfold f1. rewrite orderDir_savedFS.
    unfold nextOrderID. by rewrite lastID_insert_next. }
  assert (reachesSave s w2 uid f1 nick) as Hreach2.
  { destruct Hreach as (_ & _ & Hcart & Huser). rewrite <- Hcart1 in Hcart. done. }
  rewrite (handlePlaceOrder_reaching _ _ _ _ _ _ Hreach2), Hwrite2, Hremove2.
  cbn [fst snd fs].
  exists (placedOrder TotalDCR s w1 uid f nick),
         (placedOrder TotalDCR s w2 uid f1 nick).
  destruct (placedOrder_fields TotalDCR s w1 uid f nick) as (Hid1 & _ & Hc1 & _).
  destruct (placedOrder_fields TotalDCR s w2 uid f1 nick) as (Hid2 & _ & Hc2 & _).
  rewrite orderDir_clearedFS, orderDir_savedFS, Hnext.
  split.
  { rewrite lookup_insert_ne by lia. unfold f1.
    by rewrite orderDir_savedFS, lookup_insert_eq. }
  split; [by rewrite lookup_insert_eq|].
  split; [done|]. split; [by rewrite Hid2, Hnext|]. split; [done|].
  split; [by rewrite Hc2, Hcart1|].
  cbn. by rewrite lookup_delete_eq.
Qed.

(** X21: adding a catalog product twice to a cart without items and then
    placing the order, with no file operation failing and the user known,
    saves under the next number an order of this user whose cart has
    exactly one item, the product with quantity 2, and removes the cart
    file, which held that one item. *)
Theorem add_twice_then_place_order
    (s : Store) (w1 w2 w3 : World) (uid : UserID)
    (addRequest request : RMFetchResource) (f : FS)
    (sku nick : string) (prod : Product) :
  Path addRequest !! 1%nat = Some sku -> products s !! sku = Some prod ->
  cartIO_ok w1 -> cartIO_ok w2 ->
  Items (cartOf f uid) = [] ->
  readErr w3 = None -> lastErr w3 = None ->
  writeErr w3 = None -> removeErr w3 = None ->
  UserByID s uid = Some nick ->
  let f1 := fs (exec (handleAddToCart s w1 uid addRequest) f).2 in
  let f2 := fs (exec (handleAddToCart s w2 uid addRequest) f1).2 in
  let out := exec (handlePlaceOrder TotalDCR s w3 uid request) f2 in
  (exists o,
     orderDir (fs out.2) uid !! nextOrderID uid f = Some o /\
     o_ID o = nextOrderID uid f /\ o_User o = uid /\
     Items (o_Cart o) = [{| ci_Product := prod; ci_Quantity := 2 |}]) /\
  Items (cartOf f2 uid) = [{| ci_Product := prod; ci_Quantity := 2 |}] /\
  carts (fs out.2) !! uid = None.
Proof.
  intros Hpath Hprod [Hr1 Hw1] [Hr2 Hw2] Hempty Hread Hlast Hwrite Hremove Huser
         f1 f2 out.
  set (c2 := {| Items := [{| ci_Product := prod; ci_Quantity := 2 |}];
                Updated := now w2 |}).
  assert (carts f2 !! uid = Some c2 /\ orders f2 = orders f) as [Hc2 Ho2].
  { subst f2 f1.
    rewrite (handleAddToCart_exec _ _ _ _ _ _ _ Hpath Hprod Hr2 Hw2). cbn.
    rewrite lookup_insert_eq.
    rewrite (handleAddToCart_exec _ _ _ _ _ _ _ Hpath Hprod Hr1 Hw1). cbn.
    split; [|done]. f_equal.
    unfold cartOf at 1. cbn. rewrite lookup_insert_eq. cbn.
    unfold addedCart. rewrite Hempty. cbn. by rewrite decide_True. }
  assert (cartOf f2 uid = c2) as Hcart2 by (unfold cartOf; by rewrite Hc2).
  assert (nextOrderID uid f2 = nextOrderID uid f) as Hnext
    by (unfold nextOrderID, orderDir; by rewrite Ho2).
  assert (reachesSave s w3 uid f2 nick) as Hreach
    by (repeat split; try done; by rewrite Hcart2).
  split; [|split].
  - destruct (handlePlaceOrder_saves s w3 uid request f2 nick Hreach Hwrite)
      as (Hfile & _ & _).
    destruct (placedOrder_fields TotalDCR s w3 uid f2 nick)
      as (Hid & Hu & Hc & _).
    exists (placedOrder TotalDCR s w3 uid f2 nick). rewrite <- Hnext.
    split; [exact Hfile|]. split; [done|]. split; [done|].
    by rewrite Hc, Hcart2.
  - by rewrite Hcart2.
  - subst out. rewrite (handlePlaceOrder_reaching _ _ _ _ _ _ Hreach).
    rewrite Hwrite, Hremove. cbn. by rewrite lookup_delete_eq.
Qed.

(** ** The confirmation *)






(** ** What holds along every run *)

(** What one call can do to the disk. *)
Lemma dispatch_fs_cases (s : Store) (i : invocation) (f : FS) :
  let f' := fs (exec (dispatch TotalDCR s i) f).2 in
  f' = f \/
  (exists prod,
     f' = {| carts := <[inv_uid i := addedCart prod (inv_world i)
                                       (cartOf f (inv_uid i))]> (carts f);
             orders := orders f |}) \/
  (exists nick,
     reachesSave s (inv_world i) (inv_uid i) f nick /\
     (f' = savedFS TotalDCR s (inv_world i) (inv_uid i) f nick \/
      f' = clearedFS TotalDCR s (inv_world i) (inv_uid i) f nick)).
Proof.
  destruct i as [h u request w]. cbv zeta.
  unfold dispatch. cbn [inv_handler inv_uid inv_request inv_world].
  destruct h.
  1-4: left; unfold handleNotFound, handleIndex, handleProduct, handleCart;
       step_handler; repeat (case_match; cbn; simplify_eq); done.
  - destruct (handleAddToCart_fs_cases s w u request f) as [->|[prod ->]];
      [by left|right; left; eauto].
  - destruct (handlePlaceOrder_cases s w u request f)
      as [(r & -> & _)|[nick Hreach]]; [by left|].
    rewrite (handlePlaceOrder_reaching _ _ _ _ _ _ Hreach).
    destruct (writeErr w); [by left|]. right. right. exists nick.
    split; [done|]. destruct (removeErr w); cbn; auto.
Qed.

Lemma run_cons_fs (s : Store) (i : invocation) (rest : list invocation) (f : FS) :
  (run TotalDCR s (i :: rest) f).1
  = (run TotalDCR s rest (fs (exec (dispatch TotalDCR s i) f).2)).1.
Proof. cbn [run]. by destruct (run TotalDCR s rest _). Qed.

Lemma dispatch_cartsOK (s : Store) (i : invocation) (f : FS) :
  cartsOK f -> cartsOK (fs (exec (dispatch TotalDCR s i) f).2).
Proof.
  intros Hok.
  destruct (dispatch_fs_cases s i f)
    as [->|[[prod ->]|(nick & _ & [->| ->])]]; [done|..];
    intros u c; cbn.
  - rewrite lookup_insert. case_decide as Hu; [|by apply Hok].
    intros [= <-]. subst u. apply addedCart_one_per_sku.
    unfold cartOf. destruct (carts f !! inv_uid i) as [c0|] eqn:Hc0; cbn.
    + by apply (Hok (inv_uid i)).
    + apply NoDup_nil_2.
  - by apply Hok.
  - rewrite lookup_delete. case_decide; [done|by apply Hok].
Qed.

Lemma dispatch_ordersOK (s : Store) (i : invocation) (f : FS) :
  cartsOK f -> ordersOK f -> ordersOK (fs (exec (dispatch TotalDCR s i) f).2).
Proof.
  intros Hcarts Hok.
  destruct (dispatch_fs_cases s i f)
    as [->|[[prod ->]|(nick & Hreach & Hfs)]]; [done|exact Hok|].
  assert (ordersOK (savedFS TotalDCR s (inv_world i) (inv_uid i) f nick)) as Hsaved.
  { intros u k o.
    destruct (decide (u = inv_uid i)) as [->|Hne].
    - rewrite orderDir_savedFS, lookup_insert. case_decide as Hk.
      + intros [= <-]. subst k.
        destruct (placedOrder_fields TotalDCR s (inv_world i) (inv_uid i) f nick)
          as (Hid & Hu & Hc & Hst & _).
        destruct Hreach as (_ & _ & Hcart & _).
        rewrite Hc. repeat split; try done.
        apply (Hcarts (inv_uid i)). by apply nonempty_cart_file.
      + by apply Hok.
    - rewrite orderDir_savedFS_ne by done. by apply Hok. }
  destruct Hfs as [->| ->]; [exact Hsaved|].
  intros u k o. rewrite orderDir_clearedFS. by apply Hsaved.
Qed.

(** X23: along every sequence of calls of the handlers, every cart on disk
    keeps at most one item per SKU: if that holds of the disk before the
    run, it holds after it. *)
Theorem run_keeps_one_item_per_sku
    (s : Store) (invs : list invocation) (f : FS) :
  cartsOK f -> cartsOK (run TotalDCR s invs f).1.
Proof.
  revert f. induction invs as [|i rest IH]; intros f Hok; [done|].
  rewrite run_cons_fs. apply IH. by apply dispatch_cartsOK.
Qed.

(** X24: along every sequence of calls, every order file sits under its
    own number in the directory of its own user, is in status placed, and
    holds a cart with items, at most one per SKU: on a disk whose carts
    and orders are so, they are so after the run. No order is ever saved
    for an empty cart. *)
Theorem run_keeps_orders_well_filed
    (s : Store) (invs : list invocation) (f : FS) :
  cartsOK f -> ordersOK f -> ordersOK (run TotalDCR s invs f).1.
Proof.
  revert f. induction invs as [|i rest IH]; intros f Hcarts Hok; [done|].
  rewrite run_cons_fs. apply IH.
  - by apply dispatch_cartsOK.
  - by apply dispatch_ordersOK.
Qed.

Lemma dispatch_keeps_orders (s : Store) (i : invocation) (f : FS)
    (u : UserID) (k : N) (o : Order) :
  orderDir f u !! k = Some o ->
  orderDir (fs (exec (dispatch TotalDCR s i) f).2) u !! k = Some o.
Proof.
  intros Hk.
  destruct (dispatch_fs_cases s i f)
    as [->|[[prod ->]|(nick & Hreach & Hfs)]]; [done|exact Hk|].
  assert (orderDir (savedFS TotalDCR s (inv_world i) (inv_uid i) f nick) u !! k
          = Some o) as Hsaved.
  { destruct (decide (u = inv_uid i)) as [->|Hne].
    - rewrite orderDir_savedFS, lookup_insert_ne; [done|].
      intros <-. unfold nextOrderID in Hk. by rewrite lastID_fresh in Hk.
    - by rewrite orderDir_savedFS_ne. }
  destruct Hfs as [->| ->]; [exact Hsaved|]. by rewrite orderDir_clearedFS.
Qed.

(** X25: an order file, once on disk, stays as it is: no sequence of calls
    of the handlers removes it or changes the order in it. *)
Theorem run_never_changes_an_order
    (s : Store) (invs : list invocation) (f : FS)
    (u : UserID) (k : N) (o : Order) :
  orderDir f u !! k = Some o ->
  orderDir (run TotalDCR s invs f).1 u !! k = Some o.
Proof.
  revert f. induction invs as [|i rest IH]; intros f Hk; [done|].
  rewrite run_cons_fs. apply IH. by apply dispatch_keeps_orders.
Qed.

Lemma dispatch_dense (s : Store) (uid : UserID) (i : invocation) (f : FS) :
  let dir := orderDir f uid in
  let dir' := orderDir (fs (exec (dispatch TotalDCR s i) f).2) uid in
  (forall k, is_Some (dir !! k) <-> (1 <= k <= lastID dir)%N) ->
  lastID dir = N.of_nat (size dir) ->
  (forall k, is_Some (dir' !! k) <-> (1 <= k <= lastID dir')%N) /\
  lastID dir' = N.of_nat (size dir').
Proof.
  cbv zeta. intros Hdense Hsize.
  destruct (dispatch_step TotalDCR s uid i f) as [(_ & -> & _)|(o & _ & -> & _)];
    [done|].
  unfold nextOrderID. rewrite lastID_insert_next. split.
  - intros k. rewrite lookup_insert. case_decide as Hk.
    + subst k. split; [lia|eauto].
    + rewrite Hdense. lia.
  - rewrite map_size_insert_None by apply lastID_fresh. lia.
Qed.

(** X26: starting with no order of a user on disk, after every sequence of
    calls the numbers of the user's order files are exactly 1 up to the
    number of files: the directory has no gap, and its highest number is
    the count of the user's orders. *)
Theorem run_order_numbers_have_no_gap
    (s : Store) (uid : UserID) (invs : list invocation) (f : FS) :
  orderDir f uid = ∅ ->
  let dir := orderDir (run TotalDCR s invs f).1 uid in
  (forall k, is_Some (dir !! k) <-> (1 <= k <= N.of_nat (size dir))%N) /\
  lastID dir = N.of_nat (size dir).
Proof.
  intros Hempty. cbv zeta.
  assert (forall f0,
            (forall k, is_Some (orderDir f0 uid !! k)
                       <-> (1 <= k <= lastID (orderDir f0 uid))%N) ->
            lastID (orderDir f0 uid) = N.of_nat (size (orderDir f0 uid)) ->
            (forall k, is_Some (orderDir (run TotalDCR s invs f0).1 uid !! k)
                       <-> (1 <= k <= lastID (orderDir (run TotalDCR s invs f0).1 uid))%N)
            /\ lastID (orderDir (run TotalDCR s invs f0).1 uid)
               = N.of_nat (size (orderDir (run TotalDCR s invs f0).1 uid)))
    as Hrun.
  { induction invs as [|i rest IH]; intros f0 Hdense Hsize; [done|].
    rewrite run_cons_fs.
    destruct (dispatch_dense s uid i f0 Hdense Hsize) as [Hdense' Hsize'].
    by apply IH. }
  destruct (Hrun f) as [Hdense Hsize].
  - intros k. rewrite Hempty, lastID_empty, lookup_empty.
    split; [by intros [? ?]|lia].
  - by rewrite Hempty, lastID_empty, map_size_empty.
  - split; [|done]. intros k. rewrite Hdense, Hsize. done.
Qed.

End PlaceOrderFurther.

(** ** The order history *)

Section OrdersProperties.

Variable ExecuteOrdersTemplate : list Order -> string + string.

Lemma readOrders_acc (dw : DirWorld) (f : FS) (uid : UserID) (files : list N)
    (orders : list Order) (warns : list ordersWarning) :
  readOrders dw f uid files orders warns
  = (orders ++ (readOrders dw f uid files [] []).1,
     warns ++ (readOrders dw f uid files [] []).2).
Proof.
  revert orders warns. induction files as [|file rest IH]; intros orders warns.
  - cbn. by rewrite !app_nil_r.
  - cbn [readOrders]. destruct (jsonfile_Read_order dw f uid file) as [o|err].
    + rewrite (IH (orders ++ [o])), (IH ([] ++ [o])). cbn.
      by rewrite <- app_assoc.
    + rewrite (IH orders), (IH [] ([] ++ _)). cbn.
      by rewrite <- app_assoc.
Qed.

Lemma readOrders_cons (dw : DirWorld) (f : FS) (uid : UserID) (file : N)
    (rest : list N) :
  readOrders dw f uid (file :: rest) [] []
  = match readableOrder dw f uid file with
    | Some o =>
        (o :: (readOrders dw f uid rest [] []).1,
         (readOrders dw f uid rest [] []).2)
    | None =>
        ((readOrders dw f uid rest [] []).1,
         WarnUnableToReadOrder uid file
           match orderReadErr dw file with
           | Some e => ErrOther e
           | None => ErrNotFound
           end :: (readOrders dw f uid rest [] []).2)
    end.
Proof.
  cbn [readOrders]. unfold jsonfile_Read_order, readableOrder.
  destruct (orderReadErr dw file) as [e|]; [by rewrite readOrders_acc|].
  destruct (orderDir f uid !! file); by rewrite readOrders_acc.
Qed.

Lemma readOrders_readable (dw : DirWorld) (f : FS) (uid : UserID) (files : list N) :
  (readOrders dw f uid files [] []).1 = omap (readableOrder dw f uid) files /\
  (length (readOrders dw f uid files [] []).1
   + length (readOrders dw f uid files [] []).2 = length files)%nat /\
  (forall wn,
     wn ∈ (readOrders dw f uid files [] []).2 ->
     exists id err,
       wn = WarnUnableToReadOrder uid id err /\
       id ∈ files /\ readableOrder dw f uid id = None).
Proof.
  induction files as [|file rest (IH1 & IH2 & IH3)].
  - cbn. repeat split; try done. intros wn Hin. by apply elem_of_nil in Hin.
  - rewrite readOrders_cons. cbn [omap list_omap].
    destruct (readableOrder dw f uid file) as [o|] eqn:Hread; cbn [fst snd length].
    + split; [by rewrite IH1|]. split; [lia|].
      intros wn Hin. destruct (IH3 wn Hin) as (id & err & -> & Hid & Hnone).
      exists id, err. split; [done|]. split; [by apply elem_of_cons; right|done].
    + split; [done|]. split; [lia|].
      intros wn [->|Hin]%elem_of_cons.
      * eexists file, _. split; [done|]. split; [by apply elem_of_cons; left|done].
      * destruct (IH3 wn Hin) as (id & err & -> & Hid & Hnone).
        exists id, err. split; [done|]. split; [by apply elem_of_cons; right|done].
Qed.

(** X27: [handleOrders] treats a missing order directory like an empty
    one: it renders the empty history and warns of nothing; any other
    failure to list the directory is returned as the error, and nothing
    is rendered. *)
Theorem handleOrders_missing_directory
    (dw : DirWorld) (uid : UserID) (request : RMFetchResource) (f : FS) :
  (readDir dw = DirNotExist \/ readDir dw = DirEntries [] ->
   handleOrders ExecuteOrdersTemplate dw uid request f
   = (match ExecuteOrdersTemplate [] with
      | inr err => Err (ErrExecTemplate "product" err)
      | inl data => Ok {| Data := data; Status := ResourceStatusOk |}
      end, [])) /\
  (forall e, readDir dw = DirErr e ->
   handleOrders ExecuteOrdersTemplate dw uid request f = (Err (ErrIO e), [])).
Proof.
  unfold handleOrders. split.
  - intros [-> | ->]; cbn; by destruct (ExecuteOrdersTemplate []).
  - by intros e ->.
Qed.

(** X28: when the directory can be listed, [handleOrders] renders the
    orders of the entries that can be read, in the order of the listing,
    and warns once for every entry that cannot; unreadable entries never
    make the call fail. The orders rendered and the warnings together are
    as many as the entries. *)
Theorem handleOrders_skips_unreadable
    (dw : DirWorld) (uid : UserID) (request : RMFetchResource) (f : FS)
    (names : list N) :
  readDir dw = DirEntries names ->
  let out := handleOrders ExecuteOrdersTemplate dw uid request f in
  let shown := omap (readableOrder dw f uid) names in
  out.1 = match ExecuteOrdersTemplate shown with
          | inr err => Err (ErrExecTemplate "product" err)
          | inl data => Ok {| Data := data; Status := ResourceStatusOk |}
          end /\
  (length shown + length out.2 = length names)%nat /\
  (forall wn, wn ∈ out.2 ->
     exists id err,
       wn = WarnUnableToReadOrder uid id err /\
       id ∈ names /\ readableOrder dw f uid id = None) /\
  (forall id o, id ∈ names -> readableOrder dw f uid id = Some o -> o ∈ shown).
Proof.
  intros Hdir. cbv zeta. unfold handleOrders. rewrite Hdir.
  destruct (readOrders_readable dw f uid names) as (Hshown & Hcount & Hwarn).
  destruct (readOrders dw f uid names [] []) as [orders warns] eqn:Hread.
  cbn [fst snd] in *. subst orders.
  split; [by destruct (ExecuteOrdersTemplate _)|].
  split; [by destruct (ExecuteOrdersTemplate _)|].
  split; [by destruct (ExecuteOrdersTemplate _)|].
  intros id o Hin Hread'. apply list_elem_of_omap. eauto.
Qed.

Section History.

Variable TotalDCR : Order -> Z.

(** X29: after a placement that returned a reply for a cart with items,
    the order history of the user, when the listing names the files of
    the directory and every file can be read, renders without a warning
    the new order (under the new number, with the cart as it was) and
    every order that was on disk before. *)
Theorem handleOrders_shows_placed_order
    (s : Store) (w : World) (dw : DirWorld) (uid : UserID)
    (request request' : RMFetchResource) (f : FS) (reply : RMFetchResourceReply) :
  Items (cartOf f uid) <> [] ->
  (exec (handlePlaceOrder TotalDCR s w uid request) f).1 = Ok reply ->
  let f' := fs (exec (handlePlaceOrder TotalDCR s w uid request) f).2 in
  listsAll dw f' uid ->
  exists shown,
    handleOrders ExecuteOrdersTemplate dw uid request' f'
    = (match ExecuteOrdersTemplate shown with
       | inr err => Err (ErrExecTemplate "product" err)
       | inl data => Ok {| Data := data; Status := ResourceStatusOk |}
       end, []) /\
    (exists o, o ∈ shown /\ o_ID o = nextOrderID uid f /\
               o_Cart o = cartOf f uid) /\
    (forall k o, orderDir f uid !! k = Some o -> o ∈ shown).
Proof.
  intros Hcart Hok f' (names & Hdir & Hall & Hreadable).
  destruct (handlePlaceOrder_Ok_inv _ _ _ _ _ _ _ Hcart Hok)
    as (nick & Hread & Hlast & Huser & Hwrite & Hremove & _).
  assert (orderDir f' uid
          = <[nextOrderID uid f := placedOrder TotalDCR s w uid f nick]>
              (orderDir f uid)) as Hdir'.
  { subst f'.
    rewrite (handlePlaceOrder_placing _ _ _ _ _ _ _ Hread Hlast Hcart Huser).
    rewrite Hwrite, Hremove. unfold orderDir at 1. cbn.
    by rewrite lookup_insert_eq. }
  assert (forall k, readableOrder dw f' uid k = orderDir f' uid !! k) as Hro
    by (intros k; unfold readableOrder; by rewrite Hreadable).
  assert (forall k o, orderDir f' uid !! k = Some o ->
            o ∈ omap (readableOrder dw f' uid) names) as Hshown.
  { intros k o Hk. apply list_elem_of_omap. exists k. split.
    - apply Hall. eauto.
    - by rewrite Hro. }
  exists (omap (readableOrder dw f' uid) names).
  unfold handleOrders. rewrite Hdir.
  destruct (readOrders_readable dw f' uid names) as (Hfst & _ & Hwarn).
  destruct (readOrders dw f' uid names [] []) as [orders warns].
  cbn [fst snd] in *. subst orders.
  assert (warns = []) as ->.
  { destruct warns as [|wn warns]; [done|].
    destruct (Hwarn wn) as (id & err & _ & Hin & Hnone);
      [by apply elem_of_cons; left|].
    apply Hall in Hin as [o Ho]. rewrite Hro in Hnone. congruence. }
  split; [by destruct (ExecuteOrdersTemplate _)|]. split.
  - exists (placedOrder TotalDCR s w uid f nick).
    destruct (placedOrder_fields TotalDCR s w uid f nick) as (Hid & _ & Hc & _).
    split; [|done]. apply (Hshown (nextOrderID uid f)).
    by rewrite Hdir', lookup_insert_eq.
  - intros k o Hk. apply (Hshown k). rewrite Hdir', lookup_insert_ne; [done|].
    intros <-. unfold nextOrderID in Hk. by rewrite lastID_fresh in Hk.
Qed.

End History.
End OrdersProperties.

(** ** Looking at the cart *)

Section CartView.

Variable TotalDCR : Order -> Z.

(** X30: [handleCart] shows what is on disk: after [handleAddToCart] has
    saved a cart it renders exactly that cart; after a placement that
    returned a reply for a cart with items it renders the empty cart; and
    when the cart cannot be read it returns that error and renders
    nothing. *)
Theorem handleCart_shows_the_cart_on_disk
    (s : Store) (w w' : World) (uid : UserID)
    (request request' : RMFetchResource) (f : FS) :
  let render c :=
    match ExecuteTemplate s cartTmplFile (cartContext c) with
    | inr err => Err (ErrExecTemplate "product" err)
    | inl data => Ok {| Data := data; Status := ResourceStatusOk |}
    end in
  (forall sku prod,
     Path request !! 1%nat = Some sku -> products s !! sku = Some prod ->
     readErr w = None -> writeErr w = None -> readErr w' = None ->
     (exec (handleCart s w' uid request')
           (fs (exec (handleAddToCart s w uid request) f).2)).1
     = render (addedCart prod w (cartOf f uid))) /\
  (forall reply,
     Items (cartOf f uid) <> [] ->
     (exec (handlePlaceOrder TotalDCR s w uid request) f).1 = Ok reply ->
     readErr w' = None ->
     (exec (handleCart s w' uid request')
           (fs (exec (handlePlaceOrder TotalDCR s w uid request) f).2)).1
     = render zeroCart) /\
  (forall e, readErr w' = Some e ->
     (exec (handleCart s w' uid request') f).1 = Err (ErrIO e)).
Proof.
  cbv zeta.
  assert (forall f0, readErr w' = None ->
            (exec (handleCart s w' uid request') f0).1
            = match ExecuteTemplate s cartTmplFile (cartContext (cartOf f0 uid)) with
              | inr err => Err (ErrExecTemplate "product" err)
              | inl data => Ok {| Data := data; Status := ResourceStatusOk |}
              end) as Hview.
  { intros f0 Hread. unfold handleCart, cartOf. step_handler. rewrite Hread.
    destruct (carts f0 !! uid); cbn; by destruct (ExecuteTemplate _ _ _). }
  split; [|split].
  - intros sku prod Hpath Hprod Hread Hwrite Hread'.
    rewrite (Hview _ Hread').
    rewrite (handleAddToCart_exec _ _ _ _ _ _ _ Hpath Hprod Hread Hwrite).
    unfold cartOf at 1 3. cbn. by rewrite lookup_insert_eq.
  - intros reply Hcart Hok Hread'. rewrite (Hview _ Hread').
    destruct (handlePlaceOrder_Ok_inv _ _ _ _ _ _ _ Hcart Hok)
      as (nick & Hread & Hlast & Huser & Hwrite & Hremove & _).
    rewrite (handlePlaceOrder_placing _ _ _ _ _ _ _ Hread Hlast Hcart Huser).
    rewrite Hwrite, Hremove. unfold cartOf. cbn.
    by rewrite lookup_delete_eq.
  - intros e Hread. unfold handleCart. step_handler. by rewrite Hread.
Qed.

End CartView.

(** ** Concrete runs of the further properties *)

Ltac concrete := repeat split; first [reflexivity | discriminate].

Lemma handleProduct_not_found_iff_unknown_sku_witness :
  (exec (handleProduct openShop (quiet 1) "bob" {| Path := ["product"; "ZZ"] |})
        emptyFS).1
  = Ok {| Data := ""; Status := ResourceStatusNotFound |}.
Proof.
  pose proof (handleProduct_not_found_iff_unknown_sku openShop (quiet 1) "bob"
                {| Path := ["product"; "ZZ"] |} emptyFS "ZZ" eq_refl) as H.
  cbv zeta in H. destruct H as (H & _). apply H. reflexivity.
Defined.

Lemma handleAddToCart_fails_before_saving_witness :
  exec (handleAddToCart openShop (quiet 1) "bob" {| Path := ["addtocart"; "ZZ"] |})
       emptyFS
  = (Err ErrProductDoesNotExist, {| fs := emptyFS; trace := [] |}).
Proof.
  pose proof (handleAddToCart_fails_before_saving openShop (quiet 1) "bob"
                {| Path := ["addtocart"; "ZZ"] |} emptyFS "ZZ" eq_refl) as H.
  cbv zeta in H. destruct H as (H & _). apply H. reflexivity.
Defined.

Lemma handleAddToCart_render_failure_keeps_cart_witness :
  let s := shop 0%float (fun _ => true) (inr "no such template") in
  let out := exec (handleAddToCart s (quiet 1) "bob" addA1) emptyFS in
  out.1 = Err (ErrExecTemplate "product" "no such template") /\
  trace out.2 = [Wrote (CartFile "bob")].
Proof.
  intros s out.
  pose proof (handleAddToCart_render_failure_keeps_cart s (quiet 1) "bob" addA1
                emptyFS "A1" widget "no such template"
                eq_refl eq_refl eq_refl eq_refl eq_refl) as H.
  cbv zeta in H. destruct H as (H1 & _ & _ & H4). by split.
Defined.

Lemma handleAddToCart_reply_shows_saved_cart_witness :
  exists sku prod c',
    Path addA1 !! 1%nat = Some sku /\ products openShop !! sku = Some prod /\
    carts (fs (exec (handleAddToCart openShop (quiet 1) "bob" addA1) emptyFS).2)
      !! "bob" = Some c'.
Proof.
  destruct (handleAddToCart_reply_shows_saved_cart openShop (quiet 1) "bob" addA1
              emptyFS {| Data := "page"; Status := ResourceStatusOk |} eq_refl)
    as (sku & prod & c' & H1 & H2 & H3 & _).
  by exists sku, prod, c'.
Defined.

Lemma handleAddToCart_keeps_other_items_witness :
  exists c',
    carts (fs (exec (handleAddToCart openShop (quiet 5) "bob"
                       {| Path := ["addtocart"; "B2"] |}) bobFS).2) !! "bob"
    = Some c' /\
    itemsOf "A1" (Items c') = itemsOf "A1" (Items (cartOf bobFS "bob")).
Proof.
  destruct (handleAddToCart_keeps_other_items openShop (quiet 5) "bob"
              {| Path := ["addtocart"; "B2"] |} bobFS "B2" gadget
              eq_refl eq_refl eq_refl eq_refl) as (c' & H1 & _ & H3).
  exists c'. split; [exact H1|]. apply H3. discriminate.
Defined.

Lemma handleAddToCart_adds_one_unit_witness :
  exists c',
    carts (fs (exec (handleAddToCart openShop (quiet 5) "bob" addA1) bobFS).2)
      !! "bob" = Some c' /\
    units (Items c') = units (Items (cartOf bobFS "bob")) + 1.
Proof.
  assert (Forall (fun item => 1 <= ci_Quantity item < 2 ^ 32 - 1)
                 (Items (cartOf bobFS "bob"))) as Hrange.
  { change (Items (cartOf bobFS "bob"))
      with [{| ci_Product := widget; ci_Quantity := 2 |}].
    repeat constructor; cbn; lia. }
  destruct (handleAddToCart_adds_one_unit openShop (quiet 5) "bob" addA1 bobFS
              "A1" widget eq_refl eq_refl eq_refl eq_refl Hrange)
    as (c' & H1 & H2 & _).
  by exists c'.
Defined.

Lemma handleAddToCart_n_times_witness :
  carts (addTimes openShop ([quiet 1; quiet 2] ++ [quiet 3]) "bob" addA1 emptyFS)
    !! "bob"
  = Some {| Items := [{| ci_Product := widget; ci_Quantity := 3 |}];
            Updated := 3 |}.
Proof.
  apply (handleAddToCart_n_times openShop "bob" addA1 emptyFS "A1" widget
           [quiet 1; quiet 2] (quiet 3)); try reflexivity.
  repeat constructor.
Defined.


Lemma handlePlaceOrder_onchain_address_witness :
  let s := payingShop PayTypeOnChain (inl "DsAddress") None in
  exists o,
    orderDir (fs (exec (handlePlaceOrder fiveDCR s (quiet 3) "bob" placeorder)
                       bobFS).2) "bob" !! nextOrderID "bob" bobFS = Some o /\
    o_PayType o = PayTypeOnChain /\ o_Invoice o = "DsAddress".
Proof.
  intros s.
  assert (reachesSave s (quiet 3) "bob" bobFS "Bob") as Hreach by concrete.
  pose proof (handlePlaceOrder_onchain_address fiveDCR s (quiet 3) "bob" placeorder
                bobFS "Bob" "DsAddress" 20%float Hreach eq_refl eq_refl eq_refl)
    as H.
  cbv zeta in H. destruct H as ((o & H1 & H2 & H3 & _) & _);
    [discriminate|reflexivity|reflexivity|].
  by exists o.
Defined.

Lemma handlePlaceOrder_ln_invoice_witness :
  let s := payingShop PayTypeLN (inr "no wallet") (Some (fun _ => inl "lnbc1")) in
  exists o,
    orderDir (fs (exec (handlePlaceOrder fiveDCR s (quiet 3) "bob" placeorder)
                       bobFS).2) "bob" !! nextOrderID "bob" bobFS = Some o /\
    o_PayType o = PayTypeLN /\ o_Invoice o = "lnbc1".
Proof.
  intros s.
  assert (reachesSave s (quiet 3) "bob" bobFS "Bob") as Hreach by concrete.
  pose proof (handlePlaceOrder_ln_invoice fiveDCR s (quiet 3) "bob" placeorder
                bobFS "Bob" "lnbc1" 20%float (fun _ => inl "lnbc1")
                Hreach eq_refl eq_refl eq_refl) as H.
  cbv zeta in H. destruct H as ((o & H1 & H2 & H3 & _) & _);
    [discriminate|reflexivity|reflexivity|reflexivity|].
  by exists o.
Defined.

Lemma handlePlaceOrder_ln_failure_witness :
  let s := payingShop PayTypeLN (inr "no wallet") None in
  exists o,
    orderDir (fs (exec (handlePlaceOrder fiveDCR s (quiet 3) "bob" placeorder)
                       bobFS).2) "bob" !! nextOrderID "bob" bobFS = Some o /\
    o_PayType o = PayTypeNone /\ o_Invoice o = "".
Proof.
  intros s.
  assert (reachesSave s (quiet 3) "bob" bobFS "Bob") as Hreach by concrete.
  pose proof (handlePlaceOrder_ln_failure fiveDCR s (quiet 3) "bob" placeorder
                bobFS "Bob" 20%float Hreach eq_refl eq_refl eq_refl) as H.
  cbv zeta in H. destruct H as (o & warning & H1 & H2 & H3 & _);
    [discriminate|reflexivity|by left|].
  by exists o.
Defined.

Lemma handlePlaceOrder_asks_providers_only_when_due_witness :
  exec (handlePlaceOrder fiveDCR
          (withProviders openShop (OnchainRecvAddrForUser openShop)
             (Some (fun _ => inl "lnbc1")))
          (quiet 3) "bob" placeorder) bobFS
  = exec (handlePlaceOrder fiveDCR openShop (quiet 3) "bob" placeorder) bobFS.
Proof.
  destruct (handlePlaceOrder_asks_providers_only_when_due fiveDCR openShop
              (quiet 3) "bob" placeorder bobFS (OnchainRecvAddrForUser openShop)
              (Some (fun _ => inl "lnbc1"))) as (_ & H & _).
  apply H. reflexivity.
Defined.


Lemma handlePlaceOrder_callback_once_witness :
  filter (fun e => isCallback e = true)
    (trace (exec (handlePlaceOrder fiveDCR openShop (quiet 3) "bob" placeorder)
                 bobFS).2)
  = [OrderPlacedCalled (placedOrder fiveDCR openShop (quiet 3) "bob" bobFS "Bob")
       (confirmation fiveDCR openShop (quiet 3) "bob" bobFS "Bob")].
Proof.
  assert (reachesSave openShop (quiet 3) "bob" bobFS "Bob") as Hreach by concrete.
  pose proof (handlePlaceOrder_callback_once fiveDCR openShop (quiet 3) "bob"
                placeorder bobFS) as H.
  cbv zeta in H. destruct H as (H & _).
  by destruct (H "Bob" Hreach eq_refl) as [Hcalls _].
Defined.

Lemma handlePlaceOrder_reply_shows_saved_order_witness :
  exists o,
    orderDir (fs (exec (handlePlaceOrder fiveDCR openShop (quiet 3) "bob" placeorder)
                       bobFS).2) "bob" !! nextOrderID "bob" bobFS = Some o /\
    o_Cart o = cartOf bobFS "bob".
Proof.
  assert (Items (cartOf bobFS "bob") <> []) as Hcart by discriminate.
  destruct (handlePlaceOrder_reply_shows_saved_order fiveDCR openShop (quiet 3)
              "bob" placeorder bobFS {| Data := "page"; Status := ResourceStatusOk |}
              Hcart eq_refl) as (o & H1 & H2 & _).
  by exists o.
Defined.

Lemma handlePlaceOrder_twice_witness :
  exec (handlePlaceOrder fiveDCR openShop (quiet 4) "bob" placeorder) bobPlacedFS
  = (Ok {| Data := "No items in order"; Status := ResourceStatusOk |},
     {| fs := bobPlacedFS; trace := [] |}).
Proof.
  assert (Items (cartOf bobFS "bob") <> []) as Hcart by discriminate.
  exact (handlePlaceOrder_twice fiveDCR openShop (quiet 3) (quiet 4) "bob"
           placeorder placeorder bobFS
           {| Data := "page"; Status := ResourceStatusOk |} Hcart eq_refl eq_refl).
Defined.

Lemma handlePlaceOrder_retry_after_failed_removal_witness :
  let out1 := exec (handlePlaceOrder fiveDCR openShop stuckCartWorld "bob" placeorder)
                   bobFS in
  let out2 := exec (handlePlaceOrder fiveDCR openShop (quiet 4) "bob" placeorder)
                   (fs out1.2) in
  out1.1 = Err (ErrIO "permission denied") /\
  exists o1 o2,
    orderDir (fs out2.2) "bob" !! 1%N = Some o1 /\
    orderDir (fs out2.2) "bob" !! 2%N = Some o2 /\
    o_Cart o1 = o_Cart o2.
Proof.
  intros out1 out2.
  assert (reachesSave openShop stuckCartWorld "bob" bobFS "Bob") as Hreach
    by concrete.
  pose proof (handlePlaceOrder_retry_after_failed_removal fiveDCR openShop
                stuckCartWorld (quiet 4) "bob" placeorder placeorder bobFS "Bob"
                "permission denied" Hreach eq_refl eq_refl eq_refl eq_refl
                eq_refl eq_refl) as H.
  cbv zeta in H.
  destruct H as (H1 & o1 & o2 & H2 & H3 & _ & _ & H6 & H7 & _).
  split; [exact H1|]. exists o1, o2.
  split; [exact H2|]. split; [exact H3|]. by rewrite H6, H7.
Defined.

Lemma handlePlaceOrder_io_failure_witness :
  let stranger := shop 0%float (fun _ => false) (inl "page") in
  exec (handlePlaceOrder fiveDCR stranger unreadableWorld "eve" placeorder) emptyFS
    = (Err (ErrIO "EIO"), {| fs := emptyFS; trace := [] |}) /\
  exec (handlePlaceOrder fiveDCR stranger unscannableWorld "bob" placeorder) bobFS
    = (Err (ErrIO "EACCES"), {| fs := bobFS; trace := [] |}) /\
  (let out := exec (handlePlaceOrder fiveDCR openShop fullDiskWorld "bob"
                      placeorder) bobFS in
   out.1 = Err (ErrIO "ENOSPC") /\ fs out.2 = bobFS) /\
  (let out := exec (handlePlaceOrder fiveDCR openShop stuckCartWorld "bob"
                      placeorder) bobFS in
   out.1 = Err (ErrIO "permission denied") /\
   carts (fs out.2) = carts bobFS /\
   o_Cart <$> (orderDir (fs out.2) "bob" !! 1%N) = Some bobCart /\
   size (orderDir (fs out.2) "bob") = 1%nat).
Proof.
  intros stranger.
  assert (Items (cartOf bobFS "bob") <> []) as Hcart by discriminate.
  assert (reachesSave openShop fullDiskWorld "bob" bobFS "Bob") as Hfull
    by (by repeat split).
  assert (reachesSave openShop stuckCartWorld "bob" bobFS "Bob") as Hstuck
    by (by repeat split).
  pose proof (handlePlaceOrder_io_failure fiveDCR stranger unreadableWorld "eve"
                placeorder emptyFS "EIO") as Hread.
  pose proof (handlePlaceOrder_io_failure fiveDCR stranger unscannableWorld "bob"
                placeorder bobFS "EACCES") as Hscan.
  pose proof (handlePlaceOrder_io_failure fiveDCR openShop fullDiskWorld "bob"
                placeorder bobFS "ENOSPC") as Hwrite.
  pose proof (handlePlaceOrder_io_failure fiveDCR openShop stuckCartWorld "bob"
                placeorder bobFS "permission denied") as Hremove.
  cbv zeta in Hread, Hscan, Hwrite, Hremove.
  destruct Hread as (Hread & _).
  destruct Hscan as (_ & Hscan & _).
  destruct Hwrite as (_ & _ & Hwrite & _).
  destruct Hremove as (_ & _ & _ & Hremove & _).
  split; [exact (Hread eq_refl)|].
  split; [exact (Hscan eq_refl Hcart eq_refl)|].
  split.
  - destruct (Hwrite "Bob" Hfull eq_refl) as (Hout & Hfs & _). by split.
  - destruct (Hremove "Bob" Hstuck eq_refl eq_refl) as (Hout & Hcarts & Horders & _).
    cbv zeta. split; [exact Hout|]. split; [exact Hcarts|].
    unfold orderDir at 1 2. rewrite Horders. split; reflexivity.
Defined.

Lemma add_twice_then_place_order_witness :
  let f1 := fs (exec (handleAddToCart openShop (quiet 1) "bob" addA1) emptyFS).2 in
  let f2 := fs (exec (handleAddToCart openShop (quiet 2) "bob" addA1) f1).2 in
  let out := exec (handlePlaceOrder fiveDCR openShop (quiet 3) "bob" placeorder) f2 in
  (exists o,
     orderDir (fs out.2) "bob" !! 1%N = Some o /\
     o_ID o = 1%N /\ o_User o = "bob" /\
     Items (o_Cart o) = [{| ci_Product := widget; ci_Quantity := 2 |}]) /\
  Items (cartOf f2 "bob") = [{| ci_Product := widget; ci_Quantity := 2 |}] /\
  carts (fs out.2) !! "bob" = None.
Proof.
  intros f1 f2 out.
  pose proof (add_twice_then_place_order fiveDCR openShop (quiet 1) (quiet 2)
                (quiet 3) "bob" addA1 placeorder emptyFS "A1" "Bob" widget
                eq_refl eq_refl) as H.
  cbv zeta in H.
  destruct H as ((o & H1 & H2 & H3 & H4) & H5 & H6); try concrete.
  split; [by exists o|]. split; [exact H5|exact H6].
Defined.


Lemma emptyFS_cartsOK : cartsOK emptyFS.
Proof. intros u c Hc. cbn in Hc. by rewrite lookup_empty in Hc. Defined.

Lemma emptyFS_ordersOK : ordersOK emptyFS.
Proof.
  intros u k o Hk. unfold orderDir in Hk. cbn in Hk.
  rewrite lookup_empty in Hk. cbn in Hk. by rewrite lookup_empty in Hk.
Defined.

Lemma run_keeps_one_item_per_sku_witness :
  let add := {| inv_handler := HAddToCart; inv_uid := "bob";
                inv_request := addA1; inv_world := quiet 1 |} in
  let place := {| inv_handler := HPlaceOrder; inv_uid := "bob";
                  inv_request := placeorder; inv_world := quiet 2 |} in
  cartsOK (run fiveDCR openShop [add; add; place; add] emptyFS).1.
Proof.
  intros add place.
  exact (run_keeps_one_item_per_sku fiveDCR openShop [add; add; place; add]
           emptyFS emptyFS_cartsOK).
Defined.

Lemma run_keeps_orders_well_filed_witness :
  let add := {| inv_handler := HAddToCart; inv_uid := "bob";
                inv_request := addA1; inv_world := quiet 1 |} in
  let place := {| inv_handler := HPlaceOrder; inv_uid := "bob";
                  inv_request := placeorder; inv_world := quiet 2 |} in
  ordersOK (run fiveDCR openShop [add; add; place; add] emptyFS).1.
Proof.
  intros add place.
  exact (run_keeps_orders_well_filed fiveDCR openShop [add; add; place; add]
           emptyFS emptyFS_cartsOK emptyFS_ordersOK).
Defined.

Lemma run_never_changes_an_order_witness :
  let add := {| inv_handler := HAddToCart; inv_uid := "bob";
                inv_request := addA1; inv_world := quiet 5 |} in
  let place := {| inv_handler := HPlaceOrder; inv_uid := "bob";
                  inv_request := placeorder; inv_world := quiet 6 |} in
  orderDir (run fiveDCR openShop [add; place] bobPlacedFS).1 "bob" !! 1%N
  = Some (placedOrder fiveDCR openShop (quiet 3) "bob" bobFS "Bob").
Proof.
  intros add place.
  apply (run_never_changes_an_order fiveDCR openShop [add; place] bobPlacedFS).
  vm_compute. reflexivity.
Defined.

Lemma run_order_numbers_have_no_gap_witness :
  let add := {| inv_handler := HAddToCart; inv_uid := "bob";
                inv_request := addA1; inv_world := quiet 1 |} in
  let place := {| inv_handler := HPlaceOrder; inv_uid := "bob";
                  inv_request := placeorder; inv_world := quiet 2 |} in
  let dir := orderDir (run fiveDCR openShop [add; place; add; place] emptyFS).1
                      "bob" in
  lastID dir = N.of_nat (size dir).
Proof.
  intros add place.
  pose proof (run_order_numbers_have_no_gap fiveDCR openShop "bob"
                [add; place; add; place] emptyFS eq_refl) as H.
  cbv zeta in H. destruct H as (_ & H). exact H.
Defined.

Lemma handleOrders_missing_directory_witness :
  handleOrders countOrders noDirectory "bob" {| Path := ["orders"] |} emptyFS
  = (Ok {| Data := "no orders"; Status := ResourceStatusOk |}, []).
Proof.
  destruct (handleOrders_missing_directory countOrders noDirectory "bob"
              {| Path := ["orders"] |} emptyFS) as (H & _).
  apply H. by left.
Defined.

Lemma handleOrders_skips_unreadable_witness :
  let out := handleOrders countOrders (listing [1%N; 2%N]) "bob"
               {| Path := ["orders"] |} bobPlacedFS in
  (length (omap (readableOrder (listing [1%N; 2%N]) bobPlacedFS "bob") [1%N; 2%N])
   + length out.2 = 2)%nat.
Proof.
  intros out.
  pose proof (handleOrders_skips_unreadable countOrders (listing [1%N; 2%N]) "bob"
                {| Path := ["orders"] |} bobPlacedFS [1%N; 2%N] eq_refl) as H.
  cbv zeta in H. destruct H as (_ & H & _). exact H.
Defined.

Lemma bobPlacedFS_orders :
  forall k, k ∈ [1%N] <-> is_Some (orderDir bobPlacedFS "bob" !! k).
Proof.
  assert (orderDir bobPlacedFS "bob"
          = {[ 1%N := placedOrder fiveDCR openShop (quiet 3) "bob" bobFS "Bob" ]})
    as -> by (vm_compute; reflexivity).
  intros k. rewrite list_elem_of_singleton. split.
  - intros ->. rewrite lookup_singleton_eq. eauto.
  - intros [o Ho]. by apply lookup_singleton_Some in Ho as [<- _].
Defined.

Lemma handleOrders_shows_placed_order_witness :
  exists shown,
    handleOrders countOrders (listing [1%N]) "bob" {| Path := ["orders"] |}
                 bobPlacedFS
    = (match countOrders shown with
       | inr err => Err (ErrExecTemplate "product" err)
       | inl data => Ok {| Data := data; Status := ResourceStatusOk |}
       end, []) /\
    exists o, o ∈ shown /\ o_ID o = 1%N.
Proof.
  assert (Items (cartOf bobFS "bob") <> []) as Hcart by discriminate.
  assert (listsAll (listing [1%N]) bobPlacedFS "bob") as Hall.
  { exists [1%N]. split; [reflexivity|]. split; [exact bobPlacedFS_orders|done]. }
  destruct (handleOrders_shows_placed_order countOrders fiveDCR openShop (quiet 3)
              (listing [1%N]) "bob" placeorder {| Path := ["orders"] |} bobFS
              {| Data := "page"; Status := ResourceStatusOk |} Hcart eq_refl Hall)
    as (shown & H1 & (o & H2 & H3 & _) & _).
  exists shown. split; [exact H1|]. by exists o.
Defined.

Lemma handleCart_shows_the_cart_on_disk_witness :
  (exec (handleCart openShop (quiet 2) "bob" {| Path := ["cart"] |})
        (fs (exec (handleAddToCart openShop (quiet 1) "bob" addA1) emptyFS).2)).1
  = Ok {| Data := "page"; Status := ResourceStatusOk |}.
Proof.
  destruct (handleCart_shows_the_cart_on_disk fiveDCR openShop (quiet 1) (quiet 2)
              "bob" addA1 {| Path := ["cart"] |} emptyFS) as (H & _).
  exact (H "A1" widget eq_refl eq_refl eq_refl eq_refl eq_refl).
Defined.
